(** * Kanban board service: ordering, move and authorization core

    A shallow embedding of the FastAPI / SQLAlchemy application under
    [app/]: the ORM models ([app/models]), the CRUD helpers ([app/crud])
    and the endpoints ([app/api/v1/endpoints]), followed by the properties
    of the move / reorder protocol and of the ownership checks.

    Conventions.
    - A table is the list of its rows, in storage order.
    - A UUID is a 128-bit number, a [datetime] a number of ticks.
    - An ORM object is an [Instance]: the row as it was loaded
      ([committed_state]) and the current attribute values ([attrs]).
    - Endpoints run in the monad [DB]: a database session threaded through
      the calls, with a result that is a value, an [HTTPException] or an
      unhandled Python exception (HTTP 500).
    - What the sources leave to the database behind [DATABASE_URL] is a
      parameter, the [Engine]: the range of an [Integer] column, whether
      foreign keys are enforced, and what a negative LIMIT does. *)

From Stdlib Require Import ZArith NArith List String Bool Lia.
Import ListNotations.

Local Open Scope Z_scope.

(* ------------------------------------------------------------------ *)
(** * Basic data *)

Definition UUID := N.
Definition datetime := Z.

Definition uuid_eqb (a b : UUID) : bool := N.eqb a b.

Definition option_eq_dec {A} (dec : forall x y : A, {x = y} + {x <> y})
  (x y : option A) : {x = y} + {x <> y}.
Proof. decide equality. Defined.

(* ------------------------------------------------------------------ *)
(** * The database engine

    The models declare [position] as [Column(Integer)] and the schemas
    take any Python [int] for it; the endpoints pass [skip] and [limit]
    to the query as they come. What the database does with a number
    outside the column's range, with a dangling foreign key and with a
    negative LIMIT depends on the engine: the tests run on SQLite, the
    models are written for PostgreSQL. Either way the statement fails
    with an exception no endpoint catches. *)
Record Engine := mkEngine {
  integer_min : Z;          (* the least and the greatest value of an *)
  integer_max : Z;          (* [Integer] column                       *)
  foreign_keys : bool;      (* are FOREIGN KEY constraints enforced   *)
  negative_limit : bool     (* is a negative LIMIT or OFFSET accepted,
                               as no limit and no offset             *)
}.
Existing Class Engine.

(** SQLite through Python's [sqlite3]: 64-bit integers (a larger [int]
    is an [OverflowError]), foreign keys off unless a PRAGMA turns them
    on, a negative LIMIT is no limit. *)
Definition sqlite : Engine :=
  mkEngine (- 2 ^ 63) (2 ^ 63 - 1) false true.

(** PostgreSQL: [integer] is 32 bits, foreign keys are enforced, a
    negative LIMIT or OFFSET is an error. *)
Definition postgresql : Engine :=
  mkEngine (- 2 ^ 31) (2 ^ 31 - 1) true false.

(** The examples run on the engine of the test suite. *)
#[global] Existing Instance sqlite.

Definition integer_fits (E : Engine) (z : Z) : bool :=
  (integer_min E <=? z) && (z <=? integer_max E).

(** A number bound as the parameter of a LIMIT or an OFFSET: 64 bits on
    both engines. *)
Definition bigint_fits (z : Z) : bool :=
  (- 2 ^ 63 <=? z) && (z <=? 2 ^ 63 - 1).

(* ------------------------------------------------------------------ *)
(** * app/models *)

(** [models/user.py] *)
Module User.
Record t := mk {
    id : UUID;
    email : string;
    username : string;
    hashed_password : string;
    full_name : option string;
    is_active : bool;
    is_superuser : bool;
    created_at : datetime;
    updated_at : datetime
}.

Definition eq_dec (a b : t) : {a = b} + {a <> b}.
Proof.
    decide equality;
      auto using Z.eq_dec, N.eq_dec, string_dec, bool_dec, option_eq_dec.
Defined.

Definition set_email (u : t) (v : string) : t :=
    mk (id u) v (username u) (hashed_password u) (full_name u)
       (is_active u) (is_superuser u) (created_at u) (updated_at u).
Definition set_username (u : t) (v : string) : t :=
    mk (id u) (email u) v (hashed_password u) (full_name u)
       (is_active u) (is_superuser u) (created_at u) (updated_at u).
Definition set_hashed_password (u : t) (v : string) : t :=
    mk (id u) (email u) (username u) v (full_name u)
       (is_active u) (is_superuser u) (created_at u) (updated_at u).
Definition set_full_name (u : t) (v : option string) : t :=
    mk (id u) (email u) (username u) (hashed_password u) v
       (is_active u) (is_superuser u) (created_at u) (updated_at u).
Definition set_is_active (u : t) (v : bool) : t :=
    mk (id u) (email u) (username u) (hashed_password u) (full_name u)
       v (is_superuser u) (created_at u) (updated_at u).
(** [onupdate=func.now()] *)
Definition set_updated_at (u : t) (v : datetime) : t :=
    mk (id u) (email u) (username u) (hashed_password u) (full_name u)
       (is_active u) (is_superuser u) (created_at u) v.
End User.

(** [models/board.py] *)
Module Board.
Record t := mk {
    id : UUID;
    title : string;
    description : option string;
    owner_id : UUID;
    created_at : datetime;
    updated_at : datetime
}.

Definition eq_dec (a b : t) : {a = b} + {a <> b}.
Proof.
    decide equality;
      auto using Z.eq_dec, N.eq_dec, string_dec, option_eq_dec.
Defined.

Definition set_title (b : t) (v : string) : t :=
    mk (id b) v (description b) (owner_id b) (created_at b) (updated_at b).
Definition set_description (b : t) (v : option string) : t :=
    mk (id b) (title b) v (owner_id b) (created_at b) (updated_at b).
Definition set_updated_at (b : t) (v : datetime) : t :=
    mk (id b) (title b) (description b) (owner_id b) (created_at b) v.
End Board.

(** [models/list.py], class [List] (the name [List] is taken by the
    Standard Library). *)
Module BList.
Record t := mk {
    id : UUID;
    title : string;
    position : Z;
    board_id : UUID;
    created_at : datetime;
    updated_at : datetime
}.

Definition eq_dec (a b : t) : {a = b} + {a <> b}.
Proof.
    decide equality; auto using Z.eq_dec, N.eq_dec, string_dec.
Defined.

Definition set_title (l : t) (v : string) : t :=
    mk (id l) v (position l) (board_id l) (created_at l) (updated_at l).
Definition set_position (l : t) (v : Z) : t :=
    mk (id l) (title l) v (board_id l) (created_at l) (updated_at l).
Definition set_updated_at (l : t) (v : datetime) : t :=
    mk (id l) (title l) (position l) (board_id l) (created_at l) v.
End BList.

(** [models/card.py] *)
Inductive PriorityEnum := LOW | MEDIUM | HIGH.

Definition PriorityEnum_eq_dec (a b : PriorityEnum) : {a = b} + {a <> b}.
Proof. decide equality. Defined.

Module Card.
Record t := mk {
    id : UUID;
    title : string;
    description : option string;
    position : Z;
    list_id : UUID;
    assigned_to_id : option UUID;
    due_date : option datetime;
    priority : option PriorityEnum;
    created_at : datetime;
    updated_at : datetime
}.

Definition eq_dec (a b : t) : {a = b} + {a <> b}.
Proof.
    decide equality;
      auto using Z.eq_dec, N.eq_dec, string_dec, option_eq_dec,
        PriorityEnum_eq_dec.
Defined.

Definition set_title (c : t) (v : string) : t :=
    mk (id c) v (description c) (position c) (list_id c) (assigned_to_id c)
       (due_date c) (priority c) (created_at c) (updated_at c).
Definition set_description (c : t) (v : option string) : t :=
    mk (id c) (title c) v (position c) (list_id c) (assigned_to_id c)
       (due_date c) (priority c) (created_at c) (updated_at c).
Definition set_position (c : t) (v : Z) : t :=
    mk (id c) (title c) (description c) v (list_id c) (assigned_to_id c)
       (due_date c) (priority c) (created_at c) (updated_at c).
Definition set_list_id (c : t) (v : UUID) : t :=
    mk (id c) (title c) (description c) (position c) v (assigned_to_id c)
       (due_date c) (priority c) (created_at c) (updated_at c).
Definition set_assigned_to_id (c : t) (v : option UUID) : t :=
    mk (id c) (title c) (description c) (position c) (list_id c) v
       (due_date c) (priority c) (created_at c) (updated_at c).
Definition set_due_date (c : t) (v : option datetime) : t :=
    mk (id c) (title c) (description c) (position c) (list_id c)
       (assigned_to_id c) v (priority c) (created_at c) (updated_at c).
Definition set_priority (c : t) (v : option PriorityEnum) : t :=
    mk (id c) (title c) (description c) (position c) (list_id c)
       (assigned_to_id c) (due_date c) v (created_at c) (updated_at c).
Definition set_updated_at (c : t) (v : datetime) : t :=
    mk (id c) (title c) (description c) (position c) (list_id c)
       (assigned_to_id c) (due_date c) (priority c) (created_at c) v.
End Card.

(* ------------------------------------------------------------------ *)
(** * The database and the ORM session *)

(** The four tables of [Base.metadata]. *)
Record Store := mkStore {
  users : list User.t;
  boards : list Board.t;
  lists : list BList.t;
  cards : list Card.t
}.

Definition set_users (db : Store) (v : list User.t) : Store :=
  mkStore v (boards db) (lists db) (cards db).
Definition set_boards (db : Store) (v : list Board.t) : Store :=
  mkStore (users db) v (lists db) (cards db).
Definition set_lists (db : Store) (v : list BList.t) : Store :=
  mkStore (users db) (boards db) v (cards db).
Definition set_cards (db : Store) (v : list Card.t) : Store :=
  mkStore (users db) (boards db) (lists db) v.

Section Table.
Context {T : Type} (pk : T -> UUID).

(** [SELECT ... WHERE id = :id LIMIT 1] *)
Definition select_by_id (id : UUID) (rows : list T) : option T :=
  find (fun r => uuid_eqb (pk r) id) rows.

(** [UPDATE ... SET <columns of v> WHERE id = :id] *)
Definition update_where_id (id : UUID) (v : T) (rows : list T) : list T :=
  map (fun r => if uuid_eqb (pk r) id then v else r) rows.

(** [DELETE ... WHERE p] *)
Definition delete_where (p : T -> bool) (rows : list T) : list T :=
  filter (fun r => negb (p r)) rows.

(** [ForeignKey("<table>.id")]: the row an id refers to is there; a
    nullable column may hold no id. *)
Definition references (rows : list T) (id : UUID) : bool :=
  match select_by_id id rows with
  | Some _ => true
  | None => false
  end.

Definition references_or_null (rows : list T) (id : option UUID) : bool :=
  match id with
  | Some id => references rows id
  | None => true
  end.

(** [.offset(skip).limit(limit)]: [None] when the engine refuses the
    statement. *)
Definition page (E : Engine) (skip limit : Z) (rows : list T)
  : option (list T) :=
  if negb (bigint_fits skip && bigint_fits limit) then None
  else if ((skip <? 0) || (limit <? 0)) && negb (negative_limit E) then None
  else
    let rest := skipn (Z.to_nat skip) rows in
    Some (if limit <? 0 then rest else firstn (Z.to_nat limit) rest).
End Table.

(** An ORM object attached to the session: the row as loaded and the
    attribute values the Python code reads and assigns. *)
Record Instance (T : Type) := mkInstance {
  committed_state : T;
  attrs : T
}.
Arguments mkInstance {T} _ _.
Arguments committed_state {T} _.
Arguments attrs {T} _.

Definition loaded {T} (row : T) : Instance T := mkInstance row row.

(** [obj.<field> = v] *)
Definition setattr {T V} (set : T -> V -> T) (o : Instance T) (v : V)
  : Instance T :=
  mkInstance (committed_state o) (set (attrs o) v).

Inductive Entity :=
| EUser (o : Instance User.t)
| EBoard (o : Instance Board.t)
| EList (o : Instance BList.t)
| ECard (o : Instance Card.t).

(** What the unit of work holds until the next flush. *)
Inductive Pending :=
| Added (e : Entity)       (* db.add(obj) *)
| Deleted (e : Entity).    (* db.delete(obj) *)

Record Session := mkSession {
  engine : Engine;           (* the engine the session is bound to *)
  database : Store;          (* the committed database *)
  pending : list Pending;    (* the unit of work *)
  committed : list Store;    (* the database after each COMMIT, oldest first *)
  now : datetime             (* func.now() of this request *)
}.

(** The unique indexes of [users] ([email], [username]): does writing [v]
    over row [id] collide with another row? Only a column the UPDATE
    assigns is checked. *)
Definition user_unique_violation (id : UUID) (old v : User.t)
  (rows : list User.t) : bool :=
  existsb (fun r =>
    negb (uuid_eqb (User.id r) id) &&
    ((negb (String.eqb (User.email old) (User.email v)) &&
        String.eqb (User.email r) (User.email v)) ||
     (negb (String.eqb (User.username old) (User.username v)) &&
        String.eqb (User.username r) (User.username v)))) rows.

(** An UPDATE sets the columns whose value differs from the loaded one.
    The engine refuses it when the new [position] is outside the
    [Integer] column, or, where foreign keys are enforced, when the new
    [list_id], [assigned_to_id], [board_id] or [owner_id] refers to no
    row. *)
Definition card_update_accepted (E : Engine) (db : Store) (old v : Card.t)
  : bool :=
  ((Card.position old =? Card.position v) ||
   integer_fits E (Card.position v)) &&
  (negb (foreign_keys E) ||
   ((uuid_eqb (Card.list_id old) (Card.list_id v) ||
     references BList.id (lists db) (Card.list_id v)) &&
    (if option_eq_dec N.eq_dec (Card.assigned_to_id old)
          (Card.assigned_to_id v)
     then true
     else references_or_null User.id (users db) (Card.assigned_to_id v)))).

Definition list_update_accepted (E : Engine) (db : Store) (old v : BList.t)
  : bool :=
  ((BList.position old =? BList.position v) ||
   integer_fits E (BList.position v)) &&
  (negb (foreign_keys E) ||
   uuid_eqb (BList.board_id old) (BList.board_id v) ||
   references Board.id (boards db) (BList.board_id v)).

Definition board_update_accepted (E : Engine) (db : Store) (old v : Board.t)
  : bool :=
  negb (foreign_keys E) ||
  uuid_eqb (Board.owner_id old) (Board.owner_id v) ||
  references User.id (users db) (Board.owner_id v).

(** The flush of one persistent object. SQLAlchemy compares every assigned
    attribute with its loaded value and emits no UPDATE when none differs;
    an UPDATE also sets [updated_at] ([onupdate=func.now()]). [None] is
    the exception of a statement the engine refuses (an IntegrityError, a
    DataError, an OverflowError). *)
Definition flush_update (E : Engine) (t : datetime) (db : Store)
  (e : Entity) : option Store :=
  match e with
  | EUser o =>
      if User.eq_dec (committed_state o) (attrs o) then Some db
      else if user_unique_violation (User.id (committed_state o))
                (committed_state o) (attrs o) (users db) then None
      else Some (set_users db
                   (update_where_id User.id (User.id (committed_state o))
                      (User.set_updated_at (attrs o) t) (users db)))
  | EBoard o =>
      if Board.eq_dec (committed_state o) (attrs o) then Some db
      else if negb (board_update_accepted E db (committed_state o) (attrs o))
      then None
      else Some (set_boards db
                   (update_where_id Board.id (Board.id (committed_state o))
                      (Board.set_updated_at (attrs o) t) (boards db)))
  | EList o =>
      if BList.eq_dec (committed_state o) (attrs o) then Some db
      else if negb (list_update_accepted E db (committed_state o) (attrs o))
      then None
      else Some (set_lists db
                   (update_where_id BList.id (BList.id (committed_state o))
                      (BList.set_updated_at (attrs o) t) (lists db)))
  | ECard o =>
      if Card.eq_dec (committed_state o) (attrs o) then Some db
      else if negb (card_update_accepted E db (committed_state o) (attrs o))
      then None
      else Some (set_cards db
                   (update_where_id Card.id (Card.id (committed_state o))
                      (Card.set_updated_at (attrs o) t) (cards db)))
  end.

Definition in_board (board_id : UUID) (db : Store) (list_id : UUID) : bool :=
  existsb (fun l => uuid_eqb (BList.id l) list_id &&
                    uuid_eqb (BList.board_id l) board_id) (lists db).

(** The flush of a deleted object, with the cascades of the models:
    [cascade="all, delete-orphan"] from a board to its lists and from a
    list to its cards, [ondelete="SET NULL"] on [Card.assigned_to_id]. *)
Definition flush_delete (db : Store) (e : Entity) : Store :=
  match e with
  | ECard o =>
      set_cards db
        (delete_where (fun c => uuid_eqb (Card.id c) (Card.id (committed_state o)))
           (cards db))
  | EList o =>
      let id := BList.id (committed_state o) in
      mkStore (users db) (boards db)
        (delete_where (fun l => uuid_eqb (BList.id l) id) (lists db))
        (delete_where (fun c => uuid_eqb (Card.list_id c) id) (cards db))
  | EBoard o =>
      let id := Board.id (committed_state o) in
      mkStore (users db)
        (delete_where (fun b => uuid_eqb (Board.id b) id) (boards db))
        (delete_where (fun l => uuid_eqb (BList.board_id l) id) (lists db))
        (delete_where (fun c => in_board id db (Card.list_id c)) (cards db))
  | EUser o =>
      let id := User.id (committed_state o) in
      let owned b := existsb (fun x => uuid_eqb (Board.id x) b &&
                                       uuid_eqb (Board.owner_id x) id)
                       (boards db) in
      let in_owned l := existsb (fun x => uuid_eqb (BList.id x) l &&
                                          owned (BList.board_id x))
                          (lists db) in
      mkStore
        (delete_where (fun u => uuid_eqb (User.id u) id) (users db))
        (delete_where (fun b => uuid_eqb (Board.owner_id b) id) (boards db))
        (delete_where (fun l => owned (BList.board_id l)) (lists db))
        (map (fun c =>
                match Card.assigned_to_id c with
                | Some a => if uuid_eqb a id
                            then Card.set_assigned_to_id c None else c
                | None => c
                end)
           (delete_where (fun c => in_owned (Card.list_id c)) (cards db)))
  end.

Definition flush_one (E : Engine) (t : datetime) (db : option Store)
  (p : Pending) : option Store :=
  match db with
  | None => None
  | Some db =>
      match p with
      | Added e => flush_update E t db e
      | Deleted e => Some (flush_delete db e)
      end
  end.

Definition flush (E : Engine) (t : datetime) (db : Store)
  (ps : list Pending) : option Store :=
  fold_left (flush_one E t) ps (Some db).

(* ------------------------------------------------------------------ *)
(** * Results and the session monad *)

(** [fastapi.HTTPException(status_code=..., detail=...)] *)
Record HTTPException := mkHTTPException {
  status_code : Z;
  detail : string
}.

Definition HTTP_400_BAD_REQUEST : Z := 400.
Definition HTTP_401_UNAUTHORIZED : Z := 401.
Definition HTTP_403_FORBIDDEN : Z := 403.
Definition HTTP_404_NOT_FOUND : Z := 404.

(** The outcome of a call: a value, a raised [HTTPException], or any other
    Python exception ([AttributeError] on [None], the exception of a
    statement the engine refuses), which the framework answers with
    status 500. *)
Inductive Response (A : Type) :=
| Ok (a : A)
| Raise (e : HTTPException)
| ServerError.
Arguments Ok {A} _.
Arguments Raise {A} _.
Arguments ServerError {A}.

Definition DB (A : Type) : Type := Session -> Response A * Session.

Definition ret {A} (a : A) : DB A := fun ss => (Ok a, ss).

Definition bind {A B} (m : DB A) (k : A -> DB B) : DB B :=
  fun ss =>
    match m ss with
    | (Ok a, ss') => k a ss'
    | (Raise e, ss') => (Raise e, ss')
    | (ServerError, ss') => (ServerError, ss')
    end.

Definition raise {A} (e : HTTPException) : DB A := fun ss => (Raise e, ss).

Definition server_error {A} : DB A := fun ss => (ServerError, ss).

Declare Scope db_scope.
Delimit Scope db_scope with db.
Notation "x <- m ;; k" := (bind m (fun x => k))
  (at level 100, m at next level, right associativity) : db_scope.
Notation "m ;; k" := (bind m (fun _ => k))
  (at level 100, right associativity) : db_scope.
Local Open Scope db_scope.

(** [if cond: raise e] *)
Definition raise_if (cond : bool) (e : HTTPException) : DB unit :=
  if cond then raise e else ret tt.

(** Attribute access on a value that may be [None]. *)
Definition not_none {A} (o : option A) : DB A :=
  match o with
  | Some a => ret a
  | None => server_error
  end.

(** [db.query(...)]: read the database of the session. *)
Definition query {A} (q : Store -> A) : DB A :=
  fun ss => (Ok (q (database ss)), ss).

(** A query the engine may refuse. *)
Definition execute {A} (q : Engine -> Store -> option A) : DB A :=
  fun ss =>
    match q (engine ss) (database ss) with
    | Some a => (Ok a, ss)
    | None => (ServerError, ss)
    end.

(** [db.add(obj)] *)
Definition db_add (e : Entity) : DB unit :=
  fun ss => (Ok tt, mkSession (engine ss) (database ss)
                      (pending ss ++ [Added e]) (committed ss) (now ss)).

(** [db.delete(obj)] *)
Definition db_delete (e : Entity) : DB unit :=
  fun ss => (Ok tt, mkSession (engine ss) (database ss)
                      (pending ss ++ [Deleted e]) (committed ss) (now ss)).

(** [db.commit()]: flush the unit of work in one transaction and commit
    it. The writes become visible together, as one new database state; a
    statement the engine refuses leaves the database as it was. *)
Definition db_commit : DB unit :=
  fun ss =>
    match flush (engine ss) (now ss) (database ss) (pending ss) with
    | Some db' =>
        (Ok tt, mkSession (engine ss) db' [] (committed ss ++ [db']) (now ss))
    | None =>
        (ServerError,
         mkSession (engine ss) (database ss) [] (committed ss) (now ss))
    end.

(** [db.refresh(obj)]: load the row again by primary key. *)
Definition db_refresh {T} (table : Store -> list T) (pk : T -> UUID)
  (o : Instance T) : DB (Instance T) :=
  row <- query (fun db => select_by_id pk (pk (committed_state o)) (table db)) ;;
  match row with
  | Some r => ret (loaded r)
  | None => server_error
  end.

(** One request: [get_db] opens a session on the database, the endpoint
    runs in it, the session is closed. The result is the response, the
    database left behind and the states committed on the way. *)
Definition request {A} {E : Engine} (t : datetime) (db : Store)
  (endpoint : DB A) : Response A * Store * list Store :=
  let '(r, ss) := endpoint (mkSession E db [] [] t) in
  (r, database ss, committed ss).

Definition response {A} (x : Response A * Store * list Store) : Response A :=
  fst (fst x).
Definition final_db {A} (x : Response A * Store * list Store) : Store :=
  snd (fst x).
Definition commits {A} (x : Response A * Store * list Store) : list Store :=
  snd x.

(* ------------------------------------------------------------------ *)
(** * app/schemas

    In an update schema [None] is a field the caller did not supply. *)

Module BoardUpdate.
Record t := mk {
  title : option string;
  description : option string
}.
End BoardUpdate.

Module ListUpdate.
Record t := mk {
  title : option string;
  position : option Z
}.
End ListUpdate.

Module ListReorder.
Record t := mk { position : Z }.
End ListReorder.

Module CardUpdate.
Record t := mk {
  title : option string;
  description : option string;
  position : option Z;
  assigned_to_id : option UUID;
  due_date : option datetime;
  priority : option PriorityEnum
}.
End CardUpdate.

Module CardMove.
Record t := mk {
  list_id : UUID;
  position : Z
}.
End CardMove.

Module CardReorder.
Record t := mk { position : Z }.
End CardReorder.

Module UserUpdate.
Record t := mk {
  email : option string;
  username : option string;
  full_name : option string;
  is_active : option bool
}.
End UserUpdate.

Module UserUpdatePassword.
Record t := mk {
  current_password : string;
  new_password : string
}.
End UserUpdatePassword.

(** [setattr(db_obj, field, value)] for a field the caller supplied. *)
Definition assign {T V} (set : T -> V -> T) (v : option V) (o : Instance T)
  : Instance T :=
  match v with
  | Some x => setattr set o x
  | None => o
  end.

(* ------------------------------------------------------------------ *)
(** * app/crud

    [app/crud/base.py] ([CRUDBase]: [get], [update], [remove]) is not among
    the sources; each model's copy of these three methods below is
    modelled from the specification. *)

Module board_crud.

(** Modelled from the spec: [CRUDBase.get] of [app/crud/base.py], which is
    missing. The spec's resolver fetches an entity by its id and finds it
    missing or not: the row with this primary key, or [None]. *)
Definition get (id : UUID) : DB (option (Instance Board.t)) :=
  query (fun db => option_map loaded (select_by_id Board.id id (boards db))).

(** Modelled from the spec: [CRUDBase.update] of [app/crud/base.py], which
    is missing. "UpdateBoard: board id, partial fields -> Board": the
    supplied fields are assigned, committed, and the object refreshed. *)
Definition update (db_obj : Instance Board.t) (obj_in : BoardUpdate.t)
  : DB (Instance Board.t) :=
  let db_obj := assign Board.set_title (BoardUpdate.title obj_in) db_obj in
  let db_obj := assign Board.set_description
                  (option_map Some (BoardUpdate.description obj_in)) db_obj in
  db_add (EBoard db_obj) ;;
  db_commit ;;
  db_refresh boards Board.id db_obj.

(** Modelled from the spec: [CRUDBase.remove] of [app/crud/base.py], which
    is missing. "DeleteBoard: none (cascade deletes Lists/Cards)". *)
Definition remove (id : UUID) : DB (Instance Board.t) :=
  obj <- get id ;;
  obj <- not_none obj ;;
  db_delete (EBoard obj) ;;
  db_commit ;;
  ret obj.

(** [CRUDBoard.get_multi_by_owner]: filter, offset, limit. *)
Definition get_multi_by_owner (owner_id : UUID) (skip limit : Z)
  : DB (list (Instance Board.t)) :=
  execute (fun E db =>
    option_map (map loaded)
      (page E skip limit
         (filter (fun b => uuid_eqb (Board.owner_id b) owner_id)
            (boards db)))).

End board_crud.

Module list_crud.

(** Modelled from the spec: [CRUDBase.get], as [board_crud.get]. *)
Definition get (id : UUID) : DB (option (Instance BList.t)) :=
  query (fun db => option_map loaded (select_by_id BList.id id (lists db))).

(** Modelled from the spec: [CRUDBase.update], as [board_crud.update]. *)
Definition update (db_obj : Instance BList.t) (obj_in : ListUpdate.t)
  : DB (Instance BList.t) :=
  let db_obj := assign BList.set_title (ListUpdate.title obj_in) db_obj in
  let db_obj := assign BList.set_position (ListUpdate.position obj_in) db_obj in
  db_add (EList db_obj) ;;
  db_commit ;;
  db_refresh lists BList.id db_obj.

(** Modelled from the spec: [CRUDBase.remove]; "deleting a List removes
    all its Cards". *)
Definition remove (id : UUID) : DB (Instance BList.t) :=
  obj <- get id ;;
  obj <- not_none obj ;;
  db_delete (EList obj) ;;
  db_commit ;;
  ret obj.

(** [CRUDList.reorder] *)
Definition reorder (db_obj : Instance BList.t) (new_position : Z)
  : DB (Instance BList.t) :=
  let db_obj := setattr BList.set_position db_obj new_position in
  db_add (EList db_obj) ;;
  db_commit ;;
  db_refresh lists BList.id db_obj.

End list_crud.

Module card_crud.

(** Modelled from the spec: [CRUDBase.get], as [board_crud.get]. *)
Definition get (id : UUID) : DB (option (Instance Card.t)) :=
  query (fun db => option_map loaded (select_by_id Card.id id (cards db))).

(** Modelled from the spec: [CRUDBase.update], as [board_crud.update]. *)
Definition update (db_obj : Instance Card.t) (obj_in : CardUpdate.t)
  : DB (Instance Card.t) :=
  let db_obj := assign Card.set_title (CardUpdate.title obj_in) db_obj in
  let db_obj := assign Card.set_description
                  (option_map Some (CardUpdate.description obj_in)) db_obj in
  let db_obj := assign Card.set_position (CardUpdate.position obj_in) db_obj in
  let db_obj := assign Card.set_assigned_to_id
                  (option_map Some (CardUpdate.assigned_to_id obj_in)) db_obj in
  let db_obj := assign Card.set_due_date
                  (option_map Some (CardUpdate.due_date obj_in)) db_obj in
  let db_obj := assign Card.set_priority
                  (option_map Some (CardUpdate.priority obj_in)) db_obj in
  db_add (ECard db_obj) ;;
  db_commit ;;
  db_refresh cards Card.id db_obj.

(** Modelled from the spec: [CRUDBase.remove]. *)
Definition remove (id : UUID) : DB (Instance Card.t) :=
  obj <- get id ;;
  obj <- not_none obj ;;
  db_delete (ECard obj) ;;
  db_commit ;;
  ret obj.

(** [CRUDCard.move_to_list] *)
Definition move_to_list (db_obj : Instance Card.t) (list_id : UUID)
  (position : Z) : DB (Instance Card.t) :=
  let db_obj := setattr Card.set_list_id db_obj list_id in
  let db_obj := setattr Card.set_position db_obj position in
  db_add (ECard db_obj) ;;
  db_commit ;;
  db_refresh cards Card.id db_obj.

(** [CRUDCard.reorder] *)
Definition reorder (db_obj : Instance Card.t) (new_position : Z)
  : DB (Instance Card.t) :=
  let db_obj := setattr Card.set_position db_obj new_position in
  db_add (ECard db_obj) ;;
  db_commit ;;
  db_refresh cards Card.id db_obj.

End card_crud.

Module user_crud.

(** Modelled from the spec: [CRUDBase.get], as [board_crud.get]. *)
Definition get (id : UUID) : DB (option (Instance User.t)) :=
  query (fun db => option_map loaded (select_by_id User.id id (users db))).

(** [CRUDUser.get_by_email] *)
Definition get_by_email (email : string) : DB (option (Instance User.t)) :=
  query (fun db =>
    option_map loaded
      (find (fun u => String.eqb (User.email u) email) (users db))).

(** [CRUDUser.get_by_username] *)
Definition get_by_username (username : string)
  : DB (option (Instance User.t)) :=
  query (fun db =>
    option_map loaded
      (find (fun u => String.eqb (User.username u) username) (users db))).

(** Modelled from the spec: [CRUDBase.update], as [board_crud.update]
    ("UpdateProfile: partial user fields -> User"). *)
Definition update (db_obj : Instance User.t) (obj_in : UserUpdate.t)
  : DB (Instance User.t) :=
  let db_obj := assign User.set_email (UserUpdate.email obj_in) db_obj in
  let db_obj := assign User.set_username (UserUpdate.username obj_in) db_obj in
  let db_obj := assign User.set_full_name
                  (option_map Some (UserUpdate.full_name obj_in)) db_obj in
  let db_obj := assign User.set_is_active (UserUpdate.is_active obj_in) db_obj in
  db_add (EUser db_obj) ;;
  db_commit ;;
  db_refresh users User.id db_obj.

(** [CRUDUser.is_active] *)
Definition is_active (user : Instance User.t) : bool :=
  User.is_active (attrs user).

Section Security.
(** [app/core/security.py] is not among the sources. *)
Variable get_password_hash : string -> string.

(** [CRUDUser.update_password] *)
Definition update_password (user : Instance User.t) (new_password : string)
  : DB (Instance User.t) :=
  let user := setattr User.set_hashed_password user
                (get_password_hash new_password) in
  db_add (EUser user) ;;
  db_commit ;;
  db_refresh users User.id user.
End Security.

End user_crud.

(* ------------------------------------------------------------------ *)
(** * app/api/deps.py *)

Section Deps.
(** [app/core/security.py] is not among the sources: the token decoder
    and the parser of [uuid.UUID] ([None] for [ValueError]) are taken as
    given. *)
Variable decode_access_token : string -> option string.
Variable UUID_of_string : string -> option UUID.

Definition credentials_exception : HTTPException :=
  mkHTTPException HTTP_401_UNAUTHORIZED "Could not validate credentials".

Definition get_current_user (token : string) : DB (Instance User.t) :=
  match decode_access_token token with
  | None => raise credentials_exception
  | Some user_id_str =>
      match UUID_of_string user_id_str with
      | None => raise credentials_exception
      | Some user_id =>
          user <- user_crud.get user_id ;;
          match user with
          | None => raise credentials_exception
          | Some user => ret user
          end
      end
  end.

Definition get_current_active_user (token : string)
  : DB (Instance User.t) :=
  current_user <- get_current_user token ;;
  raise_if (negb (user_crud.is_active current_user))
    (mkHTTPException HTTP_400_BAD_REQUEST "Inactive user") ;;
  ret current_user.
End Deps.

(* ------------------------------------------------------------------ *)
(** * app/api/v1/endpoints/boards.py *)

Definition list_boards (skip limit : Z) (current_user : Instance User.t)
  : DB (list (Instance Board.t)) :=
  boards <- board_crud.get_multi_by_owner
              (User.id (attrs current_user)) skip limit ;;
  ret boards.

Definition update_board (board_id : UUID) (board_in : BoardUpdate.t)
  (current_user : Instance User.t) : DB (Instance Board.t) :=
  board <- board_crud.get board_id ;;
  match board with
  | None => raise (mkHTTPException HTTP_404_NOT_FOUND "Board not found")
  | Some board =>
      raise_if (negb (uuid_eqb (Board.owner_id (attrs board))
                               (User.id (attrs current_user))))
        (mkHTTPException HTTP_403_FORBIDDEN
           "Not authorized to update this board") ;;
      board <- board_crud.update board board_in ;;
      ret board
  end.

Definition delete_board (board_id : UUID) (current_user : Instance User.t)
  : DB unit :=
  board <- board_crud.get board_id ;;
  match board with
  | None => raise (mkHTTPException HTTP_404_NOT_FOUND "Board not found")
  | Some board =>
      raise_if (negb (uuid_eqb (Board.owner_id (attrs board))
                               (User.id (attrs current_user))))
        (mkHTTPException HTTP_403_FORBIDDEN
           "Not authorized to delete this board") ;;
      board_crud.remove board_id ;;
      ret tt
  end.

(* ------------------------------------------------------------------ *)
(** * app/api/v1/endpoints/lists.py *)

Definition update_list (list_id : UUID) (list_in : ListUpdate.t)
  (current_user : Instance User.t) : DB (Instance BList.t) :=
  list_obj <- list_crud.get list_id ;;
  match list_obj with
  | None => raise (mkHTTPException HTTP_404_NOT_FOUND "List not found")
  | Some list_obj =>
      board <- board_crud.get (BList.board_id (attrs list_obj)) ;;
      board <- not_none board ;;
      raise_if (negb (uuid_eqb (Board.owner_id (attrs board))
                               (User.id (attrs current_user))))
        (mkHTTPException HTTP_403_FORBIDDEN
           "Not authorized to update this list") ;;
      list_obj <- list_crud.update list_obj list_in ;;
      ret list_obj
  end.

Definition delete_list (list_id : UUID) (current_user : Instance User.t)
  : DB unit :=
  list_obj <- list_crud.get list_id ;;
  match list_obj with
  | None => raise (mkHTTPException HTTP_404_NOT_FOUND "List not found")
  | Some list_obj =>
      board <- board_crud.get (BList.board_id (attrs list_obj)) ;;
      board <- not_none board ;;
      raise_if (negb (uuid_eqb (Board.owner_id (attrs board))
                               (User.id (attrs current_user))))
        (mkHTTPException HTTP_403_FORBIDDEN
           "Not authorized to delete this list") ;;
      list_crud.remove list_id ;;
      ret tt
  end.

Definition reorder_list (list_id : UUID) (reorder_data : ListReorder.t)
  (current_user : Instance User.t) : DB (Instance BList.t) :=
  list_obj <- list_crud.get list_id ;;
  match list_obj with
  | None => raise (mkHTTPException HTTP_404_NOT_FOUND "List not found")
  | Some list_obj =>
      board <- board_crud.get (BList.board_id (attrs list_obj)) ;;
      board <- not_none board ;;
      raise_if (negb (uuid_eqb (Board.owner_id (attrs board))
                               (User.id (attrs current_user))))
        (mkHTTPException HTTP_403_FORBIDDEN
           "Not authorized to reorder this list") ;;
      list_obj <- list_crud.reorder list_obj
                    (ListReorder.position reorder_data) ;;
      ret list_obj
  end.

(* ------------------------------------------------------------------ *)
(** * app/api/v1/endpoints/cards.py *)

Definition update_card (card_id : UUID) (card_in : CardUpdate.t)
  (current_user : Instance User.t) : DB (Instance Card.t) :=
  card <- card_crud.get card_id ;;
  match card with
  | None => raise (mkHTTPException HTTP_404_NOT_FOUND "Card not found")
  | Some card =>
      list_obj <- list_crud.get (Card.list_id (attrs card)) ;;
      list_obj <- not_none list_obj ;;
      board <- board_crud.get (BList.board_id (attrs list_obj)) ;;
      board <- not_none board ;;
      raise_if (negb (uuid_eqb (Board.owner_id (attrs board))
                               (User.id (attrs current_user))))
        (mkHTTPException HTTP_403_FORBIDDEN
           "Not authorized to update this card") ;;
      card <- card_crud.update card card_in ;;
      ret card
  end.

Definition delete_card (card_id : UUID) (current_user : Instance User.t)
  : DB unit :=
  card <- card_crud.get card_id ;;
  match card with
  | None => raise (mkHTTPException HTTP_404_NOT_FOUND "Card not found")
  | Some card =>
      list_obj <- list_crud.get (Card.list_id (attrs card)) ;;
      list_obj <- not_none list_obj ;;
      board <- board_crud.get (BList.board_id (attrs list_obj)) ;;
      board <- not_none board ;;
      raise_if (negb (uuid_eqb (Board.owner_id (attrs board))
                               (User.id (attrs current_user))))
        (mkHTTPException HTTP_403_FORBIDDEN
           "Not authorized to delete this card") ;;
      card_crud.remove card_id ;;
      ret tt
  end.

Definition move_card (card_id : UUID) (move_data : CardMove.t)
  (current_user : Instance User.t) : DB (Instance Card.t) :=
  card <- card_crud.get card_id ;;
  match card with
  | None => raise (mkHTTPException HTTP_404_NOT_FOUND "Card not found")
  | Some card =>
      (* Check current board ownership *)
      current_list <- list_crud.get (Card.list_id (attrs card)) ;;
      current_list <- not_none current_list ;;
      current_board <- board_crud.get (BList.board_id (attrs current_list)) ;;
      current_board <- not_none current_board ;;
      raise_if (negb (uuid_eqb (Board.owner_id (attrs current_board))
                               (User.id (attrs current_user))))
        (mkHTTPException HTTP_403_FORBIDDEN
           "Not authorized to move this card") ;;
      (* Check target list exists and belongs to same board *)
      target_list <- list_crud.get (CardMove.list_id move_data) ;;
      match target_list with
      | None =>
          raise (mkHTTPException HTTP_404_NOT_FOUND "Target list not found")
      | Some target_list =>
          raise_if (negb (uuid_eqb (BList.board_id (attrs target_list))
                                   (Board.id (attrs current_board))))
            (mkHTTPException HTTP_400_BAD_REQUEST
               "Cannot move card to a list in a different board") ;;
          (* Move card *)
          card <- card_crud.move_to_list card (CardMove.list_id move_data)
                    (CardMove.position move_data) ;;
          ret card
      end
  end.

Definition reorder_card (card_id : UUID) (reorder_data : CardReorder.t)
  (current_user : Instance User.t) : DB (Instance Card.t) :=
  card <- card_crud.get card_id ;;
  match card with
  | None => raise (mkHTTPException HTTP_404_NOT_FOUND "Card not found")
  | Some card =>
      list_obj <- list_crud.get (Card.list_id (attrs card)) ;;
      list_obj <- not_none list_obj ;;
      board <- board_crud.get (BList.board_id (attrs list_obj)) ;;
      board <- not_none board ;;
      raise_if (negb (uuid_eqb (Board.owner_id (attrs board))
                               (User.id (attrs current_user))))
        (mkHTTPException HTTP_403_FORBIDDEN
           "Not authorized to reorder this card") ;;
      card <- card_crud.reorder card (CardReorder.position reorder_data) ;;
      ret card
  end.

(* ------------------------------------------------------------------ *)
(** * app/api/v1/endpoints/users.py *)

(** [if v and v != current], for an optional string [v]: supplied, not
    empty, and different from the current value. *)
Definition being_updated (v : option string) (current : string)
  : option string :=
  match v with
  | Some x =>
      if negb (String.eqb x "") && negb (String.eqb x current)
      then Some x else None
  | None => None
  end.

Definition update_user_me (user_in : UserUpdate.t)
  (current_user : Instance User.t) : DB (Instance User.t) :=
  (* Check if email is being updated and already exists *)
  match being_updated (UserUpdate.email user_in)
          (User.email (attrs current_user)) with
  | Some email =>
      existing_user <- user_crud.get_by_email email ;;
      match existing_user with
      | Some _ => raise (mkHTTPException HTTP_400_BAD_REQUEST
                           "Email already registered")
      | None => ret tt
      end
  | None => ret tt
  end ;;
  (* Check if username is being updated and already exists *)
  match being_updated (UserUpdate.username user_in)
          (User.username (attrs current_user)) with
  | Some username =>
      existing_user <- user_crud.get_by_username username ;;
      match existing_user with
      | Some _ => raise (mkHTTPException HTTP_400_BAD_REQUEST
                           "Username already taken")
      | None => ret tt
      end
  | None => ret tt
  end ;;
  (* Update user *)
  user <- user_crud.update current_user user_in ;;
  ret user.

Section Users.
Variable verify_password : string -> string -> bool.
Variable get_password_hash : string -> string.

Definition update_password_me (password_in : UserUpdatePassword.t)
  (current_user : Instance User.t) : DB (Instance User.t) :=
  (* Verify current password *)
  raise_if (negb (verify_password
                    (UserUpdatePassword.current_password password_in)
                    (User.hashed_password (attrs current_user))))
    (mkHTTPException HTTP_400_BAD_REQUEST "Incorrect password") ;;
  (* Update password *)
  user <- user_crud.update_password get_password_hash current_user
            (UserUpdatePassword.new_password password_in) ;;
  ret user.
End Users.

(* ------------------------------------------------------------------ *)
(** * A small database used by the examples

    Alice owns boards 10 and 11, Bob owns board 12. Lists 20 and 21 are on
    board 10, list 22 on board 11, list 23 on board 12. Cards 30 and 31
    are in list 20, card 32 in list 21, card 33 in list 23. *)

Definition alice : User.t :=
  User.mk 1%N "alice@example.com" "alice" "h1" None true false 0 0.
Definition bob : User.t :=
  User.mk 2%N "bob@example.com" "bob" "h2" None true false 0 0.

Definition board_b1 : Board.t := Board.mk 10%N "B1" None 1%N 0 0.
Definition board_b2 : Board.t := Board.mk 11%N "B2" None 1%N 0 0.
Definition board_secret : Board.t := Board.mk 12%N "Secret" None 2%N 0 0.

Definition list_l1 : BList.t := BList.mk 20%N "L1" 0 10%N 0 0.
Definition list_l2 : BList.t := BList.mk 21%N "L2" 1 10%N 0 0.
Definition list_m1 : BList.t := BList.mk 22%N "M1" 0 11%N 0 0.
Definition list_s1 : BList.t := BList.mk 23%N "S1" 0 12%N 0 0.

Definition card_c1 : Card.t :=
  Card.mk 30%N "C1" None 0 20%N None None None 0 0.
Definition card_c2 : Card.t :=
  Card.mk 31%N "C2" None 1 20%N None None (Some HIGH) 0 0.
Definition card_c3 : Card.t :=
  Card.mk 32%N "C3" None 0 21%N None None None 0 0.
Definition card_c4 : Card.t :=
  Card.mk 33%N "C4" None 0 23%N None None None 0 0.

Definition demo_db : Store :=
  mkStore
    [alice; bob]
    [board_b1; board_b2; board_secret]
    [list_l1; list_l2; list_m1; list_s1]
    [card_c1; card_c2; card_c3; card_c4].

(** A database in which one user owns 101 boards, with ids 1000..1100. *)
Definition many_boards : Store :=
  mkStore [alice]
    (map (fun i => Board.mk (1000 + N.of_nat i)%N "B" None 1%N 0 0)
       (seq 0 101))
    [] [].

(* ------------------------------------------------------------------ *)
(** * Vocabulary of the properties *)

(** The ownership chain of the specification (4.1): a card's current
    board is the board of its current list, a list's owner the owner of
    its board. [None] is a link that does not resolve. *)
Definition board_of_list (db : Store) (list_id : UUID) : option Board.t :=
  match select_by_id BList.id list_id (lists db) with
  | Some l => select_by_id Board.id (BList.board_id l) (boards db)
  | None => None
  end.

Definition current_board (db : Store) (c : Card.t) : option Board.t :=
  board_of_list db (Card.list_id c).

Definition get_card (db : Store) (card_id : UUID) : option Card.t :=
  select_by_id Card.id card_id (cards db).

Definition get_list (db : Store) (list_id : UUID) : option BList.t :=
  select_by_id BList.id list_id (lists db).

Definition get_board (db : Store) (board_id : UUID) : option Board.t :=
  select_by_id Board.id board_id (boards db).

(** What the flush of a card does, for a card loaded as [c] whose
    attributes are now [c']: the row written ([updated_at] is set when an
    UPDATE is emitted) and the database after it. *)
Definition written (t : datetime) (c c' : Card.t) : Card.t :=
  if Card.eq_dec c c' then c else Card.set_updated_at c' t.

(** The [cards] table after the row(s) of [card_id] were written. *)
Definition cards_with (card_id : UUID) (v : Card.t) (db : Store)
  : list Card.t :=
  map (fun x => if uuid_eqb (Card.id x) card_id then v else x) (cards db).

Definition after_write (t : datetime) (db : Store) (c c' : Card.t) : Store :=
  if Card.eq_dec c c' then db
  else set_cards db (cards_with (Card.id c) (written t c c') db).

(** The card a move writes, and the card a reorder writes. *)
Definition moved (t : datetime) (c : Card.t) (list_id : UUID) (position : Z)
  : Card.t :=
  written t c (Card.set_position (Card.set_list_id c list_id) position).

Definition reordered (t : datetime) (c : Card.t) (position : Z) : Card.t :=
  written t c (Card.set_position c position).

(** The rows of all the other cards, in table order. *)
Definition other_cards (card_id : UUID) (db : Store) : list Card.t :=
  filter (fun x => negb (uuid_eqb (Card.id x) card_id)) (cards db).

(** ** Operations on an entity

    The reorder, move, update and delete operations of the three entity
    types, each performed as one request. *)
Inductive Operation :=
| UpdateBoard (board_id : UUID) (board_in : BoardUpdate.t)
| DeleteBoard (board_id : UUID)
| UpdateList (list_id : UUID) (list_in : ListUpdate.t)
| DeleteList (list_id : UUID)
| ReorderList (list_id : UUID) (reorder_data : ListReorder.t)
| UpdateCard (card_id : UUID) (card_in : CardUpdate.t)
| DeleteCard (card_id : UUID)
| ReorderCard (card_id : UUID) (reorder_data : CardReorder.t)
| MoveCard (card_id : UUID) (move_data : CardMove.t).

Inductive Outcome :=
| Success
| Failure (e : HTTPException)
| InternalError.

Definition outcome {A} (r : Response A * Store * list Store)
  : Outcome * Store :=
  (match response r with
   | Ok _ => Success
   | Raise e => Failure e
   | ServerError => InternalError
   end, final_db r).

Definition perform {E : Engine} (t : datetime) (db : Store)
  (current_user : Instance User.t) (op : Operation) : Outcome * Store :=
  match op with
  | UpdateBoard id x => outcome (request t db (update_board id x current_user))
  | DeleteBoard id => outcome (request t db (delete_board id current_user))
  | UpdateList id x => outcome (request t db (update_list id x current_user))
  | DeleteList id => outcome (request t db (delete_list id current_user))
  | ReorderList id x => outcome (request t db (reorder_list id x current_user))
  | UpdateCard id x => outcome (request t db (update_card id x current_user))
  | DeleteCard id => outcome (request t db (delete_card id current_user))
  | ReorderCard id x => outcome (request t db (reorder_card id x current_user))
  | MoveCard id x => outcome (request t db (move_card id x current_user))
  end.

(** The specification's [resolveOwner]: the entity an operation names is
    missing, or its chain of parents is broken, or it resolves to a user. *)
Inductive Resolution :=
| Missing
| Dangling
| OwnedBy (user_id : UUID).

Definition owner_of_board (db : Store) (board_id : UUID) : Resolution :=
  match get_board db board_id with
  | None => Missing
  | Some b => OwnedBy (Board.owner_id b)
  end.

Definition owner_of_list (db : Store) (list_id : UUID) : Resolution :=
  match get_list db list_id with
  | None => Missing
  | Some l =>
      match get_board db (BList.board_id l) with
      | None => Dangling
      | Some b => OwnedBy (Board.owner_id b)
      end
  end.

Definition owner_of_card (db : Store) (card_id : UUID) : Resolution :=
  match get_card db card_id with
  | None => Missing
  | Some c =>
      match current_board db c with
      | None => Dangling
      | Some b => OwnedBy (Board.owner_id b)
      end
  end.

Definition resolve_owner (db : Store) (op : Operation) : Resolution :=
  match op with
  | UpdateBoard id _ | DeleteBoard id => owner_of_board db id
  | UpdateList id _ | DeleteList id | ReorderList id _ => owner_of_list db id
  | UpdateCard id _ | DeleteCard id | ReorderCard id _ | MoveCard id _ =>
      owner_of_card db id
  end.

(** ** Listing boards *)

(** The boards of [owner_id], in table order. *)
Definition boards_of (db : Store) (owner_id : UUID) : list Board.t :=
  filter (fun b => uuid_eqb (Board.owner_id b) owner_id) (boards db).

(** [list_boards] answers with exactly the boards the caller owns. *)
Definition lists_exactly_owned_boards {E : Engine} (t : datetime)
  (db : Store) (skip limit : Z) (current_user : Instance User.t) : Prop :=
  exists result,
    response (request t db (list_boards skip limit current_user))
    = Ok result /\
    forall b,
      In b (map attrs result) <->
      In b (boards db) /\ Board.owner_id b = User.id (attrs current_user).

(** ** Updating the profile *)

Definition get_user (db : Store) (user_id : UUID) : option User.t :=
  select_by_id User.id user_id (users db).

Definition email_taken (db : Store) (email : string) : Prop :=
  exists u, In u (users db) /\ User.email u = email.

Definition username_taken (db : Store) (username : string) : Prop :=
  exists u, In u (users db) /\ User.username u = username.

Definition email_conflict : HTTPException :=
  mkHTTPException HTTP_400_BAD_REQUEST "Email already registered".

Definition username_conflict : HTTPException :=
  mkHTTPException HTTP_400_BAD_REQUEST "Username already taken".

(** A field of the update is the caller's own value, or is not supplied. *)
Definition own_or_absent (v : option string) (current : string) : Prop :=
  v = None \/ v = Some current.

(** Or it is a value that no user has. *)
Definition own_or_free (v : option string) (current : string)
  (taken : string -> Prop) : Prop :=
  own_or_absent v current \/ exists x, v = Some x /\ ~ taken x.

(** The caller's attributes once the supplied fields are assigned, and
    the row the flush then writes ([updated_at] is set when an UPDATE is
    emitted). *)
Definition profile_assigned (u : User.t) (user_in : UserUpdate.t) : User.t :=
  attrs
    (assign User.set_is_active (UserUpdate.is_active user_in)
       (assign User.set_full_name
          (option_map Some (UserUpdate.full_name user_in))
          (assign User.set_username (UserUpdate.username user_in)
             (assign User.set_email (UserUpdate.email user_in)
                (loaded u))))).

Definition profile_written (t : datetime) (u : User.t)
  (user_in : UserUpdate.t) : User.t :=
  if User.eq_dec u (profile_assigned u user_in) then u
  else User.set_updated_at (profile_assigned u user_in) t.

(** A supplied value, or else the current one. *)
Definition supplied {V} (v : option V) (current : V) : V :=
  match v with
  | Some x => x
  | None => current
  end.

(** ** The error taxonomy

    The kinds of failure of the specification (section 7), and every
    [HTTPException] raised under [app/], each with the kind that the
    operation table of the specification (section 6) gives to this
    failure of the operations that raise it. *)
Inductive ErrorKind :=
| NotFound
| Forbidden
| Conflict
| InvalidOperation
| Unauthorized.

Definition inactive_user : HTTPException :=
  mkHTTPException HTTP_400_BAD_REQUEST "Inactive user".

Definition cross_board_move : HTTPException :=
  mkHTTPException HTTP_400_BAD_REQUEST
    "Cannot move card to a list in a different board".

Definition incorrect_credentials : HTTPException :=
  mkHTTPException HTTP_401_UNAUTHORIZED "Incorrect email or password".

(** On the left every [HTTPException] that the code under [app/] raises,
    as the code builds it; on the right its kind, which the code does not
    have and the specification gives. *)
Definition error_taxonomy : list (HTTPException * ErrorKind) :=
  [ (mkHTTPException HTTP_404_NOT_FOUND "Board not found", NotFound);
    (mkHTTPException HTTP_404_NOT_FOUND "List not found", NotFound);
    (mkHTTPException HTTP_404_NOT_FOUND "Card not found", NotFound);
    (mkHTTPException HTTP_404_NOT_FOUND "Target list not found", NotFound);
    (mkHTTPException HTTP_403_FORBIDDEN
       "Not authorized to access this board", Forbidden);
    (mkHTTPException HTTP_403_FORBIDDEN
       "Not authorized to update this board", Forbidden);
    (mkHTTPException HTTP_403_FORBIDDEN
       "Not authorized to delete this board", Forbidden);
    (mkHTTPException HTTP_403_FORBIDDEN
       "Not authorized to access this list", Forbidden);
    (mkHTTPException HTTP_403_FORBIDDEN
       "Not authorized to update this list", Forbidden);
    (mkHTTPException HTTP_403_FORBIDDEN
       "Not authorized to delete this list", Forbidden);
    (mkHTTPException HTTP_403_FORBIDDEN
       "Not authorized to reorder this list", Forbidden);
    (mkHTTPException HTTP_403_FORBIDDEN
       "Not authorized to access this card", Forbidden);
    (mkHTTPException HTTP_403_FORBIDDEN
       "Not authorized to update this card", Forbidden);
    (mkHTTPException HTTP_403_FORBIDDEN
       "Not authorized to delete this card", Forbidden);
    (mkHTTPException HTTP_403_FORBIDDEN
       "Not authorized to move this card", Forbidden);
    (mkHTTPException HTTP_403_FORBIDDEN
       "Not authorized to reorder this card", Forbidden);
    (email_conflict, Conflict);
    (username_conflict, Conflict);
    (cross_board_move, InvalidOperation);
    (mkHTTPException HTTP_400_BAD_REQUEST "Incorrect password",
     InvalidOperation);
    (credentials_exception, Unauthorized);
    (incorrect_credentials, Unauthorized);
    (inactive_user, Unauthorized) ].

Definition exception_eqb (e1 e2 : HTTPException) : bool :=
  (status_code e1 =? status_code e2) && String.eqb (detail e1) (detail e2).

(** The kind of an exception: that of its row. *)
Definition kind_of (e : HTTPException) : option ErrorKind :=
  option_map snd
    (find (fun row => exception_eqb (fst row) e) error_taxonomy).


(* ------------------------------------------------------------------ *)
(** * The rest of the application

    The creation and read paths of [app/crud] and of the endpoints, the
    registration and login endpoints of [auth.py], and [initial_data.py].
    [get_board] and [CRUDBoard.get_with_details] are left out: the loader
    option [joinedload("cards")] names the relationship by a string, which
    SQLAlchemy accepts or refuses depending on its version, and the
    version is not among the sources. *)

From Stdlib Require Import Sorted Permutation.

(** ** ORDER BY and INSERT *)

Section OrderBy.
Context {T : Type} (key : T -> Z).

Fixpoint insert_by (x : T) (l : list T) : list T :=
  match l with
  | [] => [x]
  | y :: l' => if key x <=? key y then x :: y :: l' else y :: insert_by x l'
  end.

(** [.order_by(key)]: ascending; rows with equal keys stay in table order
    (SQL leaves their order open, and no theorem below depends on it). *)
Definition order_by (l : list T) : list T := fold_right insert_by [] l.

(** The order of two rows by their keys. *)
Definition key_le (a b : T) : Prop := key a <= key b.
End OrderBy.

(** [INSERT] of one row; [None] is the IntegrityError of a primary key
    that is already in the table. *)
Definition insert_row {T} (pk : T -> UUID) (row : T) (rows : list T)
  : option (list T) :=
  match select_by_id pk (pk row) rows with
  | Some _ => None
  | None => Some (rows ++ [row])
  end.

(** An [INSERT] the engine accepts only when [accepted] holds. *)
Definition insert_if {A} (accepted : bool) (inserted : option A)
  : option A :=
  if accepted then inserted else None.

(** The foreign keys of a row refer to rows that are there, where the
    engine enforces them. *)
Definition foreign_keys_hold (E : Engine) (resolved : bool) : bool :=
  negb (foreign_keys E) || resolved.

(** What the engine accepts as a new board, list or card: a [position]
    in the range of the [Integer] column, and foreign keys that hold. *)
Definition board_insert_accepted (E : Engine) (db : Store) (owner_id : UUID)
  : bool :=
  foreign_keys_hold E (references User.id (users db) owner_id).

Definition list_insert_accepted (E : Engine) (db : Store) (position : Z)
  (board_id : UUID) : bool :=
  integer_fits E position &&
  foreign_keys_hold E (references Board.id (boards db) board_id).

Definition card_insert_accepted (E : Engine) (db : Store) (position : Z)
  (list_id : UUID) (assigned_to_id : option UUID) : bool :=
  integer_fits E position &&
  foreign_keys_hold E
    (references BList.id (lists db) list_id &&
     references_or_null User.id (users db) assigned_to_id).

(** [INSERT] into [users], with its unique indexes on [email] and
    [username]. *)
Definition insert_user (row : User.t) (rows : list User.t)
  : option (list User.t) :=
  if existsb (fun r => String.eqb (User.email r) (User.email row) ||
                       String.eqb (User.username r) (User.username row)) rows
  then None
  else insert_row User.id row rows.

(** [db.add(obj)] for a new object, then [db.commit()]: what is pending is
    flushed, the row is inserted, and the transaction committed. *)
Definition db_add_commit (insert : Engine -> Store -> option Store)
  : DB unit :=
  fun ss =>
    match flush (engine ss) (now ss) (database ss) (pending ss) with
    | Some db1 =>
        match insert (engine ss) db1 with
        | Some db' =>
            (Ok tt,
             mkSession (engine ss) db' [] (committed ss ++ [db']) (now ss))
        | None =>
            (ServerError,
             mkSession (engine ss) (database ss) [] (committed ss) (now ss))
        end
    | None =>
        (ServerError,
         mkSession (engine ss) (database ss) [] (committed ss) (now ss))
    end.

(** [server_default=func.now()] *)
Definition func_now : DB datetime := fun ss => (Ok (now ss), ss).

(** ** app/schemas, creation schemas and the token *)

Module BoardCreate.
Record t := mk {
  title : string;
  description : option string
}.
End BoardCreate.

Module ListCreate.
Record t := mk {
  title : string;
  position : Z
}.
End ListCreate.

Module CardCreate.
Record t := mk {
  title : string;
  description : option string;
  position : Z;
  assigned_to_id : option UUID;
  due_date : option datetime;
  priority : option PriorityEnum
}.
End CardCreate.

Module UserCreate.
Record t := mk {
  email : string;
  username : string;
  password : string;
  full_name : option string
}.
End UserCreate.

Module Token.
Record t := mk {
  access_token : string;
  token_type : string
}.
End Token.

(** ** app/crud, the methods of the model classes

    The argument [uuid4] is the value the column default [uuid.uuid4]
    draws for the new row. *)

Module CRUDBoard.

(** [CRUDBoard.create_with_owner] *)
Definition create_with_owner (uuid4 : UUID) (obj_in : BoardCreate.t)
  (owner_id : UUID) : DB (Instance Board.t) :=
  t <- func_now ;;
  let db_obj := Board.mk uuid4 (BoardCreate.title obj_in)
                  (BoardCreate.description obj_in) owner_id t t in
  db_add_commit (fun E db =>
    insert_if (board_insert_accepted E db owner_id)
      (option_map (set_boards db)
         (insert_row Board.id db_obj (boards db)))) ;;
  db_refresh boards Board.id (loaded db_obj).

End CRUDBoard.

Module CRUDList.

(** [CRUDList.create_in_board] *)
Definition create_in_board (uuid4 : UUID) (obj_in : ListCreate.t)
  (board_id : UUID) : DB (Instance BList.t) :=
  t <- func_now ;;
  let db_obj := BList.mk uuid4 (ListCreate.title obj_in)
                  (ListCreate.position obj_in) board_id t t in
  db_add_commit (fun E db =>
    insert_if (list_insert_accepted E db (ListCreate.position obj_in)
                 board_id)
      (option_map (set_lists db)
         (insert_row BList.id db_obj (lists db)))) ;;
  db_refresh lists BList.id (loaded db_obj).

(** [CRUDList.get_multi_by_board] *)
Definition get_multi_by_board (board_id : UUID)
  : DB (list (Instance BList.t)) :=
  query (fun db =>
    map loaded
      (order_by BList.position
         (filter (fun l => uuid_eqb (BList.board_id l) board_id)
            (lists db)))).

End CRUDList.

Module CRUDCard.

(** [CRUDCard.create_in_list] *)
Definition create_in_list (uuid4 : UUID) (obj_in : CardCreate.t)
  (list_id : UUID) : DB (Instance Card.t) :=
  t <- func_now ;;
  let db_obj := Card.mk uuid4 (CardCreate.title obj_in)
                  (CardCreate.description obj_in)
                  (CardCreate.position obj_in) list_id
                  (CardCreate.assigned_to_id obj_in)
                  (CardCreate.due_date obj_in)
                  (CardCreate.priority obj_in) t t in
  db_add_commit (fun E db =>
    insert_if (card_insert_accepted E db (CardCreate.position obj_in)
                 list_id (CardCreate.assigned_to_id obj_in))
      (option_map (set_cards db)
         (insert_row Card.id db_obj (cards db)))) ;;
  db_refresh cards Card.id (loaded db_obj).

(** [CRUDCard.get_multi_by_list] *)
Definition get_multi_by_list (list_id : UUID)
  : DB (list (Instance Card.t)) :=
  query (fun db =>
    map loaded
      (order_by Card.position
         (filter (fun c => uuid_eqb (Card.list_id c) list_id) (cards db)))).

End CRUDCard.

Module CRUDUser.
Section Security.
(** [app/core/security.py] is not among the sources. *)
Variable get_password_hash : string -> string.
Variable verify_password : string -> string -> bool.

(** [CRUDUser.create] *)
Definition create (uuid4 : UUID) (obj_in : UserCreate.t)
  : DB (Instance User.t) :=
  t <- func_now ;;
  let db_obj := User.mk uuid4 (UserCreate.email obj_in)
                  (UserCreate.username obj_in)
                  (get_password_hash (UserCreate.password obj_in))
                  (UserCreate.full_name obj_in) true false t t in
  db_add_commit (fun _ db =>
    option_map (set_users db) (insert_user db_obj (users db))) ;;
  db_refresh users User.id (loaded db_obj).

(** [CRUDUser.authenticate] *)
Definition authenticate (email password : string)
  : DB (option (Instance User.t)) :=
  user <- user_crud.get_by_email email ;;
  match user with
  | None => ret None
  | Some user =>
      if negb (verify_password password (User.hashed_password (attrs user)))
      then ret None
      else ret (Some user)
  end.

(** [CRUDUser.is_superuser] *)
Definition is_superuser (user : Instance User.t) : bool :=
  User.is_superuser (attrs user).
End Security.
End CRUDUser.

(** ** The creation endpoints, and the read endpoints of lists and cards *)

Module endpoints.

(** [boards.py], [create_board] *)
Definition create_board (uuid4 : UUID) (board_in : BoardCreate.t)
  (current_user : Instance User.t) : DB (Instance Board.t) :=
  board <- CRUDBoard.create_with_owner uuid4 board_in
             (User.id (attrs current_user)) ;;
  ret board.

(** [lists.py], [create_list] *)
Definition create_list (uuid4 : UUID) (board_id : UUID)
  (list_in : ListCreate.t) (current_user : Instance User.t)
  : DB (Instance BList.t) :=
  (* Check if board exists and user owns it *)
  board <- board_crud.get board_id ;;
  match board with
  | None => raise (mkHTTPException HTTP_404_NOT_FOUND "Board not found")
  | Some board =>
      raise_if (negb (uuid_eqb (Board.owner_id (attrs board))
                               (User.id (attrs current_user))))
        (mkHTTPException HTTP_403_FORBIDDEN
           "Not authorized to access this board") ;;
      (* Create list *)
      list_obj <- CRUDList.create_in_board uuid4 list_in board_id ;;
      ret list_obj
  end.

(** [lists.py], [get_list] *)
Definition get_list (list_id : UUID) (current_user : Instance User.t)
  : DB (Instance BList.t) :=
  list_obj <- list_crud.get list_id ;;
  match list_obj with
  | None => raise (mkHTTPException HTTP_404_NOT_FOUND "List not found")
  | Some list_obj =>
      (* Check board ownership *)
      board <- board_crud.get (BList.board_id (attrs list_obj)) ;;
      board <- not_none board ;;
      raise_if (negb (uuid_eqb (Board.owner_id (attrs board))
                               (User.id (attrs current_user))))
        (mkHTTPException HTTP_403_FORBIDDEN
           "Not authorized to access this list") ;;
      ret list_obj
  end.

(** [cards.py], [create_card] *)
Definition create_card (uuid4 : UUID) (list_id : UUID)
  (card_in : CardCreate.t) (current_user : Instance User.t)
  : DB (Instance Card.t) :=
  (* Check if list exists and user owns parent board *)
  list_obj <- list_crud.get list_id ;;
  match list_obj with
  | None => raise (mkHTTPException HTTP_404_NOT_FOUND "List not found")
  | Some list_obj =>
      board <- board_crud.get (BList.board_id (attrs list_obj)) ;;
      board <- not_none board ;;
      raise_if (negb (uuid_eqb (Board.owner_id (attrs board))
                               (User.id (attrs current_user))))
        (mkHTTPException HTTP_403_FORBIDDEN
           "Not authorized to access this list") ;;
      (* Create card *)
      card <- CRUDCard.create_in_list uuid4 card_in list_id ;;
      ret card
  end.

(** [cards.py], [get_card] *)
Definition get_card (card_id : UUID) (current_user : Instance User.t)
  : DB (Instance Card.t) :=
  card <- card_crud.get card_id ;;
  match card with
  | None => raise (mkHTTPException HTTP_404_NOT_FOUND "Card not found")
  | Some card =>
      (* Check board ownership through list *)
      list_obj <- list_crud.get (Card.list_id (attrs card)) ;;
      list_obj <- not_none list_obj ;;
      board <- board_crud.get (BList.board_id (attrs list_obj)) ;;
      board <- not_none board ;;
      raise_if (negb (uuid_eqb (Board.owner_id (attrs board))
                               (User.id (attrs current_user))))
        (mkHTTPException HTTP_403_FORBIDDEN
           "Not authorized to access this card") ;;
      ret card
  end.

End endpoints.

(** ** app/api/v1/endpoints/auth.py *)

Module auth.
Section Security.
(** [app/core/security.py] and [app/core/config.py] are not among the
    sources: hashing, token creation, the rendering [str] of a UUID and
    the expiry setting are taken as given. *)
Variable get_password_hash : string -> string.
Variable verify_password : string -> string -> bool.
Variable create_access_token : string -> Z -> string.
Variable str : UUID -> string.
Variable ACCESS_TOKEN_EXPIRE_MINUTES : Z.

Definition register (uuid4 : UUID) (user_in : UserCreate.t)
  : DB (Instance User.t) :=
  (* Check if email already exists *)
  user <- user_crud.get_by_email (UserCreate.email user_in) ;;
  match user with
  | Some _ => raise (mkHTTPException HTTP_400_BAD_REQUEST
                       "Email already registered")
  | None =>
      (* Check if username already exists *)
      user <- user_crud.get_by_username (UserCreate.username user_in) ;;
      match user with
      | Some _ => raise (mkHTTPException HTTP_400_BAD_REQUEST
                           "Username already taken")
      | None =>
          (* Create new user *)
          user <- CRUDUser.create get_password_hash uuid4 user_in ;;
          ret user
      end
  end.

(** [form_data.username] carries the email. *)
Definition login (username password : string) : DB Token.t :=
  user <- CRUDUser.authenticate verify_password username password ;;
  match user with
  | None => raise (mkHTTPException HTTP_401_UNAUTHORIZED
                     "Incorrect email or password")
  | Some user =>
      raise_if (negb (user_crud.is_active user))
        (mkHTTPException HTTP_400_BAD_REQUEST "Inactive user") ;;
      let access_token_expires := ACCESS_TOKEN_EXPIRE_MINUTES in
      let access_token := create_access_token (str (User.id (attrs user)))
                            access_token_expires in
      ret (Token.mk access_token "bearer")
  end.

Definition read_current_user (current_user : Instance User.t)
  : DB (Instance User.t) :=
  ret current_user.
End Security.
End auth.

(** ** Vocabulary of the creation properties *)

(** The cards of a list and the lists of a board, in ascending order of
    position: the rows [get_multi_by_list] and [get_multi_by_board]
    select. *)
Definition cards_of_list (db : Store) (list_id : UUID) : list Card.t :=
  order_by Card.position
    (filter (fun c => uuid_eqb (Card.list_id c) list_id) (cards db)).

Definition lists_of_board (db : Store) (board_id : UUID) : list BList.t :=
  order_by BList.position
    (filter (fun l => uuid_eqb (BList.board_id l) board_id) (lists db)).

(** The user a new card is assigned to, if any, is a user. *)
Definition assignee_known (db : Store) (assigned_to_id : option UUID)
  : Prop :=
  forall id, assigned_to_id = Some id -> get_user db id <> None.

(** The rows the creation methods build at time [t]. *)
Definition new_card (t : datetime) (uuid4 : UUID) (obj_in : CardCreate.t)
  (list_id : UUID) : Card.t :=
  Card.mk uuid4 (CardCreate.title obj_in) (CardCreate.description obj_in)
    (CardCreate.position obj_in) list_id (CardCreate.assigned_to_id obj_in)
    (CardCreate.due_date obj_in) (CardCreate.priority obj_in) t t.

Definition new_list (t : datetime) (uuid4 : UUID) (obj_in : ListCreate.t)
  (board_id : UUID) : BList.t :=
  BList.mk uuid4 (ListCreate.title obj_in) (ListCreate.position obj_in)
    board_id t t.

Definition new_board (t : datetime) (uuid4 : UUID) (obj_in : BoardCreate.t)
  (owner_id : UUID) : Board.t :=
  Board.mk uuid4 (BoardCreate.title obj_in) (BoardCreate.description obj_in)
    owner_id t t.

(** ** Vocabulary of the account properties *)

(** The row [CRUDUser.create] builds at time [t]. *)
Definition new_user (get_password_hash : string -> string) (t : datetime)
  (uuid4 : UUID) (obj_in : UserCreate.t) : User.t :=
  User.mk uuid4 (UserCreate.email obj_in) (UserCreate.username obj_in)
    (get_password_hash (UserCreate.password obj_in))
    (UserCreate.full_name obj_in) true false t t.

(** The first user with an email, as [get_by_email] finds it. *)
Definition user_by_email (db : Store) (email : string) : option User.t :=
  find (fun u => String.eqb (User.email u) email) (users db).

(** No two users share an id, an email or a username. *)
Definition unique_users (db : Store) : Prop :=
  NoDup (map User.id (users db)) /\
  NoDup (map User.email (users db)) /\
  NoDup (map User.username (users db)).

(** Stand-ins for [app/core/security.py] in the examples: a hash that
    prefixes the password, its verification, and a token that is the
    subject itself. *)
Definition demo_hash (password : string) : string :=
  String.append "h" password.

Definition demo_verify (password hashed : string) : bool :=
  String.eqb hashed (demo_hash password).

Definition demo_token (subject : string) (expires : Z) : string := subject.

Definition demo_decode (token : string) : option string := Some token.

Definition demo_str (id : UUID) : string :=
  if N.eqb id 1 then "1" else if N.eqb id 2 then "2" else "40".

Definition demo_uuid (s : string) : option UUID :=
  if String.eqb s "1" then Some 1%N
  else if String.eqb s "2" then Some 2%N
  else if String.eqb s "40" then Some 40%N
  else None.

Definition carol_in : UserCreate.t :=
  UserCreate.mk "carol@example.com" "carol" "secret" None.

(** ** Vocabulary of the structural properties *)

(** The ownership chain resolves: every list is on a board that exists,
    every card in a list that exists. *)
Definition refs_resolve (db : Store) : Prop :=
  (forall l, In l (lists db) -> get_board db (BList.board_id l) <> None) /\
  (forall c, In c (cards db) -> get_list db (Card.list_id c) <> None).

(** What the flush of a list or of a board does, as [written] and
    [after_write] say it for a card. *)
Definition list_written (t : datetime) (l l' : BList.t) : BList.t :=
  if BList.eq_dec l l' then l else BList.set_updated_at l' t.

Definition after_list_write (t : datetime) (db : Store) (l l' : BList.t)
  : Store :=
  if BList.eq_dec l l' then db
  else set_lists db
         (update_where_id BList.id (BList.id l) (list_written t l l')
            (lists db)).

Definition board_written (t : datetime) (b b' : Board.t) : Board.t :=
  if Board.eq_dec b b' then b else Board.set_updated_at b' t.

Definition after_board_write (t : datetime) (db : Store) (b b' : Board.t)
  : Store :=
  if Board.eq_dec b b' then db
  else set_boards db
         (update_where_id Board.id (Board.id b) (board_written t b b')
            (boards db)).

(** A caller's requests, one after the other, each at its own time. *)
Fixpoint perform_all {E : Engine} (db : Store)
  (requests : list (datetime * Instance User.t * Operation))
  : list Outcome * Store :=
  match requests with
  | [] => ([], db)
  | (t, current_user, op) :: rest =>
      let '(o, db1) := perform t db current_user op in
      let '(os, db2) := perform_all db1 rest in
      (o :: os, db2)
  end.

(** The values a request asks the database to store are values it
    stores: every position the request supplies is in the range of the
    [Integer] column, and the user it assigns a card to, if any, is a
    user. *)
Definition storable {E : Engine} (db : Store) (op : Operation) : Prop :=
  match op with
  | UpdateList _ list_in =>
      forall p, ListUpdate.position list_in = Some p ->
                integer_fits E p = true
  | ReorderList _ reorder_data =>
      integer_fits E (ListReorder.position reorder_data) = true
  | UpdateCard _ card_in =>
      (forall p, CardUpdate.position card_in = Some p ->
                 integer_fits E p = true) /\
      assignee_known db (CardUpdate.assigned_to_id card_in)
  | ReorderCard _ reorder_data =>
      integer_fits E (CardReorder.position reorder_data) = true
  | MoveCard _ move_data =>
      integer_fits E (CardMove.position move_data) = true
  | UpdateBoard _ _ | DeleteBoard _ | DeleteList _ | DeleteCard _ => True
  end.

(** ** app/initial_data.py *)

(** [user.is_superuser = True] *)
Definition User_set_is_superuser (u : User.t) (v : bool) : User.t :=
  User.mk (User.id u) (User.email u) (User.username u)
    (User.hashed_password u) (User.full_name u) (User.is_active u) v
    (User.created_at u) (User.updated_at u).

(** The line [init_db] prints, with the email in it. *)
Inductive InitMessage :=
| SuperuserCreated (email : string)
| SuperuserAlreadyExists (email : string).

Section InitialData.
(** [app/core/config.py] and [app/core/security.py] are not among the
    sources. *)
Variable get_password_hash : string -> string.
Variable FIRST_SUPERUSER_EMAIL : string.
Variable FIRST_SUPERUSER_USERNAME : string.
Variable FIRST_SUPERUSER_PASSWORD : string.

Definition init_db (uuid4 : UUID) : DB InitMessage :=
  (* Check if superuser already exists *)
  user <- user_crud.get_by_email FIRST_SUPERUSER_EMAIL ;;
  match user with
  | None =>
      let user_in := UserCreate.mk FIRST_SUPERUSER_EMAIL
                       FIRST_SUPERUSER_USERNAME FIRST_SUPERUSER_PASSWORD
                       (Some "System Administrator"%string) in
      user <- CRUDUser.create get_password_hash uuid4 user_in ;;
      (* Set as superuser *)
      let user := setattr User_set_is_superuser user true in
      db_add (EUser user) ;;
      db_commit ;;
      user <- db_refresh users User.id user ;;
      ret (SuperuserCreated (User.email (attrs user)))
  | Some user => ret (SuperuserAlreadyExists (User.email (attrs user)))
  end.
End InitialData.

(** The creation schema [init_db] fills in, and the row it leaves in the
    table when it creates the superuser at time [t]. *)
Definition superuser_in (email username password : string) : UserCreate.t :=
  UserCreate.mk email username password (Some "System Administrator"%string).

Definition new_superuser (get_password_hash : string -> string)
  (email username password : string) (t : datetime) (uuid4 : UUID)
  : User.t :=
  User.set_updated_at
    (User_set_is_superuser
       (new_user get_password_hash t uuid4
          (superuser_in email username password)) true)
    t.

(** The id of the board a card is on, through its list; [None] when the
    list or the board is not there. *)
Definition board_id_of (db : Store) (c : Card.t) : option UUID :=
  option_map Board.id (current_board db c).

(** [Card.id] is the primary key of [cards]. *)
Definition card_ids_unique (db : Store) : Prop :=
  NoDup (map Card.id (cards db)).

(* ------------------------------------------------------------------ *)
(** * The operation surface

    The operations of the specification (section 6) the endpoints above
    implement, and what each of them raises. [Authenticate] is the check
    of the bearer token that stands before every authenticated
    operation. *)
Inductive Call :=
| Register (uuid4 : UUID) (user_in : UserCreate.t)
| Login (username password : string)
| Authenticate (token : string)
| CreateBoard (uuid4 : UUID) (board_in : BoardCreate.t)
    (current_user : Instance User.t)
| ListBoards (skip limit : Z) (current_user : Instance User.t)
| CreateList (uuid4 board_id : UUID) (list_in : ListCreate.t)
    (current_user : Instance User.t)
| GetList (list_id : UUID) (current_user : Instance User.t)
| CreateCard (uuid4 list_id : UUID) (card_in : CardCreate.t)
    (current_user : Instance User.t)
| GetCard (card_id : UUID) (current_user : Instance User.t)
| Modify (op : Operation) (current_user : Instance User.t)
| UpdateProfile (user_in : UserUpdate.t) (current_user : Instance User.t)
| ChangePassword (password_in : UserUpdatePassword.t)
    (current_user : Instance User.t).

(** The [HTTPException] a request ends with, if it does. *)
Definition raised_by {A} (r : Response A * Store * list Store)
  : option HTTPException :=
  match response r with
  | Raise e => Some e
  | _ => None
  end.

Section Surface.
(** [app/core/security.py] and [app/core/config.py] are not among the
    sources. *)
Variable get_password_hash : string -> string.
Variable verify_password : string -> string -> bool.
Variable create_access_token : string -> Z -> string.
Variable str : UUID -> string.
Variable ACCESS_TOKEN_EXPIRE_MINUTES : Z.
Variable decode_access_token : string -> option string.
Variable UUID_of_string : string -> option UUID.

Definition raised {E : Engine} (t : datetime) (db : Store) (c : Call)
  : option HTTPException :=
  match c with
  | Register uuid4 user_in =>
      raised_by (request t db (auth.register get_password_hash uuid4 user_in))
  | Login username password =>
      raised_by (request t db
                   (auth.login verify_password create_access_token str
                      ACCESS_TOKEN_EXPIRE_MINUTES username password))
  | Authenticate token =>
      raised_by (request t db
                   (get_current_active_user decode_access_token
                      UUID_of_string token))
  | CreateBoard uuid4 board_in current_user =>
      raised_by (request t db
                   (endpoints.create_board uuid4 board_in current_user))
  | ListBoards skip limit current_user =>
      raised_by (request t db (list_boards skip limit current_user))
  | CreateList uuid4 board_id list_in current_user =>
      raised_by (request t db
                   (endpoints.create_list uuid4 board_id list_in
                      current_user))
  | GetList list_id current_user =>
      raised_by (request t db (endpoints.get_list list_id current_user))
  | CreateCard uuid4 list_id card_in current_user =>
      raised_by (request t db
                   (endpoints.create_card uuid4 list_id card_in
                      current_user))
  | GetCard card_id current_user =>
      raised_by (request t db (endpoints.get_card card_id current_user))
  | Modify op current_user =>
      match fst (perform t db current_user op) with
      | Failure e => Some e
      | _ => None
      end
  | UpdateProfile user_in current_user =>
      raised_by (request t db (update_user_me user_in current_user))
  | ChangePassword password_in current_user =>
      raised_by (request t db
                   (update_password_me verify_password get_password_hash
                      password_in current_user))
  end.

End Surface.


(** An inactive account, for the examples. *)
Definition dave : User.t :=
  User.mk 3%N "dave@example.com" "dave" "hpw" None false false 0 0.

Definition demo_db_with_dave : Store :=
  set_users demo_db (users demo_db ++ [dave]).

(** One failing request for every row of [error_taxonomy], in the order
    of the rows, on [demo_db_with_dave]. *)
Definition demo_failures : list Call :=
  [ Modify (DeleteBoard 99%N) (loaded alice);
    Modify (DeleteList 99%N) (loaded alice);
    Modify (DeleteCard 99%N) (loaded alice);
    Modify (MoveCard 30%N (CardMove.mk 99%N 0)) (loaded alice);
    CreateList 50%N 10%N (ListCreate.mk "L" 0) (loaded bob);
    Modify (UpdateBoard 10%N (BoardUpdate.mk None None)) (loaded bob);
    Modify (DeleteBoard 10%N) (loaded bob);
    GetList 20%N (loaded bob);
    Modify (UpdateList 20%N (ListUpdate.mk None None)) (loaded bob);
    Modify (DeleteList 20%N) (loaded bob);
    Modify (ReorderList 20%N (ListReorder.mk 0)) (loaded bob);
    GetCard 30%N (loaded bob);
    Modify (UpdateCard 30%N (CardUpdate.mk None None None None None None))
      (loaded bob);
    Modify (DeleteCard 30%N) (loaded bob);
    Modify (MoveCard 30%N (CardMove.mk 21%N 0)) (loaded bob);
    Modify (ReorderCard 30%N (CardReorder.mk 0)) (loaded bob);
    Register 40%N (UserCreate.mk "alice@example.com" "alice2" "pw" None);
    Register 40%N (UserCreate.mk "alice2@example.com" "alice" "pw" None);
    Modify (MoveCard 30%N (CardMove.mk 22%N 0)) (loaded alice);
    ChangePassword (UserUpdatePassword.mk "wrong" "new") (loaded alice);
    Authenticate "zzz";
    Login "nobody@example.com" "pw";
    Login "dave@example.com" "pw" ].

(** The first half of C9 as the claim states it: a move to the card's
    current list, by the owner of its board, succeeds whatever the
    position. *)
Definition move_within_list_succeeds {E : Engine} : Prop :=
  forall t db card_id position current_user c b,
    get_card db card_id = Some c ->
    current_board db c = Some b ->
    Board.owner_id b = User.id (attrs current_user) ->
    exists card,
      response (request t db
                  (move_card card_id (CardMove.mk (Card.list_id c) position)
                     current_user))
      = Ok card.

(* ------------------------------------------------------------------ *)
(** * Properties

    They hold on every engine. *)

Section Properties.
Context {eng : Engine}.

(* ------------------------------------------------------------------ *)
(** * Facts about tables *)

Lemma uuid_eqb_eq (a b : UUID) : uuid_eqb a b = true <-> a = b.
Proof. apply N.eqb_eq. Qed.

Lemma uuid_eqb_neq (a b : UUID) : uuid_eqb a b = false <-> a <> b.
Proof. apply N.eqb_neq. Qed.

Lemma uuid_eqb_refl (a : UUID) : uuid_eqb a a = true.
Proof. apply N.eqb_refl. Qed.

Section TableFacts.
Context {T : Type} (pk : T -> UUID).

Lemma select_by_id_some id rows r :
  select_by_id pk id rows = Some r -> In r rows /\ pk r = id.
Proof.
  unfold select_by_id. intros H. apply find_some in H.
  destruct H as [Hin Hpk]. split; [exact Hin | now apply uuid_eqb_eq].
Qed.

Lemma select_by_id_update_same id v rows r :
  select_by_id pk id rows = Some r ->
  pk v = id ->
  select_by_id pk id (update_where_id pk id v rows) = Some v.
Proof.
  intros Hsel Hv. induction rows as [|x rows IH]; cbn in *; [discriminate|].
  destruct (uuid_eqb (pk x) id) eqn:E; cbn.
  - rewrite Hv, uuid_eqb_refl. reflexivity.
  - rewrite E. apply IH, Hsel.
Qed.

Lemma select_by_id_update_other id id' v rows :
  pk v = id -> id' <> id ->
  select_by_id pk id' (update_where_id pk id v rows)
  = select_by_id pk id' rows.
Proof.
  intros Hv Hne. induction rows as [|x rows IH]; cbn; [reflexivity|].
  destruct (uuid_eqb (pk x) id) eqn:E.
  - apply uuid_eqb_eq in E. cbn.
    assert (E1 : uuid_eqb (pk v) id' = false)
      by (apply uuid_eqb_neq; congruence).
    assert (E2 : uuid_eqb (pk x) id' = false)
      by (apply uuid_eqb_neq; congruence).
    rewrite E1, E2. exact IH.
  - cbn. destruct (uuid_eqb (pk x) id'); [reflexivity | exact IH].
Qed.

Lemma filter_other_update id v rows :
  pk v = id ->
  filter (fun x => negb (uuid_eqb (pk x) id)) (update_where_id pk id v rows)
  = filter (fun x => negb (uuid_eqb (pk x) id)) rows.
Proof.
  intros Hv. induction rows as [|x rows IH]; cbn; [reflexivity|].
  destruct (uuid_eqb (pk x) id) eqn:E; cbn.
  - rewrite Hv, uuid_eqb_refl. cbn. exact IH.
  - rewrite E. cbn. f_equal. exact IH.
Qed.
End TableFacts.

Lemma get_card_id db card_id c : get_card db card_id = Some c -> Card.id c = card_id.
Proof. intros H. now apply select_by_id_some in H. Qed.

Lemma set_list_id_same c : Card.set_list_id c (Card.list_id c) = c.
Proof. now destruct c. Qed.

(** ** Running the session *)

Arguments card_crud.move_to_list : simpl never.
Arguments card_crud.reorder : simpl never.

(** A card written over itself is no UPDATE, so nothing to refuse. *)
Lemma card_update_accepted_same db c : card_update_accepted eng db c c = true.
Proof.
  unfold card_update_accepted.
  rewrite Z.eqb_refl, uuid_eqb_refl.
  destruct (option_eq_dec N.eq_dec (Card.assigned_to_id c)
              (Card.assigned_to_id c)) as [_|N]; [|now destruct N].
  cbn. now rewrite orb_true_r.
Qed.

(** The commit of an assigned card: the write, or the exception of the
    UPDATE the engine refuses, which leaves the database as it was. *)
Lemma commit_card_run t db log (c c' : Card.t) :
  Card.id c' = Card.id c ->
  get_card db (Card.id c) = Some c ->
  (db_add (ECard (mkInstance c c')) ;; db_commit ;;
   db_refresh cards Card.id (mkInstance c c')) (mkSession eng db [] log t)
  = if card_update_accepted eng db c c'
    then let db' := after_write t db c c' in
         (Ok (loaded (written t c c')), mkSession eng db' [] (log ++ [db']) t)
    else (ServerError, mkSession eng db [] log t).
Proof.
  intros Hid Hget.
  unfold bind, db_add, db_commit, db_refresh, query, flush, after_write,
    written. cbn.
  destruct (Card.eq_dec c c') as [Heq|Hneq]; cbn.
  - rewrite <- Heq, card_update_accepted_same.
    unfold get_card in Hget. rewrite Hget. reflexivity.
  - destruct (card_update_accepted eng db c c'); cbn; [|reflexivity].
    unfold cards_with. cbn.
    fold (update_where_id Card.id (Card.id c) (Card.set_updated_at c' t)
            (cards db)).
    pose proof (select_by_id_update_same Card.id (Card.id c)
                  (Card.set_updated_at c' t) (cards db) c Hget Hid) as Hsel.
    unfold select_by_id in Hsel. rewrite Hsel. reflexivity.
Qed.

Lemma move_to_list_run t db log c list_id position :
  get_card db (Card.id c) = Some c ->
  card_crud.move_to_list (loaded c) list_id position (mkSession eng db [] log t)
  = if card_update_accepted eng db c
         (Card.set_position (Card.set_list_id c list_id) position)
    then let db' := after_write t db c
                      (Card.set_position (Card.set_list_id c list_id)
                         position) in
         (Ok (loaded (moved t c list_id position)),
          mkSession eng db' [] (log ++ [db']) t)
    else (ServerError, mkSession eng db [] log t).
Proof.
  intros Hget. unfold card_crud.move_to_list, moved, setattr, loaded. cbn [attrs committed_state].
  now apply commit_card_run.
Qed.

Lemma reorder_run t db log c position :
  get_card db (Card.id c) = Some c ->
  card_crud.reorder (loaded c) position (mkSession eng db [] log t)
  = if card_update_accepted eng db c (Card.set_position c position)
    then let db' := after_write t db c (Card.set_position c position) in
         (Ok (loaded (reordered t c position)),
          mkSession eng db' [] (log ++ [db']) t)
    else (ServerError, mkSession eng db [] log t).
Proof.
  intros Hget. unfold card_crud.reorder, reordered, setattr, loaded. cbn [attrs committed_state].
  now apply commit_card_run.
Qed.

(** A position in the range of the column is accepted when the card goes
    to a list that is there; a reorder changes nothing but the position. *)
Lemma move_accepted db c list_id position l2 :
  get_list db list_id = Some l2 ->
  integer_fits eng position = true ->
  card_update_accepted eng db c
    (Card.set_position (Card.set_list_id c list_id) position) = true.
Proof.
  intros Hl Hfit. unfold card_update_accepted. cbn.
  rewrite Hfit, orb_true_r. cbn.
  unfold get_list in Hl. unfold references. rewrite Hl.
  destruct (option_eq_dec N.eq_dec (Card.assigned_to_id c)
              (Card.assigned_to_id c)) as [_|N]; [|now destruct N].
  now rewrite !orb_true_r.
Qed.

Lemma reorder_accepted_iff db c position :
  card_update_accepted eng db c (Card.set_position c position)
  = (Card.position c =? position) || integer_fits eng position.
Proof.
  unfold card_update_accepted. cbn. rewrite uuid_eqb_refl.
  destruct (option_eq_dec N.eq_dec (Card.assigned_to_id c)
              (Card.assigned_to_id c)) as [_|N]; [|now destruct N].
  cbn. now rewrite orb_true_r, andb_true_r.
Qed.

Lemma move_within_list_accepted db c position :
  card_update_accepted eng db c
    (Card.set_position (Card.set_list_id c (Card.list_id c)) position)
  = card_update_accepted eng db c (Card.set_position c position).
Proof. now rewrite set_list_id_same. Qed.

(** ** The ownership walk of the card endpoints *)

Ltac run_endpoint :=
  unfold request, move_card, reorder_card, update_card, delete_card,
    bind, card_crud.get, list_crud.get, board_crud.get, query,
    not_none, raise_if, raise, ret, server_error;
  cbn.

Lemma current_board_inv db c b :
  current_board db c = Some b ->
  exists l, get_list db (Card.list_id c) = Some l /\
            get_board db (BList.board_id l) = Some b.
Proof.
  unfold current_board, board_of_list, get_list, get_board.
  destruct (select_by_id BList.id (Card.list_id c) (lists db)) as [l|];
    [|discriminate].
  intros H. now exists l.
Qed.

Ltac walk Hc Hb :=
  let l := fresh "l" in
  let Hl := fresh "Hl" in
  let Hb' := fresh "Hb" in
  destruct (current_board_inv _ _ _ Hb) as (l & Hl & Hb');
  unfold get_card, get_list, get_board in *;
  run_endpoint; rewrite Hc; cbn; rewrite Hl; cbn; rewrite Hb'; cbn.

Lemma moved_fields t c list_id position :
  Card.id (moved t c list_id position) = Card.id c /\
  Card.list_id (moved t c list_id position) = list_id /\
  Card.position (moved t c list_id position) = position.
Proof.
  unfold moved, written.
  destruct (Card.eq_dec _ _) as [E|E]; cbn; [|auto].
  pose proof (f_equal Card.list_id E) as E1.
  pose proof (f_equal Card.position E) as E2.
  cbn in E1, E2. auto.
Qed.

(** A flush writes the attributes that were assigned and [updated_at],
    and no other column. *)
Lemma moved_content t c list_id position :
  let v := moved t c list_id position in
  Card.title v = Card.title c /\
  Card.description v = Card.description c /\
  Card.assigned_to_id v = Card.assigned_to_id c /\
  Card.due_date v = Card.due_date c /\
  Card.priority v = Card.priority c /\
  Card.created_at v = Card.created_at c.
Proof.
  cbv zeta. unfold moved, written.
  destruct (Card.eq_dec _ _); cbn; auto 7.
Qed.

Lemma reordered_fields t c position :
  Card.id (reordered t c position) = Card.id c /\
  Card.list_id (reordered t c position) = Card.list_id c /\
  Card.position (reordered t c position) = position.
Proof.
  unfold reordered, written.
  destruct (Card.eq_dec _ _) as [E|E]; cbn; [|auto].
  pose proof (f_equal Card.position E) as E2.
  cbn in E2. auto.
Qed.

Lemma get_card_self db card_id c :
  get_card db card_id = Some c -> get_card db (Card.id c) = Some c.
Proof.
  intros H. unfold get_card in *.
  destruct (select_by_id_some _ _ _ _ H) as [_ Hid]. now rewrite Hid.
Qed.

(** The successful run of [move_card], and of [reorder_card]. *)
Lemma move_card_passes t db card_id move_data current_user c b l2 :
  get_card db card_id = Some c ->
  current_board db c = Some b ->
  Board.owner_id b = User.id (attrs current_user) ->
  get_list db (CardMove.list_id move_data) = Some l2 ->
  BList.board_id l2 = Board.id b ->
  request t db (move_card card_id move_data current_user)
  = if card_update_accepted eng db c
         (Card.set_position
            (Card.set_list_id c (CardMove.list_id move_data))
            (CardMove.position move_data))
    then let db' := after_write t db c
                      (Card.set_position
                         (Card.set_list_id c (CardMove.list_id move_data))
                         (CardMove.position move_data)) in
         (Ok (loaded (moved t c (CardMove.list_id move_data)
                        (CardMove.position move_data))), db', [db'])
    else (ServerError, db, []).
Proof.
  intros Hc Hb Hown Ht Heq. pose proof (get_card_self _ _ _ Hc) as Hself.
  walk Hc Hb.
  apply uuid_eqb_eq in Hown. rewrite Hown. cbn. rewrite Ht. cbn.
  apply uuid_eqb_eq in Heq. rewrite Heq. cbn.
  rewrite move_to_list_run by exact Hself.
  now destruct (card_update_accepted eng db c _).
Qed.

Lemma move_card_run t db card_id move_data current_user c b l2 :
  get_card db card_id = Some c ->
  current_board db c = Some b ->
  Board.owner_id b = User.id (attrs current_user) ->
  get_list db (CardMove.list_id move_data) = Some l2 ->
  BList.board_id l2 = Board.id b ->
  card_update_accepted eng db c
    (Card.set_position (Card.set_list_id c (CardMove.list_id move_data))
       (CardMove.position move_data)) = true ->
  request t db (move_card card_id move_data current_user)
  = let db' := after_write t db c
                 (Card.set_position
                    (Card.set_list_id c (CardMove.list_id move_data))
                    (CardMove.position move_data)) in
    (Ok (loaded (moved t c (CardMove.list_id move_data)
                   (CardMove.position move_data))), db', [db']).
Proof.
  intros Hc Hb Hown Ht Heq Hacc.
  rewrite (move_card_passes t db card_id move_data current_user c b l2)
    by assumption.
  now rewrite Hacc.
Qed.

Lemma reorder_card_passes t db card_id reorder_data current_user c b :
  get_card db card_id = Some c ->
  current_board db c = Some b ->
  Board.owner_id b = User.id (attrs current_user) ->
  request t db (reorder_card card_id reorder_data current_user)
  = if card_update_accepted eng db c
         (Card.set_position c (CardReorder.position reorder_data))
    then let db' := after_write t db c
                      (Card.set_position c
                         (CardReorder.position reorder_data)) in
         (Ok (loaded (reordered t c (CardReorder.position reorder_data))),
          db', [db'])
    else (ServerError, db, []).
Proof.
  intros Hc Hb Hown. pose proof (get_card_self _ _ _ Hc) as Hself.
  walk Hc Hb.
  apply uuid_eqb_eq in Hown. rewrite Hown. cbn.
  rewrite reorder_run by exact Hself.
  now destruct (card_update_accepted eng db c _).
Qed.

Lemma reorder_card_run t db card_id reorder_data current_user c b :
  get_card db card_id = Some c ->
  current_board db c = Some b ->
  Board.owner_id b = User.id (attrs current_user) ->
  card_update_accepted eng db c
    (Card.set_position c (CardReorder.position reorder_data)) = true ->
  request t db (reorder_card card_id reorder_data current_user)
  = let db' := after_write t db c
                 (Card.set_position c (CardReorder.position reorder_data)) in
    (Ok (loaded (reordered t c (CardReorder.position reorder_data))),
     db', [db']).
Proof.
  intros Hc Hb Hown Hacc.
  rewrite (reorder_card_passes t db card_id reorder_data current_user c b)
    by assumption.
  now rewrite Hacc.
Qed.

(** A successful response passed every check. *)
Lemma move_card_ok_inv t db card_id move_data current_user card :
  response (request t db (move_card card_id move_data current_user))
  = Ok card ->
  exists c b l2,
    get_card db card_id = Some c /\
    current_board db c = Some b /\
    Board.owner_id b = User.id (attrs current_user) /\
    get_list db (CardMove.list_id move_data) = Some l2 /\
    BList.board_id l2 = Board.id b /\
    card_update_accepted eng db c
      (Card.set_position (Card.set_list_id c (CardMove.list_id move_data))
         (CardMove.position move_data)) = true.
Proof.
  unfold response. run_endpoint.
  destruct (select_by_id Card.id card_id (cards db)) as [c|] eqn:Hc;
    cbn; [|discriminate].
  destruct (select_by_id BList.id (Card.list_id c) (lists db)) as [l|] eqn:Hl;
    cbn; [|discriminate].
  destruct (select_by_id Board.id (BList.board_id l) (boards db)) as [b|]
    eqn:Hb; cbn; [|discriminate].
  destruct (uuid_eqb (Board.owner_id b) (User.id (attrs current_user)))
    eqn:Hown; cbn; [|discriminate].
  destruct (select_by_id BList.id (CardMove.list_id move_data) (lists db))
    as [l2|] eqn:Ht; cbn; [|discriminate].
  destruct (uuid_eqb (BList.board_id l2) (Board.id b)) eqn:Heq;
    cbn; [|discriminate].
  rewrite move_to_list_run
    by (apply get_card_self with card_id; exact Hc).
  destruct (card_update_accepted eng db c _) eqn:Hacc; cbn; [|discriminate].
  intros _. exists c, b, l2.
  apply uuid_eqb_eq in Hown, Heq.
  unfold current_board, board_of_list, get_card, get_list. rewrite Hl.
  repeat split; assumption.
Qed.


(** The database after the write of a card. *)
Lemma written_id t c c' :
  Card.id c' = Card.id c -> Card.id (written t c c') = Card.id c.
Proof. unfold written. now destruct (Card.eq_dec c c'). Qed.

Lemma after_write_tables t db c c' :
  users (after_write t db c c') = users db /\
  boards (after_write t db c c') = boards db /\
  lists (after_write t db c c') = lists db.
Proof. unfold after_write. now destruct (Card.eq_dec c c'). Qed.

Lemma get_card_after_write t db c c' :
  Card.id c' = Card.id c ->
  get_card db (Card.id c) = Some c ->
  get_card (after_write t db c c') (Card.id c) = Some (written t c c').
Proof.
  intros Hid Hget. unfold after_write, written.
  destruct (Card.eq_dec c c'); [exact Hget|].
  unfold get_card, cards_with. cbn.
  exact (select_by_id_update_same Card.id (Card.id c)
           (Card.set_updated_at c' t) (cards db) c Hget Hid).
Qed.

Lemma get_card_after_write_other t db c c' card_id :
  Card.id c' = Card.id c ->
  card_id <> Card.id c ->
  get_card (after_write t db c c') card_id = get_card db card_id.
Proof.
  intros Hid Hne. unfold after_write, written.
  destruct (Card.eq_dec c c'); [reflexivity|].
  unfold get_card, cards_with. cbn.
  exact (select_by_id_update_other Card.id (Card.id c) card_id
           (Card.set_updated_at c' t) (cards db) Hid Hne).
Qed.

Lemma other_cards_after_write t db c c' :
  Card.id c' = Card.id c ->
  other_cards (Card.id c) (after_write t db c c') = other_cards (Card.id c) db.
Proof.
  intros Hid. unfold after_write, written.
  destruct (Card.eq_dec c c'); [reflexivity|].
  unfold other_cards, cards_with. cbn.
  exact (filter_other_update Card.id (Card.id c)
           (Card.set_updated_at c' t) (cards db) Hid).
Qed.

(** The two refusals of [move_card] that depend on boards. *)
Lemma move_card_run_forbidden t db card_id move_data current_user c b :
  get_card db card_id = Some c ->
  current_board db c = Some b ->
  Board.owner_id b <> User.id (attrs current_user) ->
  request t db (move_card card_id move_data current_user)
  = (Raise (mkHTTPException 403 "Not authorized to move this card"),
     db, []).
Proof.
  intros Hc Hb Hown. walk Hc Hb.
  apply uuid_eqb_neq in Hown. now rewrite Hown.
Qed.

Lemma move_card_run_cross_board t db card_id move_data current_user c b l2 :
  get_card db card_id = Some c ->
  current_board db c = Some b ->
  Board.owner_id b = User.id (attrs current_user) ->
  get_list db (CardMove.list_id move_data) = Some l2 ->
  BList.board_id l2 <> Board.id b ->
  request t db (move_card card_id move_data current_user)
  = (Raise (mkHTTPException 400
              "Cannot move card to a list in a different board"),
     db, []).
Proof.
  intros Hc Hb Hown Ht Hne. walk Hc Hb.
  apply uuid_eqb_eq in Hown. rewrite Hown. cbn. rewrite Ht. cbn.
  apply uuid_eqb_neq in Hne. now rewrite Hne.
Qed.

(** C2. [move_card] checks its preconditions in a fixed order and the
    first failure decides the response: a missing card is 404; else a
    caller who does not own the card's current board is 403, whatever the
    target; else a missing target list is 404; else a target list on
    another board is 400. A failed check leaves the database as it was
    and commits nothing. Only when all four checks pass is the card
    moved: no [HTTPException] is raised any more, and for a position in
    the range of the column the answer is the moved card (the target
    list, the position, and every other column but [updated_at] as it
    was), which is the stored card, written by the one commit of the
    request, with the other cards and the other tables as they were. A position the engine
    refuses makes the request fail with the engine's exception and
    writes nothing. *)
Theorem move_card_checks_in_order
  (t : datetime) (db : Store) (card_id : UUID) (move_data : CardMove.t)
  (current_user : Instance User.t) :
  let r := request t db (move_card card_id move_data current_user) in
  let caller := User.id (attrs current_user) in
  (get_card db card_id = None ->
     r = (Raise (mkHTTPException 404 "Card not found"), db, []))
  /\
  (forall c b,
     get_card db card_id = Some c ->
     current_board db c = Some b ->
     Board.owner_id b <> caller ->
     r = (Raise (mkHTTPException 403 "Not authorized to move this card"),
          db, []))
  /\
  (forall c b,
     get_card db card_id = Some c ->
     current_board db c = Some b ->
     Board.owner_id b = caller ->
     get_list db (CardMove.list_id move_data) = None ->
     r = (Raise (mkHTTPException 404 "Target list not found"), db, []))
  /\
  (forall c b l2,
     get_card db card_id = Some c ->
     current_board db c = Some b ->
     Board.owner_id b = caller ->
     get_list db (CardMove.list_id move_data) = Some l2 ->
     BList.board_id l2 <> Board.id b ->
     r = (Raise (mkHTTPException 400
                   "Cannot move card to a list in a different board"),
          db, []))
  /\
  (forall c b l2,
     get_card db card_id = Some c ->
     current_board db c = Some b ->
     Board.owner_id b = caller ->
     get_list db (CardMove.list_id move_data) = Some l2 ->
     BList.board_id l2 = Board.id b ->
     (forall e, response r <> Raise e) /\
     (integer_fits eng (CardMove.position move_data) = true ->
      exists card,
        r = (Ok card, final_db r, [final_db r]) /\
        Card.id (attrs card) = card_id /\
        Card.list_id (attrs card) = CardMove.list_id move_data /\
        Card.position (attrs card) = CardMove.position move_data /\
        Card.title (attrs card) = Card.title c /\
        Card.description (attrs card) = Card.description c /\
        Card.assigned_to_id (attrs card) = Card.assigned_to_id c /\
        Card.due_date (attrs card) = Card.due_date c /\
        Card.priority (attrs card) = Card.priority c /\
        Card.created_at (attrs card) = Card.created_at c /\
        get_card (final_db r) card_id = Some (attrs card) /\
        other_cards card_id (final_db r) = other_cards card_id db /\
        lists (final_db r) = lists db /\
        boards (final_db r) = boards db /\
        users (final_db r) = users db) /\
     (card_update_accepted eng db c
        (Card.set_position (Card.set_list_id c (CardMove.list_id move_data))
           (CardMove.position move_data)) = false ->
      r = (ServerError, db, []))).
Proof.
  cbv zeta. repeat split.
  - intros Hc. unfold get_card in Hc. run_endpoint. now rewrite Hc.
  - intros c b Hc Hb Hown. now apply move_card_run_forbidden with c b.
  - intros c b Hc Hb Hown Ht. walk Hc Hb.
    apply uuid_eqb_eq in Hown. rewrite Hown. cbn. now rewrite Ht.
  - intros c b l2 Hc Hb Hown Ht Hne.
    now apply move_card_run_cross_board with c b l2.
  - intros e.
    rewrite (move_card_passes t db card_id move_data current_user c b l2)
      by assumption.
    destruct (card_update_accepted eng db c _); discriminate.
  - intros Hfit.
    pose proof (move_accepted db c _ _ l2 H2 Hfit) as Hacc.
    rewrite (move_card_run t db card_id move_data current_user c b l2)
      by assumption.
    cbv zeta. unfold final_db. cbn [fst snd].
    pose proof (get_card_id _ _ _ H) as Hid.
    pose proof (get_card_self _ _ _ H) as Hself.
    destruct (moved_fields t c (CardMove.list_id move_data)
                (CardMove.position move_data)) as (Hi & Hl & Hp).
    destruct (moved_content t c (CardMove.list_id move_data)
                (CardMove.position move_data))
      as (Ht1 & Ht2 & Ht3 & Ht4 & Ht5 & Ht6).
    destruct (after_write_tables t db c
                (Card.set_position
                   (Card.set_list_id c (CardMove.list_id move_data))
                   (CardMove.position move_data))) as (Hu & Hbs & Hls).
    eexists. split; [reflexivity|]. cbn [attrs loaded].
    repeat split; try assumption; try congruence.
    + rewrite <- Hid. now apply get_card_after_write.
    + rewrite <- Hid. now apply other_cards_after_write.
  - intros Hacc.
    rewrite (move_card_passes t db card_id move_data current_user c b l2)
      by assumption.
    now rewrite Hacc.
Qed.

(** C1. After a successful [move_card] the returned card and the stored
    card have the target [list_id] and the requested [position]. The two
    fields are written by one commit: the request commits exactly one
    database state, so every state an observer can see is either the state
    before the request or a state in which the card has both new values. *)
Theorem move_card_atomic
  (t : datetime) (db : Store) (card_id : UUID) (move_data : CardMove.t)
  (current_user : Instance User.t) (card : Instance Card.t) :
  let r := request t db (move_card card_id move_data current_user) in
  response r = Ok card ->
  Card.list_id (attrs card) = CardMove.list_id move_data /\
  Card.position (attrs card) = CardMove.position move_data /\
  get_card (final_db r) card_id = Some (attrs card) /\
  commits r = [final_db r] /\
  (forall st, In st (db :: commits r) ->
     st = db \/
     exists c, get_card st card_id = Some c /\
               Card.list_id c = CardMove.list_id move_data /\
               Card.position c = CardMove.position move_data).
Proof.
  cbv zeta. intros Hok.
  destruct (move_card_ok_inv _ _ _ _ _ _ Hok)
    as (c & b & l2 & Hc & Hb & Ho & Ht & He & Hacc).
  rewrite (move_card_run t db card_id move_data current_user c b l2) in *
    by assumption.
  cbv zeta in *. unfold response, final_db, commits in *. cbn in *.
  injection Hok as <-. cbn.
  destruct (moved_fields t c (CardMove.list_id move_data)
              (CardMove.position move_data)) as (_ & Hl & Hp).
  assert (Hst : get_card
            (after_write t db c
               (Card.set_position
                  (Card.set_list_id c (CardMove.list_id move_data))
                  (CardMove.position move_data))) card_id
          = Some (moved t c (CardMove.list_id move_data)
                    (CardMove.position move_data))).
  { rewrite <- (get_card_id _ _ _ Hc).
    apply get_card_after_write; [reflexivity|].
    now apply get_card_self with card_id. }
  repeat split; try assumption.
  intros st [<-|[<-|[]]]; [now left|right].
  eexists. split; [exact Hst|]. now split.
Qed.

(** C3. A move to a list of another board is refused with 400 and writes
    nothing, when the caller owns the card's current board. Only the
    identity of the two boards is compared: the owner of the target board
    is never looked at, so owning both boards changes nothing, and for no
    caller at all does such a move succeed. *)
Theorem move_card_cross_board_rejected
  (t : datetime) (db : Store) (card_id : UUID) (move_data : CardMove.t)
  (current_user : Instance User.t) (c : Card.t) (b : Board.t) (l2 : BList.t) :
  get_card db card_id = Some c ->
  current_board db c = Some b ->
  get_list db (CardMove.list_id move_data) = Some l2 ->
  BList.board_id l2 <> Board.id b ->
  let r := request t db (move_card card_id move_data current_user) in
  (Board.owner_id b = User.id (attrs current_user) ->
   r = (Raise (mkHTTPException HTTP_400_BAD_REQUEST
                 "Cannot move card to a list in a different board"),
        db, []))
  /\
  (forall card, response r <> Ok card) /\
  final_db r = db /\
  commits r = [].
Proof.
  intros Hc Hb Ht Hne. cbv zeta.
  split.
  { intros Hown. now apply move_card_run_cross_board with c b l2. }
  destruct (uuid_eqb (Board.owner_id b) (User.id (attrs current_user)))
    eqn:E.
  - apply uuid_eqb_eq in E.
    rewrite (move_card_run_cross_board t db card_id move_data current_user
               c b l2 Hc Hb E Ht Hne).
    repeat split. intros card. discriminate.
  - apply uuid_eqb_neq in E.
    rewrite (move_card_run_forbidden t db card_id move_data current_user
               c b Hc Hb E).
    repeat split. intros card. discriminate.
Qed.

Lemma set_position_same c : Card.set_position c (Card.position c) = c.
Proof. now destruct c. Qed.


(** [reorder_card] either passes its checks or fails in a way that depends
    neither on the time nor on the position asked for, and writes nothing. *)
Lemma reorder_card_cases db card_id reorder_data current_user :
  (exists c b,
     get_card db card_id = Some c /\
     current_board db c = Some b /\
     Board.owner_id b = User.id (attrs current_user))
  \/
  (exists x,
     forall t, request t db (reorder_card card_id reorder_data current_user)
               = (x, db, [])).
Proof.
  unfold current_board, board_of_list, get_card. run_endpoint.
  destruct (select_by_id Card.id card_id (cards db)) as [c|] eqn:Hc;
    cbn; [|right; eexists; reflexivity].
  destruct (select_by_id BList.id (Card.list_id c) (lists db)) as [l|] eqn:Hl;
    cbn; [|right; eexists; reflexivity].
  destruct (select_by_id Board.id (BList.board_id l) (boards db)) as [b|]
    eqn:Hb; cbn; [|right; eexists; reflexivity].
  destruct (uuid_eqb (Board.owner_id b) (User.id (attrs current_user)))
    eqn:Hown; cbn; [|right; eexists; reflexivity].
  left. exists c, b. rewrite Hl. apply uuid_eqb_eq in Hown.
  repeat split; assumption.
Qed.

(** C7. [reorder_card] is idempotent: a second call with the same position,
    at any later time, returns the same response as the first and leaves
    the database the first call left. The second call assigns the position
    the card already has, so no UPDATE is emitted and [updated_at] keeps
    the value the first call gave it. *)
Theorem reorder_card_idempotent
  (t1 t2 : datetime) (db : Store) (card_id : UUID)
  (reorder_data : CardReorder.t) (current_user : Instance User.t) :
  let r1 := request t1 db (reorder_card card_id reorder_data current_user) in
  let r2 := request t2 (final_db r1)
              (reorder_card card_id reorder_data current_user) in
  response r2 = response r1 /\ final_db r2 = final_db r1.
Proof.
  cbv zeta.
  destruct (reorder_card_cases db card_id reorder_data current_user)
    as [(c & b & Hc & Hb & Ho) | (x & Hx)].
  - destruct (card_update_accepted eng db c
                (Card.set_position c (CardReorder.position reorder_data)))
      eqn:Hacc.
    2:{ assert (Hfail : forall t,
                  request t db
                    (reorder_card card_id reorder_data current_user)
                  = (ServerError, db, [])).
        { intros t.
          rewrite (reorder_card_passes t db card_id reorder_data
                     current_user c b) by assumption.
          now rewrite Hacc. }
        rewrite (Hfail t1). unfold final_db at 1 3. cbn [fst snd].
        rewrite (Hfail t2). now split. }
    rewrite (reorder_card_run t1 db card_id reorder_data current_user c b)
      by assumption.
    cbv zeta. unfold final_db at 1 3. unfold response at 2. cbn [fst snd].
    set (p := CardReorder.position reorder_data).
    set (db1 := after_write t1 db c (Card.set_position c p)).
    set (v := reordered t1 c p).
    pose proof (get_card_id _ _ _ Hc) as Hid.
    pose proof (get_card_self _ _ _ Hc) as Hself.
    destruct (reordered_fields t1 c p) as (Hvid & Hvl & Hvp). fold v in Hvid, Hvl, Hvp.
    destruct (after_write_tables t1 db c (Card.set_position c p))
      as (_ & Hbs & Hls). fold db1 in Hbs, Hls.
    assert (Hc1 : get_card db1 card_id = Some v).
    { rewrite <- Hid. now apply get_card_after_write. }
    assert (Hb1 : current_board db1 v = Some b).
    { unfold current_board, board_of_list in *. now rewrite Hvl, Hls, Hbs. }
    assert (Hsame : Card.set_position v p = v).
    { rewrite <- Hvp at 1. apply set_position_same. }
    rewrite (reorder_card_run t2 db1 card_id reorder_data current_user v b);
      [| assumption | assumption | assumption
       | fold p; rewrite Hsame; apply card_update_accepted_same ].
    cbv zeta. fold p. unfold response, final_db. cbn [fst snd].
    unfold reordered, written, after_write. rewrite Hsame.
    destruct (Card.eq_dec v v) as [_|N]; [|congruence]. now split.
  - rewrite (Hx t1). unfold final_db at 1 3. cbn [fst snd]. rewrite (Hx t2).
    now split.
Qed.

(** C9, as the code has it. A move whose target is the card's current
    list is a reorder, for every position: the same-board check passes,
    and the database left behind and the commits are those of
    [reorder_card] with the same position, for every caller; for the
    owner of the card's board the two requests are equal, response
    included (for another caller the two refusals are both 403 and differ
    in their text). Such a move succeeds, with the card at the new
    position in its list, when the position is in the range of the
    column; a position outside it makes both requests fail alike. *)
Theorem move_to_current_list_is_reorder
  (t : datetime) (db : Store) (card_id : UUID) (position : Z)
  (current_user : Instance User.t) (c : Card.t) :
  get_card db card_id = Some c ->
  let m := request t db
             (move_card card_id (CardMove.mk (Card.list_id c) position)
                current_user) in
  let r := request t db
             (reorder_card card_id (CardReorder.mk position) current_user) in
  final_db m = final_db r /\
  commits m = commits r /\
  response m <> Raise cross_board_move /\
  (response m = response r \/
   exists e1 e2,
     m = (Raise e1, db, []) /\ r = (Raise e2, db, []) /\
     status_code e1 = 403 /\ status_code e2 = 403) /\
  (forall b,
     current_board db c = Some b ->
     Board.owner_id b = User.id (attrs current_user) ->
     m = r /\
     (integer_fits eng position = true ->
      m = (Ok (loaded (reordered t c position)), final_db m, [final_db m]) /\
      get_card (final_db m) card_id = Some (reordered t c position) /\
      Card.list_id (reordered t c position) = Card.list_id c /\
      Card.position (reordered t c position) = position)).
Proof.
  intros Hc. cbv zeta.
  assert (Howner : forall b,
            current_board db c = Some b ->
            Board.owner_id b = User.id (attrs current_user) ->
            request t db
              (move_card card_id (CardMove.mk (Card.list_id c) position)
                 current_user)
            = request t db
                (reorder_card card_id (CardReorder.mk position)
                   current_user)).
  { intros b Hb Ho.
    destruct (current_board_inv _ _ _ Hb) as (l & Hl & Hbl).
    assert (Hsame : BList.board_id l = Board.id b).
    { unfold get_board in Hbl.
      destruct (select_by_id_some _ _ _ _ Hbl) as [_ H]. now rewrite H. }
    rewrite (move_card_passes t db card_id _ current_user c b l)
      by assumption.
    rewrite (reorder_card_passes t db card_id _ current_user c b)
      by assumption.
    cbn [CardMove.list_id CardMove.position CardReorder.position].
    unfold moved, reordered. now rewrite !set_list_id_same. }
  destruct (current_board db c) as [b|] eqn:Hb.
  - destruct (uuid_eqb (Board.owner_id b) (User.id (attrs current_user)))
      eqn:Ho.
    + apply uuid_eqb_eq in Ho. rewrite (Howner b eq_refl Ho).
      split; [reflexivity|]. split; [reflexivity|]. split.
      { rewrite (reorder_card_passes t db card_id _ current_user c b)
          by assumption.
        destruct (card_update_accepted eng db c _); discriminate. }
      split; [now left|].
      intros b' Hb' _. injection Hb' as <-. split; [reflexivity|].
      intros Hfit.
      assert (Hacc : card_update_accepted eng db c
                       (Card.set_position c position) = true).
      { rewrite reorder_accepted_iff, Hfit. apply orb_true_r. }
      rewrite (reorder_card_run t db card_id _ current_user c b)
        by assumption.
      cbv zeta. unfold final_db. cbn [fst snd CardReorder.position].
      destruct (reordered_fields t c position) as (_ & Hl & Hp).
      split; [reflexivity|]. split; [|now split].
      rewrite <- (get_card_id _ _ _ Hc).
      apply get_card_after_write; [reflexivity|].
      now apply get_card_self with card_id.
    + apply uuid_eqb_neq in Ho.
      rewrite (move_card_run_forbidden t db card_id _ current_user c b)
        by assumption.
      assert (Hr : request t db
                     (reorder_card card_id (CardReorder.mk position)
                        current_user)
                   = (Raise (mkHTTPException 403
                               "Not authorized to reorder this card"),
                      db, [])).
      { walk Hc Hb. apply uuid_eqb_neq in Ho. now rewrite Ho. }
      rewrite Hr. unfold final_db, commits, response. cbn [fst snd].
      split; [reflexivity|]. split; [reflexivity|].
      split; [discriminate|]. split.
      * right. eexists _, _. repeat split.
      * intros b' Hb' Ho'. injection Hb' as <-. contradiction.
  - assert (Hm : forall A (ep : DB A) x,
              request t db ep = (x, db, []) ->
              final_db (request t db ep) = db /\
              commits (request t db ep) = [] /\
              response (request t db ep) = x).
    { intros A ep x ->. now repeat split. }
    assert (H1 : request t db
                   (move_card card_id
                      (CardMove.mk (Card.list_id c) position) current_user)
                 = (ServerError, db, [])).
    { unfold current_board, board_of_list in Hb.
      unfold get_card in Hc. run_endpoint. rewrite Hc. cbn.
      destruct (select_by_id BList.id (Card.list_id c) (lists db)) as [l|];
        cbn; [|reflexivity].
      now rewrite Hb. }
    assert (H2 : request t db
                   (reorder_card card_id (CardReorder.mk position)
                      current_user)
                 = (ServerError, db, [])).
    { unfold current_board, board_of_list in Hb.
      unfold get_card in Hc. run_endpoint. rewrite Hc. cbn.
      destruct (select_by_id BList.id (Card.list_id c) (lists db)) as [l|];
        cbn; [|reflexivity].
      now rewrite Hb. }
    rewrite H1, H2. unfold final_db, commits, response. cbn [fst snd].
    split; [reflexivity|]. split; [reflexivity|].
    split; [discriminate|]. split; [now left|].
    intros b' Hb'. discriminate Hb'.
Qed.

(** ** Fetch, then authorize *)

Ltac run_operation :=
  unfold perform, outcome, response, final_db, request,
    update_board, delete_board, update_list, delete_list, reorder_list,
    update_card, delete_card, reorder_card, move_card,
    bind, card_crud.get, list_crud.get, board_crud.get, query,
    not_none, raise_if, raise, ret, server_error;
  cbn.

(** C4. Every reorder, move, update and delete first fetches the entity it
    names and answers 404 when it is missing, whatever else is missing
    with it; when the entity exists and its owner, resolved through its
    parents, is not the caller, the answer is 403. Neither failure writes
    to the database. *)
Theorem operations_fetch_then_authorize
  (t : datetime) (db : Store) (current_user : Instance User.t)
  (op : Operation) :
  (resolve_owner db op = Missing ->
     exists msg,
       perform t db current_user op
       = (Failure (mkHTTPException HTTP_404_NOT_FOUND msg), db))
  /\
  (forall owner,
     resolve_owner db op = OwnedBy owner ->
     owner <> User.id (attrs current_user) ->
     exists msg,
       perform t db current_user op
       = (Failure (mkHTTPException HTTP_403_FORBIDDEN msg), db)).
Proof.
  split.
  - destruct op; cbn [resolve_owner];
      unfold owner_of_board, owner_of_list, owner_of_card, current_board,
        board_of_list, get_board, get_list, get_card;
      run_operation;
      repeat match goal with
        | |- context [select_by_id ?pk ?id ?rows] =>
            destruct (select_by_id pk id rows); cbn; try discriminate
        end;
      intros _; eexists; reflexivity.
  - intros owner Hres Hne.
    destruct op; cbn [resolve_owner] in Hres;
      unfold owner_of_board, owner_of_list, owner_of_card, current_board,
        board_of_list, get_board, get_list, get_card in Hres;
      run_operation;
      repeat match type of Hres with
        | context [select_by_id ?pk ?id ?rows] =>
            destruct (select_by_id pk id rows); cbn; try discriminate
        end;
      injection Hres as Hres; subst owner;
      apply uuid_eqb_neq in Hne; rewrite Hne; cbn;
      eexists; reflexivity.
Qed.

(** ** Listing boards *)

Lemma In_firstn {A} (n : nat) (l : list A) x : In x (firstn n l) -> In x l.
Proof.
  intros H. rewrite <- (firstn_skipn n l). apply in_or_app. now left.
Qed.

Lemma In_skipn {A} (n : nat) (l : list A) x : In x (skipn n l) -> In x l.
Proof.
  intros H. rewrite <- (firstn_skipn n l). apply in_or_app. now right.
Qed.

Lemma attrs_loaded {T} (l : list T) : map attrs (map loaded l) = l.
Proof.
  induction l as [|x l IH]; cbn; [reflexivity | now rewrite IH].
Qed.

Lemma In_boards_of db owner_id b :
  In b (boards_of db owner_id) <->
  In b (boards db) /\ Board.owner_id b = owner_id.
Proof.
  unfold boards_of. rewrite filter_In. now rewrite uuid_eqb_eq.
Qed.

Lemma list_boards_run t db skip limit current_user :
  request t db (list_boards skip limit current_user)
  = (match page eng skip limit
             (boards_of db (User.id (attrs current_user))) with
     | Some rows => Ok (map loaded rows)
     | None => ServerError
     end, db, []).
Proof.
  unfold request, list_boards, board_crud.get_multi_by_owner, execute, bind,
    ret, boards_of. cbn.
  now destruct (page eng skip limit _).
Qed.

Lemma page_non_negative {T} (skip limit : Z) (rows : list T) :
  0 <= skip < 2 ^ 63 -> 0 <= limit < 2 ^ 63 ->
  page eng skip limit rows
  = Some (firstn (Z.to_nat limit) (skipn (Z.to_nat skip) rows)).
Proof.
  intros Hs Hl. unfold page, bigint_fits.
  assert (H1 : (- 2 ^ 63 <=? skip) = true) by (apply Z.leb_le; lia).
  assert (H2 : (skip <=? 2 ^ 63 - 1) = true) by (apply Z.leb_le; lia).
  assert (H3 : (- 2 ^ 63 <=? limit) = true) by (apply Z.leb_le; lia).
  assert (H4 : (limit <=? 2 ^ 63 - 1) = true) by (apply Z.leb_le; lia).
  assert (H5 : (skip <? 0) = false) by (apply Z.ltb_ge; lia).
  assert (H6 : (limit <? 0) = false) by (apply Z.ltb_ge; lia).
  rewrite H1, H2, H3, H4, H5, H6. reflexivity.
Qed.

Lemma page_beyond_bigint {T} (skip limit : Z) (rows : list T) :
  2 ^ 63 <= limit -> page eng skip limit rows = None.
Proof.
  intros Hl. unfold page, bigint_fits.
  assert (H : (limit <=? 2 ^ 63 - 1) = false) by (apply Z.leb_gt; lia).
  now rewrite H, !andb_false_r.
Qed.

(** Whatever the engine makes of [skip] and [limit], a page is a run of
    consecutive rows. *)
Lemma page_is_a_run {T} (skip limit : Z) (rows result : list T) :
  page eng skip limit rows = Some result ->
  exists n m, result = firstn n (skipn m rows).
Proof.
  unfold page.
  destruct (negb (bigint_fits skip && bigint_fits limit)); [discriminate|].
  destruct (((skip <? 0) || (limit <? 0)) && negb (negative_limit eng));
    [discriminate|].
  intros H. injection H as <-.
  destruct (limit <? 0).
  - exists (List.length (skipn (Z.to_nat skip) rows)), (Z.to_nat skip).
    now rewrite firstn_all.
  - now exists (Z.to_nat limit), (Z.to_nat skip).
Qed.

(** C5, as the code has it. [list_boards] is paginated, and passes [skip]
    and [limit] to the query as the caller gave them. It never writes and
    raises no [HTTPException]. Whatever [skip] and [limit] are, an answer
    holds only boards of the caller: a run of consecutive boards of the
    caller, in table order. For [skip] and [limit] from 0 to 2^63 - 1 it
    answers with the caller's boards without the first [skip] and cut at
    [limit] (100 unless the caller says otherwise), so at most [limit]
    boards, and exactly the set of the caller's boards when [skip] is 0
    and the caller owns at most [limit] boards. *)
Theorem list_boards_page
  (t : datetime) (db : Store) (skip limit : Z)
  (current_user : Instance User.t) :
  let r := request t db (list_boards skip limit current_user) in
  let mine := boards_of db (User.id (attrs current_user)) in
  final_db r = db /\ commits r = [] /\
  (forall e, response r <> Raise e) /\
  (forall result,
     response r = Ok result ->
     (forall b, In b (map attrs result) ->
        In b (boards db) /\
        Board.owner_id b = User.id (attrs current_user)) /\
     (exists n m, map attrs result = firstn n (skipn m mine))) /\
  (0 <= skip < 2 ^ 63 -> 0 <= limit < 2 ^ 63 ->
   exists result,
     response r = Ok result /\
     map attrs result
     = firstn (Z.to_nat limit) (skipn (Z.to_nat skip) mine) /\
     Z.of_nat (List.length result) <= limit /\
     (skip = 0 ->
      Z.of_nat (List.length mine) <= limit ->
      lists_exactly_owned_boards t db skip limit current_user)).
Proof.
  cbv zeta. rewrite list_boards_run.
  unfold final_db, commits, response. cbn [fst snd].
  split; [reflexivity|]. split; [reflexivity|]. split; [|split].
  - intros e. destruct (page eng skip limit _); discriminate.
  - intros result Hok.
    destruct (page eng skip limit
                (boards_of db (User.id (attrs current_user))))
      as [rows|] eqn:Hpage; [|discriminate].
    injection Hok as <-. rewrite attrs_loaded.
    destruct (page_is_a_run _ _ _ _ Hpage) as (n & m & ->).
    split; [|now exists n, m].
    intros b H.
    apply (In_boards_of db (User.id (attrs current_user)) b).
    eapply In_skipn, In_firstn, H.
  - intros Hskip Hlimit.
    rewrite (page_non_negative skip limit _ Hskip Hlimit).
    eexists. split; [reflexivity|]. rewrite attrs_loaded.
    split; [reflexivity|]. split.
    + rewrite length_map.
      pose proof (firstn_le_length (Z.to_nat limit)
        (skipn (Z.to_nat skip)
           (boards_of db (User.id (attrs current_user))))).
      lia.
    + intros -> Hfew. unfold lists_exactly_owned_boards.
      rewrite list_boards_run.
      rewrite (page_non_negative 0 limit _ Hskip Hlimit).
      unfold response. cbn [fst].
      eexists. split; [reflexivity|]. intros b.
      rewrite attrs_loaded. cbn [Z.to_nat skipn].
      rewrite firstn_all2 by lia. apply In_boards_of.
Qed.

(** ** Updating the profile *)

Arguments user_crud.update : simpl never.

Lemma being_updated_some v current x :
  being_updated v current = Some x ->
  v = Some x /\ x <> EmptyString /\ x <> current.
Proof.
  unfold being_updated. destruct v as [y|]; [|discriminate].
  destruct (String.eqb y "") eqn:E1; cbn; [discriminate|].
  destruct (String.eqb y current) eqn:E2; cbn; [discriminate|].
  intros H. injection H as <-.
  apply String.eqb_neq in E1, E2. auto.
Qed.

Lemma being_updated_own v current :
  own_or_absent v current -> being_updated v current = None.
Proof.
  intros [->| ->]; cbn; [reflexivity|].
  rewrite String.eqb_refl. now rewrite andb_false_r.
Qed.

Lemma no_violation_without_change id old v rows :
  User.email v = User.email old ->
  User.username v = User.username old ->
  user_unique_violation id old v rows = false.
Proof.
  intros He Hn. unfold user_unique_violation. rewrite He, Hn.
  rewrite !String.eqb_refl. cbn.
  induction rows as [|r rows IH]; cbn; [reflexivity|].
  rewrite IH. now rewrite andb_false_r.
Qed.

Lemma find_email_taken db email :
  user_by_email db email <> None <-> email_taken db email.
Proof.
  unfold user_by_email, email_taken. split.
  - destruct (find _ (users db)) as [u|] eqn:E; [|now intros []].
    intros _. apply find_some in E. destruct E as [Hin He].
    apply String.eqb_eq in He. now exists u.
  - intros (u & Hin & He) Hnone.
    apply (find_none _ _ Hnone) in Hin. cbn in Hin.
    apply String.eqb_neq in Hin. contradiction.
Qed.

Lemma find_username_taken db username :
  find (fun u => String.eqb (User.username u) username) (users db) <> None
  <-> username_taken db username.
Proof.
  unfold username_taken. split.
  - destruct (find _ (users db)) as [u|] eqn:E; [|now intros []].
    intros _. apply find_some in E. destruct E as [Hin He].
    apply String.eqb_eq in He. now exists u.
  - intros (u & Hin & He) Hnone.
    apply (find_none _ _ Hnone) in Hin. cbn in Hin.
    apply String.eqb_neq in Hin. contradiction.
Qed.

Lemma username_find_taken db username :
  username_taken db username ->
  exists w, find (fun u => String.eqb (User.username u) username) (users db)
            = Some w.
Proof.
  intros H. apply find_username_taken in H.
  destruct (find _ (users db)) as [w|]; [now exists w | now destruct H].
Qed.

Lemma email_find_taken db email :
  email_taken db email ->
  exists w, find (fun u => String.eqb (User.email u) email) (users db)
            = Some w.
Proof.
  intros H. apply find_email_taken in H. unfold user_by_email in H.
  destruct (find _ (users db)) as [w|]; [now exists w | now destruct H].
Qed.

(** The fields of the assigned profile. *)
Lemma profile_assigned_fields u user_in :
  let v := profile_assigned u user_in in
  User.id v = User.id u /\
  User.email v = supplied (UserUpdate.email user_in) (User.email u) /\
  User.username v
  = supplied (UserUpdate.username user_in) (User.username u) /\
  User.full_name v
  = supplied (option_map Some (UserUpdate.full_name user_in))
      (User.full_name u) /\
  User.is_active v
  = supplied (UserUpdate.is_active user_in) (User.is_active u) /\
  User.hashed_password v = User.hashed_password u /\
  User.is_superuser v = User.is_superuser u /\
  User.created_at v = User.created_at u.
Proof.
  unfold profile_assigned.
  destruct (UserUpdate.email user_in), (UserUpdate.username user_in),
    (UserUpdate.full_name user_in), (UserUpdate.is_active user_in);
    cbn; repeat split.
Qed.

Lemma profile_written_fields t u user_in :
  let v := profile_written t u user_in in
  User.id v = User.id u /\
  User.email v = supplied (UserUpdate.email user_in) (User.email u) /\
  User.username v
  = supplied (UserUpdate.username user_in) (User.username u) /\
  User.full_name v
  = supplied (option_map Some (UserUpdate.full_name user_in))
      (User.full_name u) /\
  User.is_active v
  = supplied (UserUpdate.is_active user_in) (User.is_active u) /\
  User.hashed_password v = User.hashed_password u /\
  User.is_superuser v = User.is_superuser u /\
  User.created_at v = User.created_at u.
Proof.
  cbv zeta. unfold profile_written.
  pose proof (profile_assigned_fields u user_in) as H. cbv zeta in H.
  destruct (User.eq_dec u (profile_assigned u user_in)) as [Heq|_].
  - rewrite <- Heq in H. exact H.
  - exact H.
Qed.

(** A value that is the caller's own or free collides with no row. *)
Lemma no_violation_when_free db u user_in :
  own_or_free (UserUpdate.email user_in) (User.email u) (email_taken db) ->
  own_or_free (UserUpdate.username user_in) (User.username u)
    (username_taken db) ->
  user_unique_violation (User.id u) u (profile_assigned u user_in) (users db)
  = false.
Proof.
  intros He Hn. unfold user_unique_violation.
  destruct (profile_assigned_fields u user_in) as (_ & Hem & Hun & _).
  rewrite Hem, Hun.
  destruct (existsb _ (users db)) eqn:Hex; [|reflexivity].
  exfalso. apply existsb_exists in Hex. destruct Hex as (r & Hin & Hr).
  apply andb_true_iff in Hr. destruct Hr as [_ Hr].
  apply orb_true_iff in Hr. destruct Hr as [Hr|Hr];
    apply andb_true_iff in Hr; destruct Hr as [Hchanged Hsame];
    apply negb_true_iff, String.eqb_neq in Hchanged;
    apply String.eqb_eq in Hsame.
  - destruct He as [[He|He]|(x & He & Hfree)]; rewrite He in *; cbn in *.
    + now apply Hchanged.
    + now apply Hchanged.
    + apply Hfree. now exists r.
  - destruct Hn as [[Hn|Hn]|(x & Hn & Hfree)]; rewrite Hn in *; cbn in *.
    + now apply Hchanged.
    + now apply Hchanged.
    + apply Hfree. now exists r.
Qed.

(** The run of [CRUDBase.update] on the caller's row when the UPDATE
    collides with no other row. *)
Lemma user_update_run t db log u user_in :
  get_user db (User.id u) = Some u ->
  user_unique_violation (User.id u) u (profile_assigned u user_in) (users db)
  = false ->
  exists db',
    user_crud.update (loaded u) user_in (mkSession eng db [] log t)
    = (Ok (loaded (profile_written t u user_in)),
       mkSession eng db' [] (log ++ [db']) t) /\
    get_user db' (User.id u) = Some (profile_written t u user_in) /\
    (forall id, id <> User.id u -> get_user db' id = get_user db id) /\
    boards db' = boards db /\ lists db' = lists db /\ cards db' = cards db.
Proof.
  intros Hget Hfree.
  destruct (profile_assigned_fields u user_in) as (Hid & _).
  unfold user_crud.update, profile_written.
  fold (profile_assigned u user_in) in *.
  assert (Ho : assign User.set_is_active (UserUpdate.is_active user_in)
                 (assign User.set_full_name
                    (option_map Some (UserUpdate.full_name user_in))
                    (assign User.set_username (UserUpdate.username user_in)
                       (assign User.set_email (UserUpdate.email user_in)
                          (loaded u))))
               = mkInstance u (profile_assigned u user_in)).
  { unfold profile_assigned.
    destruct (UserUpdate.email user_in), (UserUpdate.username user_in),
      (UserUpdate.full_name user_in), (UserUpdate.is_active user_in);
      reflexivity. }
  cbv zeta. rewrite Ho.
  unfold bind, db_add, db_commit, db_refresh, query, flush. cbn.
  destruct (User.eq_dec u (profile_assigned u user_in)) as [Heq|Hneq].
  - cbn. unfold get_user in Hget. rewrite Hget. cbn.
    exists db. repeat split. exact Hget.
  - rewrite Hfree. cbn.
    pose proof (select_by_id_update_same User.id (User.id u)
                  (User.set_updated_at (profile_assigned u user_in) t)
                  (users db) u Hget Hid) as Hsel.
    pose proof Hsel as Hsel'.
    unfold select_by_id in Hsel. rewrite Hsel. cbn.
    eexists. split; [reflexivity|]. cbn [boards lists cards set_users].
    repeat split.
    + exact Hsel'.
    + intros id Hne. unfold get_user. cbn [users set_users].
      now apply select_by_id_update_other.
Qed.

(** The uniqueness checks of the endpoint pass for such values. *)
Lemma email_check_passes db v current ss :
  database ss = db ->
  own_or_free v current (email_taken db) ->
  match being_updated v current with
  | Some email =>
      existing_user <- user_crud.get_by_email email ;;
      match existing_user with
      | Some _ => raise (mkHTTPException HTTP_400_BAD_REQUEST
                           "Email already registered")
      | None => ret tt
      end
  | None => ret tt
  end ss = (Ok tt, ss).
Proof.
  intros Hdb Hv.
  destruct (being_updated v current) as [x|] eqn:Bx; [|reflexivity].
  apply being_updated_some in Bx. destruct Bx as (Hx & _ & Hne).
  destruct Hv as [[Hv|Hv]|(y & Hv & Hfree)]; rewrite Hv in Hx;
    try discriminate; injection Hx as ->; [now destruct Hne|].
  unfold bind, user_crud.get_by_email, query. cbn. rewrite Hdb.
  destruct (find _ (users db)) as [w|] eqn:Hw; [|reflexivity].
  exfalso. apply Hfree. apply find_some in Hw. destruct Hw as [Hin Heq].
  apply String.eqb_eq in Heq. now exists w.
Qed.

Lemma username_check_passes db v current ss :
  database ss = db ->
  own_or_free v current (username_taken db) ->
  match being_updated v current with
  | Some username =>
      existing_user <- user_crud.get_by_username username ;;
      match existing_user with
      | Some _ => raise (mkHTTPException HTTP_400_BAD_REQUEST
                           "Username already taken")
      | None => ret tt
      end
  | None => ret tt
  end ss = (Ok tt, ss).
Proof.
  intros Hdb Hv.
  destruct (being_updated v current) as [x|] eqn:Bx; [|reflexivity].
  apply being_updated_some in Bx. destruct Bx as (Hx & _ & Hne).
  destruct Hv as [[Hv|Hv]|(y & Hv & Hfree)]; rewrite Hv in Hx;
    try discriminate; injection Hx as ->; [now destruct Hne|].
  unfold bind, user_crud.get_by_username, query. cbn. rewrite Hdb.
  destruct (find _ (users db)) as [w|] eqn:Hw; [|reflexivity].
  exfalso. apply Hfree. apply find_some in Hw. destruct Hw as [Hin Heq].
  apply String.eqb_eq in Heq. now exists w.
Qed.

Lemma being_updated_changed x current :
  x <> EmptyString -> x <> current -> being_updated (Some x) current = Some x.
Proof.
  intros H1 H2. unfold being_updated.
  apply String.eqb_neq in H1, H2. now rewrite H1, H2.
Qed.

Lemma response_request {A} t db (m : DB A) :
  response (request t db m) = fst (m (mkSession eng db [] [] t)).
Proof.
  unfold response, request. now destruct (m (mkSession eng db [] [] t)).
Qed.

Lemma user_update_never_raises o user_in ss e :
  fst (user_crud.update o user_in ss) <> Raise e.
Proof.
  unfold user_crud.update, bind, db_add, db_commit, db_refresh, query. cbn.
  match goal with
  | |- context [fold_left ?f ?l ?a] =>
      destruct (fold_left f l a); cbn; [|discriminate]
  end.
  match goal with
  | |- context [select_by_id ?f ?i ?l] =>
      destruct (select_by_id f i l); cbn; discriminate
  end.
Qed.

(** C10. [update_user_me] never reports a conflict against the caller's
    own values. A uniqueness check runs only for a supplied value that
    differs from the caller's current one, so for an email and a username
    that are each not supplied, the caller's own, or had by no user, the
    update succeeds, although the caller's own values are in the [users]
    table: the answer is the caller's row as stored by the one commit of
    the request, with each supplied field assigned and nothing else
    changed but [updated_at]; the other users and the other tables are
    as they were. A conflict is raised, without writing, exactly for a
    supplied email, or else username, that differs from the caller's and
    belongs to a user. *)
Theorem update_user_me_own_values
  (t : datetime) (db : Store) (user_in : UserUpdate.t) (u : User.t) :
  get_user db (User.id u) = Some u ->
  let r := request t db (update_user_me user_in (loaded u)) in
  let v := profile_written t u user_in in
  email_taken db (User.email u) /\
  username_taken db (User.username u) /\
  (own_or_free (UserUpdate.email user_in) (User.email u) (email_taken db) ->
   own_or_free (UserUpdate.username user_in) (User.username u)
     (username_taken db) ->
   r = (Ok (loaded v), final_db r, [final_db r]) /\
   get_user (final_db r) (User.id u) = Some v /\
   (forall id, id <> User.id u ->
      get_user (final_db r) id = get_user db id) /\
   boards (final_db r) = boards db /\
   lists (final_db r) = lists db /\
   cards (final_db r) = cards db /\
   User.id v = User.id u /\
   User.email v = supplied (UserUpdate.email user_in) (User.email u) /\
   User.username v
   = supplied (UserUpdate.username user_in) (User.username u) /\
   User.full_name v
   = supplied (option_map Some (UserUpdate.full_name user_in))
       (User.full_name u) /\
   User.is_active v
   = supplied (UserUpdate.is_active user_in) (User.is_active u) /\
   User.hashed_password v = User.hashed_password u /\
   User.is_superuser v = User.is_superuser u /\
   User.created_at v = User.created_at u)
  /\
  (forall x,
     UserUpdate.email user_in = Some x ->
     x <> EmptyString -> x <> User.email u -> email_taken db x ->
     r = (Raise email_conflict, db, []))
  /\
  (own_or_free (UserUpdate.email user_in) (User.email u) (email_taken db) ->
   forall y,
     UserUpdate.username user_in = Some y ->
     y <> EmptyString -> y <> User.username u -> username_taken db y ->
     r = (Raise username_conflict, db, []))
  /\
  (forall e,
     response r = Raise e ->
     (e = email_conflict /\
      exists x, UserUpdate.email user_in = Some x /\
                x <> User.email u /\ email_taken db x)
     \/
     (e = username_conflict /\
      exists y, UserUpdate.username user_in = Some y /\
                y <> User.username u /\ username_taken db y)).
Proof.
  intros Hget. cbv zeta.
  split; [exists u; now destruct (select_by_id_some _ _ _ _ Hget)|].
  split; [exists u; now destruct (select_by_id_some _ _ _ _ Hget)|].
  split; [|split; [|split]].
  - intros He Hn.
    destruct (user_update_run t db [] u user_in Hget
                (no_violation_when_free db u user_in He Hn))
      as (db' & Hrun & Hv & Hothers & Hb & Hl & Hc).
    assert (Hr : request t db (update_user_me user_in (loaded u))
                 = (Ok (loaded (profile_written t u user_in)), db', [db'])).
    { unfold request, update_user_me. cbn [attrs loaded].
      unfold bind at 1.
      rewrite (email_check_passes db _ _ (mkSession eng db [] [] t) eq_refl He).
      unfold bind at 1.
      rewrite (username_check_passes db _ _ (mkSession eng db [] [] t) eq_refl
               Hn).
      unfold bind at 1. rewrite Hrun. reflexivity. }
    rewrite Hr. unfold final_db. cbn [fst snd].
    split; [reflexivity|].
    repeat (split; [assumption|]).
    apply (profile_written_fields t u user_in).
  - intros x Hx Hne Hdiff Htaken.
    destruct (email_find_taken db x Htaken) as (w & Hw).
    unfold request, update_user_me. cbn [attrs loaded].
    rewrite Hx, (being_updated_changed x _ Hne Hdiff).
    unfold bind, user_crud.get_by_email, query, raise. cbn.
    now rewrite Hw.
  - intros He y Hy Hne Hdiff Htaken.
    destruct (username_find_taken db y Htaken) as (w & Hw).
    unfold request, update_user_me. cbn [attrs loaded].
    unfold bind at 1.
    rewrite (email_check_passes db _ _ (mkSession eng db [] [] t) eq_refl He).
    rewrite Hy, (being_updated_changed y _ Hne Hdiff).
    unfold bind, user_crud.get_by_username, query, raise. cbn.
    now rewrite Hw.
  - intros e. rewrite response_request.
    unfold update_user_me. cbn [attrs loaded].
    assert (Hrest : forall ss,
      database ss = db ->
      fst ((match being_updated (UserUpdate.username user_in)
                    (User.username u) with
            | Some username =>
                existing_user <- user_crud.get_by_username username ;;
                match existing_user with
                | Some _ => raise (mkHTTPException HTTP_400_BAD_REQUEST
                                     "Username already taken")
                | None => ret tt
                end
            | None => ret tt
            end ;;
            user <- user_crud.update (loaded u) user_in ;; ret user) ss)
      = Raise e ->
      e = username_conflict /\
      exists y, UserUpdate.username user_in = Some y /\
                y <> User.username u /\ username_taken db y).
    { intros ss Hdb. unfold bind at 1.
      destruct (being_updated (UserUpdate.username user_in)
                  (User.username u)) as [y|] eqn:By.
      - apply being_updated_some in By. destruct By as (Hy & _ & Hyne).
        unfold bind at 1, user_crud.get_by_username, query. cbn.
        rewrite Hdb.
        destruct (find _ (users db)) as [w|] eqn:Hw; cbn.
        + intros H. injection H as <-. split; [reflexivity|].
          exists y. apply find_some in Hw. destruct Hw as [Hin Heq].
          apply String.eqb_eq in Heq. repeat split; try assumption.
          now exists w.
        + unfold bind.
          pose proof (user_update_never_raises (loaded u) user_in ss) as Hnr.
          destruct (user_crud.update (loaded u) user_in ss) as [[v|e'|] ss'];
            cbn in *; try discriminate.
          intros H. injection H as <-. now destruct (Hnr e').
      - cbn. unfold bind.
        pose proof (user_update_never_raises (loaded u) user_in ss) as Hnr.
        destruct (user_crud.update (loaded u) user_in ss) as [[v|e'|] ss'];
          cbn in *; try discriminate.
        intros H. injection H as <-. now destruct (Hnr e'). }
    unfold bind at 1.
    destruct (being_updated (UserUpdate.email user_in) (User.email u))
      as [x|] eqn:Bx.
    + apply being_updated_some in Bx. destruct Bx as (Hx & _ & Hxne).
      unfold bind at 1, user_crud.get_by_email, query. cbn.
      destruct (find _ (users db)) as [w|] eqn:Hw; cbn.
      * intros H. injection H as <-. left. split; [reflexivity|].
        exists x. apply find_some in Hw. destruct Hw as [Hin Heq].
        apply String.eqb_eq in Heq. repeat split; try assumption.
        now exists w.
      * intros H. right.
        exact (Hrest (mkSession eng db [] [] t) eq_refl H).
    + cbn. intros H. right.
      exact (Hrest (mkSession eng db [] [] t) eq_refl H).
Qed.

(* ------------------------------------------------------------------ *)
(** * The error taxonomy *)

(** ** What the endpoints raise *)




































Section ErrorFacts.
Variable get_password_hash : string -> string.
Variable verify_password : string -> string -> bool.
Variable create_access_token : string -> Z -> string.
Variable str : UUID -> string.
Variable ACCESS_TOKEN_EXPIRE_MINUTES : Z.
Variable decode_access_token : string -> option string.
Variable UUID_of_string : string -> option UUID.

Local Abbreviation raised_ :=
  (raised get_password_hash verify_password create_access_token str
     ACCESS_TOKEN_EXPIRE_MINUTES decode_access_token UUID_of_string).




Lemma exception_eqb_eq e1 e2 : exception_eqb e1 e2 = true -> e1 = e2.
Proof.
  unfold exception_eqb. intros H. apply andb_true_iff in H.
  destruct H as [H1 H2]. apply Z.eqb_eq in H1. apply String.eqb_eq in H2.
  destruct e1, e2. cbn in *. congruence.
Qed.

Lemma kind_of_In e k : kind_of e = Some k -> In (e, k) error_taxonomy.
Proof.
  unfold kind_of. intros H.
  destruct (find _ error_taxonomy) as [[e' k']|] eqn:Hf; [|discriminate].
  injection H as ->. apply find_some in Hf. destruct Hf as [Hin Heq].
  apply exception_eqb_eq in Heq. cbn [fst] in Heq. now subst.
Qed.

End ErrorFacts.

(* ------------------------------------------------------------------ *)
(** * Listings *)

Section OrderByFacts.
Context {T : Type} (key : T -> Z).

Lemma order_by_cons x l :
  order_by key (x :: l) = insert_by key x (order_by key l).
Proof. reflexivity. Qed.

Lemma insert_by_perm x l : Permutation (insert_by key x l) (x :: l).
Proof.
  induction l as [|y l IH]; cbn; [reflexivity|].
  destruct (key x <=? key y); [reflexivity|].
  rewrite IH. apply perm_swap.
Qed.

Lemma order_by_perm l : Permutation (order_by key l) l.
Proof.
  induction l as [|x l IH]; [reflexivity|].
  rewrite order_by_cons, insert_by_perm. now constructor.
Qed.

Lemma insert_by_sorted x l :
  StronglySorted (key_le key) l -> StronglySorted (key_le key) (insert_by key x l).
Proof.
  induction 1 as [|y l Hs IH Hy]; cbn.
  - repeat constructor.
  - destruct (key x <=? key y) eqn:E.
    + apply Z.leb_le in E. constructor; [now constructor|].
      constructor; [exact E|].
      rewrite Forall_forall in *. intros z Hz. unfold key_le in *.
      specialize (Hy z Hz). lia.
    + apply Z.leb_gt in E. constructor; [exact IH|].
      rewrite Forall_forall in *. intros z Hz.
      apply (Permutation_in _ (insert_by_perm x l)) in Hz.
      destruct Hz as [<-|Hz]; [unfold key_le; lia | now apply Hy].
Qed.

Lemma order_by_sorted l : StronglySorted (key_le key) (order_by key l).
Proof.
  induction l as [|x l IH]; [constructor|].
  rewrite order_by_cons. now apply insert_by_sorted.
Qed.

Lemma order_by_In l x : In x (order_by key l) <-> In x l.
Proof.
  split; apply Permutation_in;
    [apply order_by_perm | symmetry; apply order_by_perm].
Qed.

(** Sorting a list that is sorted already changes nothing. *)
Lemma order_by_of_sorted l : StronglySorted (key_le key) l -> order_by key l = l.
Proof.
  induction 1 as [|x l Hs IH Hx]; [reflexivity|].
  rewrite order_by_cons, IH. destruct l as [|y l]; cbn; [reflexivity|].
  inversion Hx as [|? ? Hxy _]; subst. unfold key_le in Hxy.
  apply Z.leb_le in Hxy. now rewrite Hxy.
Qed.
End OrderByFacts.

(** X1. [get_multi_by_list] answers with the cards of the list, each row once
    for each time it is in the table, in ascending order of position; it
    writes nothing. *)
Theorem get_multi_by_list_sorted
  (t : datetime) (db : Store) (list_id : UUID) :
  exists result,
    request t db (CRUDCard.get_multi_by_list list_id) = (Ok result, db, []) /\
    StronglySorted (key_le Card.position) (map attrs result) /\
    Permutation (map attrs result)
      (filter (fun c => uuid_eqb (Card.list_id c) list_id) (cards db)) /\
    (forall c, In c (map attrs result) <->
               In c (cards db) /\ Card.list_id c = list_id).
Proof.
  eexists. split; [reflexivity|]. rewrite attrs_loaded.
  split; [apply order_by_sorted|]. split; [apply order_by_perm|].
  intros c. rewrite order_by_In, filter_In. now rewrite uuid_eqb_eq.
Qed.

(** X2. [get_multi_by_board] answers with the lists of the board, in
    ascending order of position, and writes nothing. *)
Theorem get_multi_by_board_sorted
  (t : datetime) (db : Store) (board_id : UUID) :
  exists result,
    request t db (CRUDList.get_multi_by_board board_id)
    = (Ok result, db, []) /\
    StronglySorted (key_le BList.position) (map attrs result) /\
    Permutation (map attrs result)
      (filter (fun l => uuid_eqb (BList.board_id l) board_id) (lists db)) /\
    (forall l, In l (map attrs result) <->
               In l (lists db) /\ BList.board_id l = board_id).
Proof.
  eexists. split; [reflexivity|]. rewrite attrs_loaded.
  split; [apply order_by_sorted|]. split; [apply order_by_perm|].
  intros l. rewrite order_by_In, filter_In. now rewrite uuid_eqb_eq.
Qed.

Lemma In_cards_of_list db list_id c :
  In c (cards_of_list db list_id) <->
  In c (cards db) /\ Card.list_id c = list_id.
Proof.
  unfold cards_of_list. rewrite order_by_In, filter_In.
  now rewrite uuid_eqb_eq.
Qed.

Lemma In_lists_of_board db board_id l :
  In l (lists_of_board db board_id) <->
  In l (lists db) /\ BList.board_id l = board_id.
Proof.
  unfold lists_of_board. rewrite order_by_In, filter_In.
  now rewrite uuid_eqb_eq.
Qed.

(* ------------------------------------------------------------------ *)
(** * Reading one entity *)

(** X3. [get_card] answers with the stored card exactly when the card exists
    and the board of its list belongs to the caller, and it never writes,
    whatever it answers. *)
Theorem get_card_authorized
  (t : datetime) (db : Store) (card_id : UUID)
  (current_user : Instance User.t) :
  let r := request t db (endpoints.get_card card_id current_user) in
  (forall card,
     response r = Ok card <->
     exists c b,
       get_card db card_id = Some c /\
       current_board db c = Some b /\
       Board.owner_id b = User.id (attrs current_user) /\
       card = loaded c)
  /\ final_db r = db /\ commits r = [].
Proof.
  cbv zeta.
  unfold current_board, board_of_list, get_card, request, response, final_db,
    commits, endpoints.get_card, bind, card_crud.get, list_crud.get,
    board_crud.get, query, not_none, raise_if, raise, ret, server_error.
  cbn.
  destruct (select_by_id Card.id card_id (cards db)) as [c|] eqn:Hc; cbn.
  2:{ repeat split; try discriminate. intros (c & b & H & _). discriminate. }
  destruct (select_by_id BList.id (Card.list_id c) (lists db)) as [l|] eqn:Hl;
    cbn.
  2:{ repeat split; try discriminate.
      intros (c' & b & H & H' & _). injection H as <-.
      rewrite Hl in H'. discriminate. }
  destruct (select_by_id Board.id (BList.board_id l) (boards db)) as [b|]
    eqn:Hb; cbn.
  2:{ repeat split; try discriminate.
      intros (c' & b & H & H' & _). injection H as <-.
      rewrite Hl, Hb in H'. discriminate. }
  destruct (uuid_eqb (Board.owner_id b) (User.id (attrs current_user)))
    eqn:Ho; cbn.
  - apply uuid_eqb_eq in Ho. repeat split.
    + intros H. injection H as <-. exists c, b. rewrite Hl. auto.
    + intros (c' & b' & H & _ & _ & ->). now injection H as <-.
  - apply uuid_eqb_neq in Ho. repeat split; try discriminate.
    intros (c' & b' & H & H' & Hown & _). injection H as <-.
    rewrite Hl, Hb in H'. injection H' as <-. contradiction.
Qed.

(** X4. [get_list] answers with the stored list exactly when the list exists
    and its board belongs to the caller, and it never writes. *)
Theorem get_list_authorized
  (t : datetime) (db : Store) (list_id : UUID)
  (current_user : Instance User.t) :
  let r := request t db (endpoints.get_list list_id current_user) in
  (forall list_obj,
     response r = Ok list_obj <->
     exists l b,
       get_list db list_id = Some l /\
       get_board db (BList.board_id l) = Some b /\
       Board.owner_id b = User.id (attrs current_user) /\
       list_obj = loaded l)
  /\ final_db r = db /\ commits r = [].
Proof.
  cbv zeta.
  unfold get_list, get_board, request, response, final_db,
    commits, endpoints.get_list, bind, list_crud.get,
    board_crud.get, query, not_none, raise_if, raise, ret, server_error.
  cbn.
  destruct (select_by_id BList.id list_id (lists db)) as [l|] eqn:Hl; cbn.
  2:{ repeat split; try discriminate. intros (c & b & H & _). discriminate. }
  destruct (select_by_id Board.id (BList.board_id l) (boards db)) as [b|]
    eqn:Hb; cbn.
  2:{ repeat split; try discriminate.
      intros (l' & b & H & H' & _). injection H as <-.
      rewrite Hb in H'. discriminate. }
  destruct (uuid_eqb (Board.owner_id b) (User.id (attrs current_user)))
    eqn:Ho; cbn.
  - apply uuid_eqb_eq in Ho. repeat split.
    + intros H. injection H as <-. exists l, b. auto.
    + intros (l' & b' & H & _ & _ & ->). now injection H as <-.
  - apply uuid_eqb_neq in Ho. repeat split; try discriminate.
    intros (l' & b' & H & H' & Hown & _). injection H as <-.
    rewrite Hb in H'. injection H' as <-. contradiction.
Qed.


(* ------------------------------------------------------------------ *)
(** * Creating entities *)

Section InsertFacts.
Context {T : Type} (pk : T -> UUID).

Lemma select_by_id_app_new id rows row :
  select_by_id pk id rows = None ->
  pk row = id ->
  select_by_id pk id (rows ++ [row]) = Some row.
Proof.
  intros Hnone Hid. unfold select_by_id in *.
  induction rows as [|x rows IH]; cbn in *.
  - now rewrite Hid, uuid_eqb_refl.
  - destruct (uuid_eqb (pk x) id); [discriminate | now apply IH].
Qed.

Lemma select_by_id_app_old id id' rows row :
  pk row = id -> id' <> id ->
  select_by_id pk id' (rows ++ [row]) = select_by_id pk id' rows.
Proof.
  intros Hid Hne. unfold select_by_id.
  induction rows as [|x rows IH]; cbn.
  - assert (E : uuid_eqb (pk row) id' = false)
      by (apply uuid_eqb_neq; congruence).
    now rewrite E.
  - destruct (uuid_eqb (pk x) id'); [reflexivity | exact IH].
Qed.

Lemma insert_row_new row rows :
  select_by_id pk (pk row) rows = None ->
  insert_row pk row rows = Some (rows ++ [row]).
Proof. intros H. unfold insert_row. now rewrite H. Qed.

Lemma insert_row_taken row rows :
  select_by_id pk (pk row) rows <> None ->
  insert_row pk row rows = None.
Proof.
  intros H. unfold insert_row.
  destruct (select_by_id pk (pk row) rows); [reflexivity | now destruct H].
Qed.
End InsertFacts.

Arguments CRUDCard.create_in_list : simpl never.
Arguments CRUDList.create_in_board : simpl never.
Arguments CRUDBoard.create_with_owner : simpl never.

Lemma references_some {T} (pk : T -> UUID) rows id r :
  select_by_id pk id rows = Some r -> references pk rows id = true.
Proof. intros H. unfold references. now rewrite H. Qed.

Lemma references_present {T} (pk : T -> UUID) rows id :
  select_by_id pk id rows <> None -> references pk rows id = true.
Proof.
  intros H. unfold references.
  destruct (select_by_id pk id rows); [reflexivity | now destruct H].
Qed.

Lemma references_known db assigned_to_id :
  assignee_known db assigned_to_id ->
  references_or_null User.id (users db) assigned_to_id = true.
Proof.
  intros H. destruct assigned_to_id as [id|]; [|reflexivity].
  apply references_present. now apply H.
Qed.

Lemma card_insert_accepted_known db position list_id assigned_to_id l :
  integer_fits eng position = true ->
  get_list db list_id = Some l ->
  assignee_known db assigned_to_id ->
  card_insert_accepted eng db position list_id assigned_to_id = true.
Proof.
  intros Hfit Hl Hknown. unfold card_insert_accepted, foreign_keys_hold.
  rewrite Hfit, (references_some _ _ _ _ Hl), (references_known _ _ Hknown).
  cbn. apply orb_true_r.
Qed.

Lemma list_insert_accepted_known db position board_id b :
  integer_fits eng position = true ->
  get_board db board_id = Some b ->
  list_insert_accepted eng db position board_id = true.
Proof.
  intros Hfit Hb. unfold list_insert_accepted, foreign_keys_hold.
  rewrite Hfit, (references_some _ _ _ _ Hb). cbn. apply orb_true_r.
Qed.

Lemma board_insert_accepted_known db owner_id :
  get_user db owner_id <> None ->
  board_insert_accepted eng db owner_id = true.
Proof.
  intros Hu. unfold board_insert_accepted, foreign_keys_hold.
  rewrite (references_present _ _ _ Hu). apply orb_true_r.
Qed.

Lemma create_in_list_run t db log uuid4 obj_in list_id :
  CRUDCard.create_in_list uuid4 obj_in list_id (mkSession eng db [] log t)
  = if card_insert_accepted eng db (CardCreate.position obj_in) list_id
         (CardCreate.assigned_to_id obj_in)
    then
      match get_card db uuid4 with
      | None =>
          let db' := set_cards db
                       (cards db ++ [new_card t uuid4 obj_in list_id]) in
          (Ok (loaded (new_card t uuid4 obj_in list_id)),
           mkSession eng db' [] (log ++ [db']) t)
      | Some _ => (ServerError, mkSession eng db [] log t)
      end
    else (ServerError, mkSession eng db [] log t).
Proof.
  unfold CRUDCard.create_in_list, bind, func_now, db_add_commit,
    db_refresh, query, get_card, insert_if. cbn.
  fold (new_card t uuid4 obj_in list_id).
  destruct (card_insert_accepted eng db _ _ _); [|reflexivity].
  destruct (select_by_id Card.id uuid4 (cards db)) eqn:E.
  - rewrite insert_row_taken by (cbn; congruence). reflexivity.
  - rewrite insert_row_new by exact E. cbn.
    pose proof (select_by_id_app_new Card.id uuid4 (cards db)
                  (new_card t uuid4 obj_in list_id) E eq_refl) as H.
    unfold select_by_id in H. rewrite H. reflexivity.
Qed.

Lemma create_in_board_run t db log uuid4 obj_in board_id :
  CRUDList.create_in_board uuid4 obj_in board_id (mkSession eng db [] log t)
  = if list_insert_accepted eng db (ListCreate.position obj_in) board_id
    then
      match get_list db uuid4 with
      | None =>
          let db' := set_lists db
                       (lists db ++ [new_list t uuid4 obj_in board_id]) in
          (Ok (loaded (new_list t uuid4 obj_in board_id)),
           mkSession eng db' [] (log ++ [db']) t)
      | Some _ => (ServerError, mkSession eng db [] log t)
      end
    else (ServerError, mkSession eng db [] log t).
Proof.
  unfold CRUDList.create_in_board, bind, func_now, db_add_commit,
    db_refresh, query, get_list, insert_if. cbn.
  fold (new_list t uuid4 obj_in board_id).
  destruct (list_insert_accepted eng db _ _); [|reflexivity].
  destruct (select_by_id BList.id uuid4 (lists db)) eqn:E.
  - rewrite insert_row_taken by (cbn; congruence). reflexivity.
  - rewrite insert_row_new by exact E. cbn.
    pose proof (select_by_id_app_new BList.id uuid4 (lists db)
                  (new_list t uuid4 obj_in board_id) E eq_refl) as H.
    unfold select_by_id in H. rewrite H. reflexivity.
Qed.

Lemma create_with_owner_run t db log uuid4 obj_in owner_id :
  CRUDBoard.create_with_owner uuid4 obj_in owner_id
    (mkSession eng db [] log t)
  = if board_insert_accepted eng db owner_id
    then
      match get_board db uuid4 with
      | None =>
          let db' := set_boards db
                       (boards db ++ [new_board t uuid4 obj_in owner_id]) in
          (Ok (loaded (new_board t uuid4 obj_in owner_id)),
           mkSession eng db' [] (log ++ [db']) t)
      | Some _ => (ServerError, mkSession eng db [] log t)
      end
    else (ServerError, mkSession eng db [] log t).
Proof.
  unfold CRUDBoard.create_with_owner, bind, func_now, db_add_commit,
    db_refresh, query, get_board, insert_if. cbn.
  fold (new_board t uuid4 obj_in owner_id).
  destruct (board_insert_accepted eng db owner_id); [|reflexivity].
  destruct (select_by_id Board.id uuid4 (boards db)) eqn:E.
  - rewrite insert_row_taken by (cbn; congruence). reflexivity.
  - rewrite insert_row_new by exact E. cbn.
    pose proof (select_by_id_app_new Board.id uuid4 (boards db)
                  (new_board t uuid4 obj_in owner_id) E eq_refl) as H.
    unfold select_by_id in H. rewrite H. reflexivity.
Qed.

Lemma board_of_list_inv db list_id b :
  board_of_list db list_id = Some b ->
  exists l, get_list db list_id = Some l /\
            get_board db (BList.board_id l) = Some b.
Proof.
  unfold board_of_list, get_list, get_board.
  destruct (select_by_id BList.id list_id (lists db)) as [l|];
    [|discriminate].
  intros H. now exists l.
Qed.

(** The run of [create_card] for the owner of the board of the list. *)
Lemma create_card_passes t db uuid4 list_id card_in current_user b :
  board_of_list db list_id = Some b ->
  Board.owner_id b = User.id (attrs current_user) ->
  request t db (endpoints.create_card uuid4 list_id card_in current_user)
  = if card_insert_accepted eng db (CardCreate.position card_in) list_id
         (CardCreate.assigned_to_id card_in)
    then
      match get_card db uuid4 with
      | None =>
          let db' := set_cards db
                       (cards db ++ [new_card t uuid4 card_in list_id]) in
          (Ok (loaded (new_card t uuid4 card_in list_id)), db', [db'])
      | Some _ => (ServerError, db, [])
      end
    else (ServerError, db, []).
Proof.
  intros Hb Ho. destruct (board_of_list_inv _ _ _ Hb) as (l & Hl & Hbl).
  unfold get_list, get_board in *.
  unfold request, endpoints.create_card, bind, list_crud.get,
    board_crud.get, query, not_none, raise_if, raise, ret. cbn.
  rewrite Hl. cbn. rewrite Hbl. cbn.
  apply uuid_eqb_eq in Ho. rewrite Ho. cbn.
  rewrite create_in_list_run.
  destruct (card_insert_accepted eng db _ _ _); [|reflexivity].
  now destruct (get_card db uuid4).
Qed.

(** X5. [create_card] answers 404 for a list that does not exist and 403 for
    a list on a board of another user, and writes nothing then. For the
    owner, when the position is in the range of the column and the card
    is assigned to nobody or to a user, it appends the new card, with the
    list and the position the caller gave and both timestamps at the time
    of the request, and touches no other row: no sibling is shifted. An
    id that is already a card's, and a card the engine refuses, make the
    request fail with the engine's exception and write nothing. *)
Theorem create_card_appends
  (t : datetime) (db : Store) (uuid4 list_id : UUID)
  (card_in : CardCreate.t) (current_user : Instance User.t) :
  let r := request t db
             (endpoints.create_card uuid4 list_id card_in current_user) in
  let c := new_card t uuid4 card_in list_id in
  let db' := set_cards db (cards db ++ [c]) in
  (get_list db list_id = None ->
     r = (Raise (mkHTTPException 404 "List not found"), db, []))
  /\
  (forall b,
     board_of_list db list_id = Some b ->
     Board.owner_id b <> User.id (attrs current_user) ->
     r = (Raise (mkHTTPException 403 "Not authorized to access this list"),
          db, []))
  /\
  (forall b,
     board_of_list db list_id = Some b ->
     Board.owner_id b = User.id (attrs current_user) ->
     (get_card db uuid4 = None ->
      integer_fits eng (CardCreate.position card_in) = true ->
      assignee_known db (CardCreate.assigned_to_id card_in) ->
      r = (Ok (loaded c), db', [db'])) /\
     (get_card db uuid4 <> None -> r = (ServerError, db, [])) /\
     (card_insert_accepted eng db (CardCreate.position card_in) list_id
        (CardCreate.assigned_to_id card_in) = false ->
      r = (ServerError, db, []))).
Proof.
  cbv zeta. split; [|split].
  - unfold get_list, request, endpoints.create_card, bind, list_crud.get,
      query. cbn. intros H. now rewrite H.
  - intros b Hb Hne. destruct (board_of_list_inv _ _ _ Hb) as (l & Hl & Hbl).
    unfold get_list, get_board in *.
    unfold request, endpoints.create_card, bind, list_crud.get,
      board_crud.get, query, not_none, raise_if, raise, ret. cbn.
    rewrite Hl. cbn. rewrite Hbl. cbn.
    apply uuid_eqb_neq in Hne. now rewrite Hne.
  - intros b Hb Ho.
    rewrite (create_card_passes t db uuid4 list_id card_in current_user b
               Hb Ho).
    destruct (board_of_list_inv _ _ _ Hb) as (l & Hl & _).
    split; [|split].
    + intros Hnew Hfit Hknown.
      rewrite (card_insert_accepted_known db _ _ _ l Hfit Hl Hknown).
      now rewrite Hnew.
    + intros Hold. destruct (card_insert_accepted eng db _ _ _);
        [|reflexivity].
      destruct (get_card db uuid4); [reflexivity | now destruct Hold].
    + intros Hacc. now rewrite Hacc.
Qed.

(** A successful [create_card] passed every check. *)
Lemma create_card_ok_inv t db uuid4 list_id card_in current_user card :
  response (request t db
              (endpoints.create_card uuid4 list_id card_in current_user))
  = Ok card ->
  exists b,
    board_of_list db list_id = Some b /\
    Board.owner_id b = User.id (attrs current_user) /\
    get_card db uuid4 = None /\
    card_insert_accepted eng db (CardCreate.position card_in) list_id
      (CardCreate.assigned_to_id card_in) = true /\
    request t db (endpoints.create_card uuid4 list_id card_in current_user)
    = (Ok (loaded (new_card t uuid4 card_in list_id)),
       set_cards db (cards db ++ [new_card t uuid4 card_in list_id]),
       [set_cards db (cards db ++ [new_card t uuid4 card_in list_id])]).
Proof.
  destruct (board_of_list db list_id) as [b|] eqn:Hb.
  - destruct (uuid_eqb (Board.owner_id b) (User.id (attrs current_user)))
      eqn:Ho.
    + apply uuid_eqb_eq in Ho.
      rewrite (create_card_passes t db uuid4 list_id card_in current_user b
                 Hb Ho).
      destruct (card_insert_accepted eng db _ _ _);
        [|unfold response; cbn; discriminate].
      destruct (get_card db uuid4);
        [unfold response; cbn; discriminate|].
      intros _. exists b. repeat split; assumption.
    + apply uuid_eqb_neq in Ho. intros H. exfalso. revert H.
      destruct (board_of_list_inv _ _ _ Hb) as (l & Hl & Hbl).
      unfold get_list, get_board in *.
      unfold response, request, endpoints.create_card, bind, list_crud.get,
        board_crud.get, query, not_none, raise_if, raise, ret. cbn.
      rewrite Hl. cbn. rewrite Hbl. cbn.
      apply uuid_eqb_neq in Ho. rewrite Ho. cbn. discriminate.
  - intros H. exfalso. revert H.
    unfold board_of_list in Hb.
    unfold response, request, endpoints.create_card, bind, list_crud.get,
      board_crud.get, query, not_none, raise_if, raise, ret,
      server_error. cbn.
    destruct (select_by_id BList.id list_id (lists db)) as [l|]; cbn;
      [|discriminate].
    rewrite Hb. cbn. discriminate.
Qed.

Lemma get_card_endpoint_run t db card_id current_user c b :
  get_card db card_id = Some c ->
  current_board db c = Some b ->
  Board.owner_id b = User.id (attrs current_user) ->
  request t db (endpoints.get_card card_id current_user)
  = (Ok (loaded c), db, []).
Proof.
  intros Hc Hb Ho. destruct (current_board_inv _ _ _ Hb) as (l & Hl & Hbl).
  unfold get_card, get_list, get_board in *.
  unfold request, endpoints.get_card, bind, card_crud.get, list_crud.get,
    board_crud.get, query, not_none, raise_if, raise, ret. cbn.
  rewrite Hc. cbn. rewrite Hl. cbn. rewrite Hbl. cbn.
  apply uuid_eqb_eq in Ho. now rewrite Ho.
Qed.

Lemma filter_app_one {A} (f : A -> bool) l x :
  filter f (l ++ [x]) = if f x then filter f l ++ [x] else filter f l.
Proof.
  rewrite filter_app. cbn. destruct (f x); [reflexivity | apply app_nil_r].
Qed.

(** X6. A card that was created can be read back by its creator and is in
    the listing of its list, next to the cards that were there; the
    listings of the other lists are what they were. *)
Theorem create_card_then_read
  (t t' : datetime) (db : Store) (uuid4 list_id : UUID)
  (card_in : CardCreate.t) (current_user : Instance User.t)
  (card : Instance Card.t) :
  let r := request t db
             (endpoints.create_card uuid4 list_id card_in current_user) in
  response r = Ok card ->
  let db' := final_db r in
  card = loaded (new_card t uuid4 card_in list_id) /\
  commits r = [db'] /\
  request t' db' (endpoints.get_card uuid4 current_user)
  = (Ok card, db', []) /\
  (exists result,
     request t' db' (CRUDCard.get_multi_by_list list_id)
     = (Ok result, db', []) /\
     Permutation (map attrs result)
       (attrs card :: cards_of_list db list_id)) /\
  (forall other,
     other <> list_id ->
     request t' db' (CRUDCard.get_multi_by_list other)
     = (Ok (map loaded (cards_of_list db other)), db', [])).
Proof.
  cbv zeta. intros Hok.
  destruct (create_card_ok_inv _ _ _ _ _ _ _ Hok)
    as (b & Hb & Ho & Hnew & _ & Hrun).
  rewrite Hrun in *. unfold response, final_db, commits in *.
  cbn [fst snd] in *. injection Hok as <-.
  set (c := new_card t uuid4 card_in list_id).
  set (db' := set_cards db (cards db ++ [c])).
  split; [reflexivity|]. split; [reflexivity|]. split; [|split].
  - apply get_card_endpoint_run with b; [| exact Hb | exact Ho].
    unfold get_card, db'. cbn.
    now apply (select_by_id_app_new Card.id).
  - eexists. split; [reflexivity|]. rewrite attrs_loaded.
    cbn [attrs loaded].
    unfold db', cards_of_list. cbn [cards set_cards database].
    rewrite filter_app_one. cbn [c new_card Card.list_id].
    rewrite uuid_eqb_refl. rewrite !order_by_perm.
    rewrite Permutation_app_comm. reflexivity.
  - intros other Hne. unfold request, CRUDCard.get_multi_by_list, query.
    unfold db'. cbn [cards set_cards database].
    unfold cards_of_list. rewrite filter_app_one.
    cbn [c new_card Card.list_id].
    assert (E : uuid_eqb list_id other = false)
      by (apply uuid_eqb_neq; congruence).
    now rewrite E.
Qed.

(** X7. [create_list] answers 404 for a board that does not exist and 403 for
    a board of another user, and writes nothing then. For the owner, when
    the position is in the range of the column, it appends the new list
    with the position the caller gave, touches no other row, and the list
    is then in the listing of its board. An id that is already a list's,
    and a position outside the range of the column, make the request
    fail with the engine's exception and write nothing. *)
Theorem create_list_appends
  (t : datetime) (db : Store) (uuid4 board_id : UUID)
  (list_in : ListCreate.t) (current_user : Instance User.t) :
  let r := request t db
             (endpoints.create_list uuid4 board_id list_in current_user) in
  let l := new_list t uuid4 list_in board_id in
  let db' := set_lists db (lists db ++ [l]) in
  (get_board db board_id = None ->
     r = (Raise (mkHTTPException 404 "Board not found"), db, []))
  /\
  (forall b,
     get_board db board_id = Some b ->
     Board.owner_id b <> User.id (attrs current_user) ->
     r = (Raise (mkHTTPException 403 "Not authorized to access this board"),
          db, []))
  /\
  (forall b,
     get_board db board_id = Some b ->
     Board.owner_id b = User.id (attrs current_user) ->
     (get_list db uuid4 = None ->
      integer_fits eng (ListCreate.position list_in) = true ->
        r = (Ok (loaded l), db', [db']) /\
        Permutation (lists_of_board db' board_id)
          (l :: lists_of_board db board_id)) /\
     (get_list db uuid4 <> None -> r = (ServerError, db, [])) /\
     (integer_fits eng (ListCreate.position list_in) = false ->
      r = (ServerError, db, []))).
Proof.
  cbv zeta.
  unfold get_board, request, endpoints.create_list, bind, board_crud.get,
    query, raise_if, raise, ret. cbn.
  split; [|split].
  - intros H. now rewrite H.
  - intros b Hb Hne. rewrite Hb. cbn.
    apply uuid_eqb_neq in Hne. now rewrite Hne.
  - intros b Hb Ho. rewrite Hb. cbn.
    apply uuid_eqb_eq in Ho. rewrite Ho. cbn.
    rewrite create_in_board_run.
    split; [|split].
    2:{ intros Hold. destruct (list_insert_accepted eng db _ _);
          [|reflexivity].
        destruct (get_list db uuid4); [reflexivity | now destruct Hold]. }
    2:{ intros Hfit. unfold list_insert_accepted. now rewrite Hfit. }
    intros Hnew Hfit.
    unfold get_board in Hb.
    rewrite (list_insert_accepted_known db _ _ b Hfit Hb), Hnew.
    split; [reflexivity|].
    unfold lists_of_board. cbn [lists set_lists].
    rewrite filter_app_one. cbn [new_list BList.board_id].
    rewrite uuid_eqb_refl.
    eapply Permutation_trans; [apply (order_by_perm BList.position)|].
    eapply Permutation_trans; [apply Permutation_app_comm|].
    cbn [app]. constructor. symmetry. apply (order_by_perm BList.position).
Qed.


(** X8. [create_board], for a caller who is a user, makes the caller the
    owner of the new board and appends it. The caller then finds it at
    the end of the list of boards, when the page is long enough (a limit
    of 2^63 or more is not a LIMIT the engine takes: the listing then
    fails with its exception), and the boards the other users list are
    what they were. *)
Theorem create_board_then_listed
  (t t' : datetime) (db : Store) (uuid4 : UUID) (board_in : BoardCreate.t)
  (current_user : Instance User.t) (limit : Z) :
  get_user db (User.id (attrs current_user)) <> None ->
  get_board db uuid4 = None ->
  Z.of_nat (List.length (boards_of db (User.id (attrs current_user))))
    < limit ->
  let b := new_board t uuid4 board_in (User.id (attrs current_user)) in
  let db' := set_boards db (boards db ++ [b]) in
  request t db (endpoints.create_board uuid4 board_in current_user)
  = (Ok (loaded b), db', [db']) /\
  request t' db' (list_boards 0 limit current_user)
  = (if limit <? 2 ^ 63
     then Ok (map loaded
                (boards_of db (User.id (attrs current_user)) ++ [b]))
     else ServerError,
     db', []) /\
  (forall other,
     other <> User.id (attrs current_user) ->
     boards_of db' other = boards_of db other).
Proof.
  intros Huser Hnew Hlimit. cbv zeta. split; [|split].
  - unfold request, endpoints.create_board, bind, ret.
    rewrite create_with_owner_run, Hnew.
    rewrite (board_insert_accepted_known db _ Huser). reflexivity.
  - rewrite list_boards_run.
    destruct (limit <? 2 ^ 63) eqn:Hbig.
    2:{ apply Z.ltb_ge in Hbig. now rewrite page_beyond_bigint. }
    apply Z.ltb_lt in Hbig.
    rewrite (page_non_negative 0 limit) by lia. cbn [Z.to_nat skipn].
    unfold boards_of at 1. cbn [boards set_boards].
    rewrite filter_app_one. cbn [new_board Board.owner_id].
    rewrite uuid_eqb_refl.
    fold (boards_of db (User.id (attrs current_user))).
    rewrite firstn_all2; [reflexivity|].
    rewrite length_app. cbn. lia.
  - intros other Hne. unfold boards_of. cbn [boards set_boards].
    rewrite filter_app_one. cbn [new_board Board.owner_id].
    assert (E : uuid_eqb (User.id (attrs current_user)) other = false)
      by (apply uuid_eqb_neq; congruence).
    now rewrite E.
Qed.


(* ------------------------------------------------------------------ *)
(** * Accounts *)

Lemma not_taken_no_collision db (row : User.t) :
  ~ email_taken db (User.email row) ->
  ~ username_taken db (User.username row) ->
  existsb (fun r => String.eqb (User.email r) (User.email row) ||
                    String.eqb (User.username r) (User.username row))
    (users db) = false.
Proof.
  intros He Hn. destruct (existsb _ (users db)) eqn:E; [|reflexivity].
  apply existsb_exists in E. destruct E as (r & Hin & Hr).
  apply orb_true_iff in Hr. destruct Hr as [Hr|Hr]; apply String.eqb_eq in Hr.
  - destruct He. now exists r.
  - destruct Hn. now exists r.
Qed.

Arguments CRUDUser.create : simpl never.

Section AccountFacts.
Variable get_password_hash : string -> string.
Variable verify_password : string -> string -> bool.
Variable create_access_token : string -> Z -> string.
Variable str : UUID -> string.
Variable ACCESS_TOKEN_EXPIRE_MINUTES : Z.

Lemma create_user_run t db log uuid4 obj_in :
  ~ email_taken db (UserCreate.email obj_in) ->
  ~ username_taken db (UserCreate.username obj_in) ->
  get_user db uuid4 = None ->
  CRUDUser.create get_password_hash uuid4 obj_in (mkSession eng db [] log t)
  = let u := new_user get_password_hash t uuid4 obj_in in
    let db' := set_users db (users db ++ [u]) in
    (Ok (loaded u), mkSession eng db' [] (log ++ [db']) t).
Proof.
  intros He Hn Hid.
  unfold CRUDUser.create, bind, func_now, db_add_commit, db_refresh, query.
  cbn. fold (new_user get_password_hash t uuid4 obj_in).
  unfold insert_user.
  rewrite (not_taken_no_collision db (new_user get_password_hash t uuid4 obj_in))
    by assumption.
  rewrite insert_row_new by exact Hid. cbn.
  pose proof (select_by_id_app_new User.id uuid4 (users db)
                (new_user get_password_hash t uuid4 obj_in) Hid eq_refl) as H.
  unfold select_by_id in H. rewrite H. reflexivity.
Qed.

Lemma create_user_taken_run t db log uuid4 obj_in :
  ~ email_taken db (UserCreate.email obj_in) ->
  ~ username_taken db (UserCreate.username obj_in) ->
  get_user db uuid4 <> None ->
  CRUDUser.create get_password_hash uuid4 obj_in (mkSession eng db [] log t)
  = (ServerError, mkSession eng db [] log t).
Proof.
  intros He Hn Hid.
  unfold CRUDUser.create, bind, func_now, db_add_commit, db_refresh, query.
  cbn. fold (new_user get_password_hash t uuid4 obj_in).
  unfold insert_user.
  rewrite (not_taken_no_collision db (new_user get_password_hash t uuid4 obj_in))
    by assumption.
  rewrite insert_row_taken by exact Hid. reflexivity.
Qed.

(** X9. [register] refuses an email that is taken, then a username that is
    taken, with 400 and without writing. Otherwise it appends an active
    user who is not a superuser, with the hash of the password, and
    touches no other row. *)
Theorem register_checks
  (t : datetime) (db : Store) (uuid4 : UUID) (user_in : UserCreate.t) :
  let r := request t db (auth.register get_password_hash uuid4 user_in) in
  let u := new_user get_password_hash t uuid4 user_in in
  let db' := set_users db (users db ++ [u]) in
  (email_taken db (UserCreate.email user_in) ->
     r = (Raise email_conflict, db, []))
  /\
  (~ email_taken db (UserCreate.email user_in) ->
   username_taken db (UserCreate.username user_in) ->
     r = (Raise username_conflict, db, []))
  /\
  (~ email_taken db (UserCreate.email user_in) ->
   ~ username_taken db (UserCreate.username user_in) ->
   get_user db uuid4 = None ->
     r = (Ok (loaded u), db', [db']) /\
     User.is_active u = true /\ User.is_superuser u = false /\
     User.hashed_password u
     = get_password_hash (UserCreate.password user_in)).
Proof.
  cbv zeta.
  unfold request, auth.register, bind, user_crud.get_by_email,
    user_crud.get_by_username, query, raise, ret. cbn.
  split; [|split].
  - intros He. apply find_email_taken in He. unfold user_by_email in He.
    destruct (find _ (users db)); [reflexivity | now destruct He].
  - intros He Hn.
    destruct (find (fun u => String.eqb (User.email u) _) (users db)) eqn:E1.
    { destruct He. apply find_email_taken. unfold user_by_email.
      now rewrite E1. }
    cbn. apply find_username_taken in Hn.
    destruct (find _ (users db)); [reflexivity | now destruct Hn].
  - intros He Hn Hid.
    destruct (find (fun u => String.eqb (User.email u) _) (users db)) eqn:E1.
    { destruct He. apply find_email_taken. unfold user_by_email.
      now rewrite E1. }
    cbn.
    destruct (find (fun u => String.eqb (User.username u) _) (users db))
      eqn:E2.
    { destruct Hn. apply find_username_taken. now rewrite E2. }
    cbn. rewrite create_user_run by assumption. cbn. auto.
Qed.

Lemma NoDup_map_snoc {A B} (f : A -> B) l x :
  NoDup (map f l) -> ~ In (f x) (map f l) -> NoDup (map f (l ++ [x])).
Proof.
  intros Hl Hx. rewrite map_app. cbn.
  apply NoDup_app; [exact Hl | repeat constructor; now intros [] |].
  intros y Hy [<-|[]]. now apply Hx.
Qed.

Lemma register_database t db uuid4 user_in :
  let r := request t db (auth.register get_password_hash uuid4 user_in) in
  final_db r = db \/
  (~ email_taken db (UserCreate.email user_in) /\
   ~ username_taken db (UserCreate.username user_in) /\
   get_user db uuid4 = None /\
   final_db r
   = set_users db
       (users db ++ [new_user get_password_hash t uuid4 user_in])).
Proof.
  cbv zeta.
  unfold request, final_db, auth.register, bind, user_crud.get_by_email,
    user_crud.get_by_username, query, raise, ret. cbn.
  destruct (find (fun u => String.eqb (User.email u) _) (users db)) eqn:E1;
    cbn; [now left|].
  destruct (find (fun u => String.eqb (User.username u) _) (users db))
    eqn:E2; cbn; [now left|].
  assert (He : ~ email_taken db (UserCreate.email user_in)).
  { intros H. apply find_email_taken in H. unfold user_by_email in H.
    now rewrite E1 in H. }
  assert (Hn : ~ username_taken db (UserCreate.username user_in)).
  { intros H. apply find_username_taken in H. now rewrite E2 in H. }
  destruct (get_user db uuid4) eqn:Hid.
  - left. rewrite create_user_taken_run; [reflexivity | | | congruence];
      assumption.
  - right. rewrite create_user_run by assumption. cbn. auto.
Qed.

(** X10. [register] keeps ids, emails and usernames unique, whatever it
    answers. *)
Theorem register_keeps_users_unique
  (t : datetime) (db : Store) (uuid4 : UUID) (user_in : UserCreate.t) :
  unique_users db ->
  unique_users
    (final_db (request t db
                 (auth.register get_password_hash uuid4 user_in))).
Proof.
  intros (Hid & Hem & Hun).
  destruct (register_database t db uuid4 user_in)
    as [-> | (He & Hn & Hnew & ->)]; [now repeat split|].
  unfold unique_users. cbn [users set_users].
  repeat split; apply NoDup_map_snoc; try assumption.
  - cbn. intros H. apply in_map_iff in H. destruct H as (x & Hx & Hin).
    unfold get_user, select_by_id in Hnew.
    apply (find_none _ _ Hnew) in Hin. cbn in Hin.
    apply uuid_eqb_neq in Hin. contradiction.
  - cbn. intros H. apply in_map_iff in H. destruct H as (x & Hx & Hin).
    apply He. now exists x.
  - cbn. intros H. apply in_map_iff in H. destruct H as (x & Hx & Hin).
    apply Hn. now exists x.
Qed.

(** X11. [login] gives a token exactly to an active user whose password
    verifies, and the token is made for this user's id. An email nobody
    has and a wrong password get the same 401. [login] never writes. *)
Theorem login_outcomes
  (t : datetime) (db : Store) (username password : string) :
  let r := request t db
             (auth.login verify_password create_access_token str
                ACCESS_TOKEN_EXPIRE_MINUTES username password) in
  (forall token,
     response r = Ok token <->
     exists u,
       user_by_email db username = Some u /\
       verify_password password (User.hashed_password u) = true /\
       User.is_active u = true /\
       token = Token.mk (create_access_token (str (User.id u))
                           ACCESS_TOKEN_EXPIRE_MINUTES) "bearer")
  /\
  ((user_by_email db username = None \/
    exists u, user_by_email db username = Some u /\
              verify_password password (User.hashed_password u) = false) ->
   response r
   = Raise (mkHTTPException 401 "Incorrect email or password"))
  /\ final_db r = db /\ commits r = [].
Proof.
  cbv zeta.
  unfold user_by_email, request, response, final_db, commits, auth.login,
    CRUDUser.authenticate, bind, user_crud.get_by_email, user_crud.is_active,
    query, raise_if, raise, ret. cbn.
  destruct (find _ (users db)) as [u|] eqn:E; cbn.
  2:{ repeat split; try discriminate.
      intros (u & H & _). discriminate. }
  destruct (verify_password password (User.hashed_password u)) eqn:V; cbn.
  2:{ repeat split; try discriminate.
      intros (u' & H & H' & _). injection H as <-. congruence. }
  destruct (User.is_active u) eqn:A; cbn.
  - repeat split.
    + intros H. injection H as <-. now exists u.
    + intros (u' & H & _ & _ & ->). now injection H as <-.
    + intros [H | (u' & H & H')]; [discriminate|].
      injection H as <-. congruence.
  - repeat split; try discriminate.
    + intros (u' & H & _ & H' & _). injection H as <-. congruence.
    + intros [H | (u' & H & H')]; [discriminate|].
      injection H as <-. congruence.
Qed.

Lemma user_by_email_new db email u :
  ~ email_taken db email ->
  User.email u = email ->
  user_by_email (set_users db (users db ++ [u])) email = Some u.
Proof.
  intros He Hu. unfold user_by_email. cbn [users set_users].
  assert (Hnone : find (fun x => String.eqb (User.email x) email) (users db)
                  = None).
  { destruct (find _ (users db)) eqn:E; [|reflexivity].
    destruct He. apply find_email_taken. unfold user_by_email.
    now rewrite E. }
  induction (users db) as [|x l IH]; cbn in *.
  - now rewrite Hu, String.eqb_refl.
  - destruct (String.eqb (User.email x) email); [discriminate | now apply IH].
Qed.

(** X12. Who has registered can log in: when the hash of a password verifies
    against that password, a login with the email and the password just
    registered gives a token for the new user. *)
Theorem register_then_login
  (t t' : datetime) (db : Store) (uuid4 : UUID) (user_in : UserCreate.t) :
  verify_password (UserCreate.password user_in)
    (get_password_hash (UserCreate.password user_in)) = true ->
  ~ email_taken db (UserCreate.email user_in) ->
  ~ username_taken db (UserCreate.username user_in) ->
  get_user db uuid4 = None ->
  let db' := final_db (request t db
               (auth.register get_password_hash uuid4 user_in)) in
  response (request t' db'
              (auth.login verify_password create_access_token str
                 ACCESS_TOKEN_EXPIRE_MINUTES (UserCreate.email user_in)
                 (UserCreate.password user_in)))
  = Ok (Token.mk (create_access_token (str uuid4)
                    ACCESS_TOKEN_EXPIRE_MINUTES) "bearer").
Proof.
  intros Hv He Hn Hid. cbv zeta.
  destruct (register_database t db uuid4 user_in)
    as [Hdb | (_ & _ & _ & ->)].
  - exfalso. revert Hdb.
    unfold request, final_db, auth.register, bind, user_crud.get_by_email,
      user_crud.get_by_username, query, raise, ret. cbn.
    destruct (find (fun u => String.eqb (User.email u) _) (users db)) eqn:E1.
    { destruct He. apply find_email_taken. unfold user_by_email.
      now rewrite E1. }
    cbn.
    destruct (find (fun u => String.eqb (User.username u) _) (users db))
      eqn:E2.
    { destruct Hn. apply find_username_taken. now rewrite E2. }
    cbn. rewrite create_user_run by assumption. cbn.
    intros H. apply (f_equal (fun s => List.length (users s))) in H.
    cbn in H. rewrite length_app in H. cbn in H. lia.
  - pose proof (user_by_email_new db (UserCreate.email user_in)
                  (new_user get_password_hash t uuid4 user_in) He eq_refl)
      as Hfind.
    unfold user_by_email in Hfind.
    unfold request, response, auth.login, CRUDUser.authenticate, bind,
      user_crud.get_by_email, user_crud.is_active, query, raise_if, raise,
      ret. cbn [fst snd database attrs loaded].
    rewrite Hfind. cbn. rewrite Hv. reflexivity.
Qed.
End AccountFacts.

Section TokenFacts.
Variable get_password_hash : string -> string.
Variable verify_password : string -> string -> bool.
Variable create_access_token : string -> Z -> string.
Variable str : UUID -> string.
Variable ACCESS_TOKEN_EXPIRE_MINUTES : Z.
Variable decode_access_token : string -> option string.
Variable UUID_of_string : string -> option UUID.

(** X13. [get_current_active_user] answers with a user exactly when the token
    decodes to the id of a stored user who is active; a token that does
    not decode, a subject that is no UUID and an id nobody has are all
    the same 401. It never writes. *)
Theorem get_current_active_user_outcomes
  (t : datetime) (db : Store) (token : string) :
  let r := request t db
             (get_current_active_user decode_access_token UUID_of_string
                token) in
  (forall user,
     response r = Ok user <->
     exists s id u,
       decode_access_token token = Some s /\
       UUID_of_string s = Some id /\
       get_user db id = Some u /\
       User.is_active u = true /\
       user = loaded u)
  /\
  ((decode_access_token token = None \/
    (exists s, decode_access_token token = Some s /\
               UUID_of_string s = None) \/
    (exists s id, decode_access_token token = Some s /\
                  UUID_of_string s = Some id /\
                  get_user db id = None)) ->
   response r = Raise credentials_exception)
  /\ final_db r = db /\ commits r = [].
Proof.
  cbv zeta.
  unfold get_user, request, response, final_db, commits,
    get_current_active_user, get_current_user, bind, user_crud.get,
    user_crud.is_active, query, raise_if, raise, ret.
  destruct (decode_access_token token) as [s|] eqn:D; cbn.
  2:{ repeat split; try discriminate. intros (s & id & u & H & _).
      discriminate. }
  destruct (UUID_of_string s) as [id|] eqn:U; cbn.
  2:{ repeat split; try discriminate. intros (s' & id & u & H & H' & _).
      injection H as <-. congruence. }
  destruct (select_by_id User.id id (users db)) as [u|] eqn:G; cbn.
  2:{ repeat split; try discriminate.
      intros (s' & id' & u & H & H' & H'' & _).
      injection H as <-. rewrite U in H'. injection H' as <-. congruence. }
  destruct (User.is_active u) eqn:A; cbn.
  - repeat split.
    + intros H. injection H as <-. exists s, id, u. auto.
    + intros (s' & id' & u' & H & H' & H'' & _ & ->).
      injection H as <-. rewrite U in H'. injection H' as <-.
      rewrite G in H''. now injection H'' as <-.
    + intros [H | [(s' & H & H') | (s' & id' & H & H' & H'')]];
        try discriminate.
      * injection H as <-. congruence.
      * injection H as <-. rewrite U in H'. injection H' as <-. congruence.
  - repeat split; try discriminate.
    + intros (s' & id' & u' & H & H' & H'' & H3 & _).
      injection H as <-. rewrite U in H'. injection H' as <-.
      rewrite G in H''. injection H'' as <-. congruence.
    + intros [H | [(s' & H & H') | (s' & id' & H & H' & H'')]];
        try discriminate.
      * injection H as <-. congruence.
      * injection H as <-. rewrite U in H'. injection H' as <-. congruence.
Qed.

(** X14. The token [login] issues authenticates its user: when the token
    decodes to its subject and the subject parses to the id it renders,
    the dependency gives back the user who logged in. *)
Theorem login_token_authenticates
  (t t' : datetime) (db : Store) (username password : string) (u : User.t) :
  user_by_email db username = Some u ->
  verify_password password (User.hashed_password u) = true ->
  User.is_active u = true ->
  get_user db (User.id u) = Some u ->
  decode_access_token
    (create_access_token (str (User.id u)) ACCESS_TOKEN_EXPIRE_MINUTES)
  = Some (str (User.id u)) ->
  UUID_of_string (str (User.id u)) = Some (User.id u) ->
  exists token,
    response (request t db
                (auth.login verify_password create_access_token str
                   ACCESS_TOKEN_EXPIRE_MINUTES username password))
    = Ok token /\
    request t' db
      (get_current_active_user decode_access_token UUID_of_string
         (Token.access_token token))
    = (Ok (loaded u), db, []).
Proof.
  intros He Hv Ha Hg Hd Hu. unfold user_by_email, get_user in *.
  eexists. split.
  - unfold request, response, auth.login, CRUDUser.authenticate, bind,
      user_crud.get_by_email, user_crud.is_active, query, raise_if, raise,
      ret. cbn. rewrite He. cbn. rewrite Hv. cbn. rewrite Ha. reflexivity.
  - cbn [Token.access_token].
    unfold request, get_current_active_user, get_current_user, bind,
      user_crud.get, user_crud.is_active, query, raise_if, raise, ret.
    rewrite Hd, Hu. cbn. rewrite Hg. cbn. rewrite Ha. reflexivity.
Qed.
End TokenFacts.

Section PasswordFacts.
Variable get_password_hash : string -> string.
Variable verify_password : string -> string -> bool.
Variable create_access_token : string -> Z -> string.
Variable str : UUID -> string.
Variable ACCESS_TOKEN_EXPIRE_MINUTES : Z.

(** The row [update_password] writes over the row [u]. *)
Lemma update_password_run t db log u new_password :
  get_user db (User.id u) = Some u ->
  let v := User.set_hashed_password u (get_password_hash new_password) in
  let u' := if User.eq_dec u v then u else User.set_updated_at v t in
  let db' := if User.eq_dec u v then db
             else set_users db
                    (update_where_id User.id (User.id u) u' (users db)) in
  user_crud.update_password get_password_hash (loaded u) new_password
    (mkSession eng db [] log t)
  = (Ok (loaded u'), mkSession eng db' [] (log ++ [db']) t).
Proof.
  intros Hget. cbv zeta.
  unfold user_crud.update_password, bind, db_add, db_commit, db_refresh,
    query, flush, setattr, loaded. cbn.
  destruct (User.eq_dec u _) as [E|E]; cbn.
  - unfold get_user in Hget. now rewrite Hget.
  - rewrite no_violation_without_change by reflexivity. cbn.
    pose proof (select_by_id_update_same User.id (User.id u)
                  (User.set_updated_at
                     (User.set_hashed_password u
                        (get_password_hash new_password)) t)
                  (users db) u Hget eq_refl) as H.
    unfold select_by_id in H. rewrite H. reflexivity.
Qed.

(** X15. [update_password_me] refuses a wrong current password with 400 and
    writes nothing. With the right one it stores the hash of the new
    password in the caller's row and changes nothing else there but
    [updated_at]; the rows of the other users and the other tables stay
    as they were. *)
Theorem update_password_me_outcomes
  (t : datetime) (db : Store) (password_in : UserUpdatePassword.t)
  (u : User.t) :
  get_user db (User.id u) = Some u ->
  let r := request t db
             (update_password_me verify_password get_password_hash
                password_in (loaded u)) in
  (verify_password (UserUpdatePassword.current_password password_in)
     (User.hashed_password u) = false ->
   r = (Raise (mkHTTPException 400 "Incorrect password"), db, []))
  /\
  (verify_password (UserUpdatePassword.current_password password_in)
     (User.hashed_password u) = true ->
   exists u',
     response r = Ok (loaded u') /\
     get_user (final_db r) (User.id u) = Some u' /\
     User.hashed_password u'
     = get_password_hash (UserUpdatePassword.new_password password_in) /\
     User.set_updated_at
       (User.set_hashed_password u' (User.hashed_password u))
       (User.updated_at u) = u /\
     (forall id, id <> User.id u ->
        get_user (final_db r) id = get_user db id) /\
     boards (final_db r) = boards db /\
     lists (final_db r) = lists db /\
     cards (final_db r) = cards db).
Proof.
  intros Hget. cbv zeta. split.
  - intros Hv. unfold request, update_password_me, bind, raise_if, raise.
    cbn. now rewrite Hv.
  - intros Hv. unfold request, response, final_db, update_password_me, bind,
      raise_if, ret. cbn [attrs loaded]. rewrite Hv. cbn [negb].
    rewrite update_password_run by exact Hget. cbv zeta. cbn [fst snd].
    eexists. split; [reflexivity|].
    destruct (User.eq_dec u _) as [E|E]; cbn [database].
    + repeat split; try assumption.
      * exact (f_equal User.hashed_password E).
      * now destruct u.
    + repeat split.
      * unfold get_user. cbn [users set_users].
        now apply (select_by_id_update_same User.id) with u.
      * now destruct u.
      * intros id Hne. unfold get_user. cbn [users set_users].
        now apply (select_by_id_update_other User.id).
Qed.

Lemma user_by_email_updated db u u' :
  user_by_email db (User.email u) = Some u ->
  User.email u' = User.email u ->
  user_by_email
    (set_users db (update_where_id User.id (User.id u) u' (users db)))
    (User.email u) = Some u'.
Proof.
  unfold user_by_email. cbn [users set_users]. intros H He.
  induction (users db) as [|x l IH]; cbn in *; [discriminate|].
  destruct (uuid_eqb (User.id x) (User.id u)) eqn:Ex; cbn.
  - now rewrite He, String.eqb_refl.
  - destruct (String.eqb (User.email x) (User.email u)) eqn:Em.
    + injection H as ->. now rewrite uuid_eqb_refl in Ex.
    + now apply IH.
Qed.

(** X16. After a change of password the new password logs in: when the hash of
    the new password verifies against it, the caller, found by email,
    gets a token. *)
Theorem change_password_then_login
  (t t' : datetime) (db : Store) (password_in : UserUpdatePassword.t)
  (u : User.t) :
  get_user db (User.id u) = Some u ->
  user_by_email db (User.email u) = Some u ->
  User.is_active u = true ->
  verify_password (UserUpdatePassword.current_password password_in)
    (User.hashed_password u) = true ->
  verify_password (UserUpdatePassword.new_password password_in)
    (get_password_hash (UserUpdatePassword.new_password password_in))
  = true ->
  let db' := final_db (request t db
               (update_password_me verify_password get_password_hash
                  password_in (loaded u))) in
  response (request t' db'
              (auth.login verify_password create_access_token str
                 ACCESS_TOKEN_EXPIRE_MINUTES (User.email u)
                 (UserUpdatePassword.new_password password_in)))
  = Ok (Token.mk (create_access_token (str (User.id u))
                    ACCESS_TOKEN_EXPIRE_MINUTES) "bearer").
Proof.
  intros Hget Hmail Hact Hcur Hnew. cbv zeta.
  unfold request at 2. unfold final_db, update_password_me, bind, raise_if,
    ret. cbn [attrs loaded]. rewrite Hcur. cbn [negb].
  rewrite update_password_run by exact Hget. cbv zeta. cbn [fst snd database].
  set (v := User.set_hashed_password u
              (get_password_hash (UserUpdatePassword.new_password password_in))).
  assert (Hlogin : forall db2 w,
            user_by_email db2 (User.email u) = Some w ->
            User.hashed_password w
            = get_password_hash (UserUpdatePassword.new_password password_in) ->
            User.is_active w = true -> User.id w = User.id u ->
            response (request t' db2
              (auth.login verify_password create_access_token str
                 ACCESS_TOKEN_EXPIRE_MINUTES (User.email u)
                 (UserUpdatePassword.new_password password_in)))
            = Ok (Token.mk (create_access_token (str (User.id u))
                              ACCESS_TOKEN_EXPIRE_MINUTES) "bearer")).
  { intros db2 w Hw Hh Ha Hi. unfold user_by_email in Hw.
    unfold request, response, auth.login, CRUDUser.authenticate, bind,
      user_crud.get_by_email, user_crud.is_active, query, raise_if, raise,
      ret. cbn. rewrite Hw. cbn. rewrite Hh, Hnew. cbn. rewrite Ha, Hi.
    reflexivity. }
  destruct (User.eq_dec u v) as [E|E].
  - apply (Hlogin db u); try assumption; [|reflexivity].
    exact (f_equal User.hashed_password E).
  - apply (Hlogin _ (User.set_updated_at v t)); try reflexivity.
    + now apply user_by_email_updated.
    + exact Hact.
Qed.
End PasswordFacts.

(** ** The account properties on the example database *)


(* ------------------------------------------------------------------ *)
(** * The ownership chain as an invariant *)

Arguments board_crud.update : simpl never.
Arguments board_crud.remove : simpl never.
Arguments list_crud.update : simpl never.
Arguments list_crud.remove : simpl never.
Arguments list_crud.reorder : simpl never.
Arguments card_crud.update : simpl never.
Arguments card_crud.remove : simpl never.

Lemma list_update_accepted_same db (l : BList.t) :
  list_update_accepted eng db l l = true.
Proof.
  unfold list_update_accepted.
  now rewrite Z.eqb_refl, uuid_eqb_refl, !orb_true_r.
Qed.

Lemma board_update_accepted_same db (b b' : Board.t) :
  Board.owner_id b' = Board.owner_id b ->
  board_update_accepted eng db b b' = true.
Proof.
  intros H. unfold board_update_accepted.
  now rewrite H, uuid_eqb_refl, !orb_true_r.
Qed.

(** A list that stays on its board is written when its new position is
    in the range of the column, or is the one it has. *)
Lemma list_update_accepted_iff db (l l' : BList.t) :
  BList.board_id l' = BList.board_id l ->
  list_update_accepted eng db l l'
  = (BList.position l =? BList.position l')
    || integer_fits eng (BList.position l').
Proof.
  intros H. unfold list_update_accepted.
  now rewrite H, uuid_eqb_refl, !orb_true_r, andb_true_r.
Qed.

Lemma commit_list_run t db log (l l' : BList.t) :
  BList.id l' = BList.id l ->
  get_list db (BList.id l) = Some l ->
  (db_add (EList (mkInstance l l')) ;; db_commit ;;
   db_refresh lists BList.id (mkInstance l l')) (mkSession eng db [] log t)
  = if list_update_accepted eng db l l'
    then let db' := after_list_write t db l l' in
         (Ok (loaded (list_written t l l')),
          mkSession eng db' [] (log ++ [db']) t)
    else (ServerError, mkSession eng db [] log t).
Proof.
  intros Hid Hget.
  unfold bind, db_add, db_commit, db_refresh, query, flush,
    after_list_write, list_written. cbn.
  destruct (BList.eq_dec l l') as [E|E]; cbn.
  - rewrite <- E, list_update_accepted_same.
    unfold get_list in Hget. rewrite Hget. reflexivity.
  - destruct (list_update_accepted eng db l l'); cbn; [|reflexivity].
    pose proof (select_by_id_update_same BList.id (BList.id l)
                  (BList.set_updated_at l' t) (lists db) l Hget Hid) as Hsel.
    unfold select_by_id in Hsel. rewrite Hsel. reflexivity.
Qed.

Lemma commit_board_run t db log (b b' : Board.t) :
  Board.id b' = Board.id b ->
  Board.owner_id b' = Board.owner_id b ->
  get_board db (Board.id b) = Some b ->
  (db_add (EBoard (mkInstance b b')) ;; db_commit ;;
   db_refresh boards Board.id (mkInstance b b')) (mkSession eng db [] log t)
  = let db' := after_board_write t db b b' in
    (Ok (loaded (board_written t b b')), mkSession eng db' [] (log ++ [db']) t).
Proof.
  intros Hid Hown Hget.
  unfold bind, db_add, db_commit, db_refresh, query, flush,
    after_board_write, board_written. cbn.
  destruct (Board.eq_dec b b') as [E|E]; cbn.
  - unfold get_board in Hget. rewrite Hget. reflexivity.
  - rewrite (board_update_accepted_same db b b' Hown). cbn.
    pose proof (select_by_id_update_same Board.id (Board.id b)
                  (Board.set_updated_at b' t) (boards db) b Hget Hid)
      as Hsel.
    unfold select_by_id in Hsel. rewrite Hsel. reflexivity.
Qed.

(** The updates assign neither the id nor the parent; the position and
    the assignee of the card are the supplied ones, or the ones it had. *)
Lemma card_update_run t db log c obj_in :
  get_card db (Card.id c) = Some c ->
  exists c',
    Card.id c' = Card.id c /\ Card.list_id c' = Card.list_id c /\
    Card.position c'
    = supplied (CardUpdate.position obj_in) (Card.position c) /\
    Card.assigned_to_id c'
    = supplied (option_map Some (CardUpdate.assigned_to_id obj_in))
        (Card.assigned_to_id c) /\
    card_crud.update (loaded c) obj_in (mkSession eng db [] log t)
    = if card_update_accepted eng db c c'
      then (Ok (loaded (written t c c')),
            mkSession eng (after_write t db c c') []
              (log ++ [after_write t db c c']) t)
      else (ServerError, mkSession eng db [] log t).
Proof.
  intros Hget. unfold card_crud.update.
  set (o := assign Card.set_priority _ _).
  assert (Ho : committed_state o = c /\ Card.id (attrs o) = Card.id c /\
               Card.list_id (attrs o) = Card.list_id c /\
               Card.position (attrs o)
               = supplied (CardUpdate.position obj_in) (Card.position c) /\
               Card.assigned_to_id (attrs o)
               = supplied (option_map Some (CardUpdate.assigned_to_id obj_in))
                   (Card.assigned_to_id c)).
  { subst o. destruct obj_in as [a1 a2 a3 a4 a5 a6].
    destruct a1, a2, a3, a4, a5, a6; cbn; auto. }
  destruct o as [c0 c']. cbn in Ho. destruct Ho as (-> & Hid & Hl & Hp & Ha).
  exists c'. do 4 (split; [assumption|]).
  now apply commit_card_run.
Qed.

Lemma list_update_run t db log l obj_in :
  get_list db (BList.id l) = Some l ->
  exists l',
    BList.id l' = BList.id l /\ BList.board_id l' = BList.board_id l /\
    BList.position l'
    = supplied (ListUpdate.position obj_in) (BList.position l) /\
    list_crud.update (loaded l) obj_in (mkSession eng db [] log t)
    = if list_update_accepted eng db l l'
      then (Ok (loaded (list_written t l l')),
            mkSession eng (after_list_write t db l l') []
              (log ++ [after_list_write t db l l']) t)
      else (ServerError, mkSession eng db [] log t).
Proof.
  intros Hget. unfold list_crud.update.
  set (o := assign BList.set_position _ _).
  assert (Ho : committed_state o = l /\ BList.id (attrs o) = BList.id l /\
               BList.board_id (attrs o) = BList.board_id l /\
               BList.position (attrs o)
               = supplied (ListUpdate.position obj_in) (BList.position l)).
  { subst o. destruct obj_in as [a1 a2]. destruct a1, a2; cbn; auto. }
  destruct o as [l0 l']. cbn in Ho. destruct Ho as (-> & Hid & Hb & Hp).
  exists l'. do 3 (split; [assumption|]).
  now apply commit_list_run.
Qed.

Lemma list_reorder_run t db log l position :
  get_list db (BList.id l) = Some l ->
  list_crud.reorder (loaded l) position (mkSession eng db [] log t)
  = let l' := BList.set_position l position in
    if (BList.position l =? position) || integer_fits eng position
    then (Ok (loaded (list_written t l l')),
          mkSession eng (after_list_write t db l l') []
            (log ++ [after_list_write t db l l']) t)
    else (ServerError, mkSession eng db [] log t).
Proof.
  intros Hget. unfold list_crud.reorder, setattr, loaded.
  cbn [attrs committed_state]. cbv zeta.
  rewrite (commit_list_run t db log l (BList.set_position l position))
    by (reflexivity || assumption).
  now rewrite list_update_accepted_iff.
Qed.

Lemma board_update_run t db log b obj_in :
  get_board db (Board.id b) = Some b ->
  exists b',
    Board.id b' = Board.id b /\ Board.owner_id b' = Board.owner_id b /\
    board_crud.update (loaded b) obj_in (mkSession eng db [] log t)
    = (Ok (loaded (board_written t b b')),
       mkSession eng (after_board_write t db b b') []
         (log ++ [after_board_write t db b b']) t).
Proof.
  intros Hget. unfold board_crud.update.
  set (o := assign Board.set_description _ _).
  assert (Ho : committed_state o = b /\ Board.id (attrs o) = Board.id b /\
               Board.owner_id (attrs o) = Board.owner_id b).
  { subst o. destruct obj_in as [a1 a2]. destruct a1, a2; cbn; auto. }
  destruct o as [b0 b']. cbn in Ho. destruct Ho as (-> & Hid & Hb).
  exists b'. split; [exact Hid|]. split; [exact Hb|].
  now apply commit_board_run.
Qed.

Lemma card_remove_run t db log card_id c :
  get_card db card_id = Some c ->
  card_crud.remove card_id (mkSession eng db [] log t)
  = let db' := flush_delete db (ECard (loaded c)) in
    (Ok (loaded c), mkSession eng db' [] (log ++ [db']) t).
Proof.
  intros H. unfold get_card in H.
  unfold card_crud.remove, card_crud.get, bind, query, not_none, db_delete,
    db_commit, ret. cbn. rewrite H. reflexivity.
Qed.

Lemma list_remove_run t db log list_id l :
  get_list db list_id = Some l ->
  list_crud.remove list_id (mkSession eng db [] log t)
  = let db' := flush_delete db (EList (loaded l)) in
    (Ok (loaded l), mkSession eng db' [] (log ++ [db']) t).
Proof.
  intros H. unfold get_list in H.
  unfold list_crud.remove, list_crud.get, bind, query, not_none, db_delete,
    db_commit, ret. cbn. rewrite H. reflexivity.
Qed.

Lemma board_remove_run t db log board_id b :
  get_board db board_id = Some b ->
  board_crud.remove board_id (mkSession eng db [] log t)
  = let db' := flush_delete db (EBoard (loaded b)) in
    (Ok (loaded b), mkSession eng db' [] (log ++ [db']) t).
Proof.
  intros H. unfold get_board in H.
  unfold board_crud.remove, board_crud.get, bind, query, not_none, db_delete,
    db_commit, ret. cbn. rewrite H. reflexivity.
Qed.

Section PresenceFacts.
Context {T : Type} (pk : T -> UUID).

Lemma select_by_id_update_present id x v rows :
  pk v = id ->
  select_by_id pk x rows <> None ->
  select_by_id pk x (update_where_id pk id v rows) <> None.
Proof.
  intros Hv H. destruct (N.eq_dec x id) as [->|Hne].
  - destruct (select_by_id pk id rows) as [r|] eqn:E; [|now destruct H].
    rewrite (select_by_id_update_same pk id v rows r E Hv). discriminate.
  - now rewrite (select_by_id_update_other pk id x v rows Hv Hne).
Qed.

Lemma select_by_id_delete_other id x rows :
  x <> id ->
  select_by_id pk x (delete_where (fun r => uuid_eqb (pk r) id) rows)
  = select_by_id pk x rows.
Proof.
  intros Hne. unfold select_by_id, delete_where.
  induction rows as [|r rows IH]; cbn; [reflexivity|].
  destruct (uuid_eqb (pk r) id) eqn:E; cbn.
  - apply uuid_eqb_eq in E.
    assert (E' : uuid_eqb (pk r) x = false)
      by (apply uuid_eqb_neq; congruence).
    now rewrite E'.
  - destruct (uuid_eqb (pk r) x); [reflexivity | exact IH].
Qed.

Lemma select_by_id_delete_same id rows :
  select_by_id pk id (delete_where (fun r => uuid_eqb (pk r) id) rows)
  = None.
Proof.
  unfold select_by_id, delete_where.
  induction rows as [|r rows IH]; cbn; [reflexivity|].
  destruct (uuid_eqb (pk r) id) eqn:E; cbn; [exact IH|]. now rewrite E.
Qed.

Lemma select_by_id_present id rows r :
  In r rows -> pk r = id -> select_by_id pk id rows <> None.
Proof.
  intros Hin Hpk Hnone. unfold select_by_id in Hnone.
  apply (find_none _ _ Hnone) in Hin. cbn in Hin.
  apply uuid_eqb_neq in Hin. contradiction.
Qed.

Lemma In_update_where_id id v rows r :
  In r (update_where_id pk id v rows) -> r = v \/ In r rows.
Proof.
  unfold update_where_id. intros H. apply in_map_iff in H.
  destruct H as (x & Hx & Hin).
  destruct (uuid_eqb (pk x) id); [left | right]; congruence.
Qed.
End PresenceFacts.

(** The writes of the operations, one by one, keep the chain. *)
Lemma refs_after_board_write t db b b' :
  Board.id b' = Board.id b ->
  refs_resolve db -> refs_resolve (after_board_write t db b b').
Proof.
  intros Hid [Hl Hc]. unfold after_board_write, board_written.
  destruct (Board.eq_dec b b'); [now split|].
  split; [|exact Hc]. intros l Hin. unfold get_board. cbn [boards set_boards].
  apply select_by_id_update_present; [exact Hid | now apply Hl].
Qed.

Lemma refs_after_list_write t db l l' :
  BList.id l' = BList.id l ->
  get_board db (BList.board_id l') <> None ->
  refs_resolve db -> refs_resolve (after_list_write t db l l').
Proof.
  intros Hid Hb [Hl Hc]. unfold after_list_write, list_written.
  destruct (BList.eq_dec l l'); [now split|].
  split.
  - intros x Hin. cbn [lists set_lists] in Hin.
    apply In_update_where_id in Hin. destruct Hin as [->|Hin].
    + exact Hb.
    + now apply Hl.
  - intros c Hin. unfold get_list. cbn [lists set_lists].
    apply select_by_id_update_present; [exact Hid | now apply Hc].
Qed.

Lemma refs_after_card_write t db c c' :
  get_list db (Card.list_id c') <> None ->
  refs_resolve db -> refs_resolve (after_write t db c c').
Proof.
  intros Hlist [Hl Hc]. unfold after_write, written.
  destruct (Card.eq_dec c c'); [now split|].
  split; [exact Hl|]. intros x Hin. cbn [cards set_cards] in Hin.
  apply (In_update_where_id Card.id) in Hin. destruct Hin as [->|Hin].
  - exact Hlist.
  - now apply Hc.
Qed.

Lemma refs_after_card_delete db c :
  refs_resolve db -> refs_resolve (flush_delete db (ECard (loaded c))).
Proof.
  intros [Hl Hc]. split; [exact Hl|]. intros x Hin. cbn in Hin.
  apply filter_In in Hin. now apply Hc.
Qed.

Lemma refs_after_list_delete db l :
  refs_resolve db -> refs_resolve (flush_delete db (EList (loaded l))).
Proof.
  intros [Hl Hc]. split.
  - intros x Hin. cbn in Hin. apply filter_In in Hin. now apply Hl.
  - intros x Hin. cbn in Hin. apply filter_In in Hin.
    destruct Hin as [Hin Hne]. apply negb_true_iff, uuid_eqb_neq in Hne.
    unfold get_list. cbn [lists flush_delete loaded committed_state].
    rewrite select_by_id_delete_other by exact Hne. now apply Hc.
Qed.

Lemma refs_after_board_delete db b :
  refs_resolve db -> refs_resolve (flush_delete db (EBoard (loaded b))).
Proof.
  intros [Hl Hc]. split.
  - intros x Hin. cbn in Hin. apply filter_In in Hin.
    destruct Hin as [Hin Hne]. apply negb_true_iff, uuid_eqb_neq in Hne.
    unfold get_board. cbn [boards flush_delete loaded committed_state].
    rewrite select_by_id_delete_other by exact Hne. now apply Hl.
  - intros x Hin. cbn in Hin. apply filter_In in Hin.
    destruct Hin as [Hin Hout]. apply negb_true_iff in Hout.
    specialize (Hc x Hin). unfold get_list in *.
    destruct (select_by_id BList.id (Card.list_id x) (lists db)) as [l0|]
      eqn:E; [|now destruct Hc].
    destruct (select_by_id_some _ _ _ _ E) as [Hl0 Hid].
    cbn [lists flush_delete loaded committed_state].
    apply select_by_id_present with l0; [|exact Hid].
    apply filter_In. split; [exact Hl0|].
    unfold in_board in Hout.
    destruct (uuid_eqb (BList.board_id l0) (Board.id b)) eqn:Eb;
      [|reflexivity].
    exfalso. assert (Hex : existsb (fun l => uuid_eqb (BList.id l) (Card.list_id x)
                    && uuid_eqb (BList.board_id l) (Board.id b)) (lists db)
                  = true).
    { apply existsb_exists. exists l0. split; [exact Hl0|].
      rewrite Eb, andb_true_r. apply uuid_eqb_eq. exact Hid. }
    congruence.
Qed.

Lemma get_list_self db list_id l :
  get_list db list_id = Some l -> get_list db (BList.id l) = Some l.
Proof.
  intros H. unfold get_list in *.
  destruct (select_by_id_some _ _ _ _ H) as [_ Hid]. now rewrite Hid.
Qed.

Lemma get_board_self db board_id b :
  get_board db board_id = Some b -> get_board db (Board.id b) = Some b.
Proof.
  intros H. unfold get_board in *.
  destruct (select_by_id_some _ _ _ _ H) as [_ Hid]. now rewrite Hid.
Qed.

Ltac run_perform :=
  unfold perform, outcome, response, final_db, request,
    update_board, delete_board, update_list, delete_list, reorder_list,
    update_card, delete_card, reorder_card, move_card,
    bind, card_crud.get, list_crud.get, board_crud.get, query,
    not_none, raise_if, raise, ret, server_error;
  cbn.

Lemma users_after_board_write t db b b' :
  users (after_board_write t db b b') = users db.
Proof. unfold after_board_write. now destruct (Board.eq_dec b b'). Qed.

Lemma users_after_list_write t db l l' :
  users (after_list_write t db l l') = users db.
Proof. unfold after_list_write. now destruct (BList.eq_dec l l'). Qed.

Lemma users_after_write t db c c' :
  users (after_write t db c c') = users db.
Proof. unfold after_write. now destruct (Card.eq_dec c c'). Qed.

(** What the engine accepts of an update: a list or a card that stays
    where it is, with a position in range and an assignee who is a
    user. *)
Lemma list_update_accepted_storable db (l l' : BList.t) position :
  BList.board_id l' = BList.board_id l ->
  BList.position l' = supplied position (BList.position l) ->
  (forall p, position = Some p -> integer_fits eng p = true) ->
  list_update_accepted eng db l l' = true.
Proof.
  intros Hb Hp Hfit. rewrite list_update_accepted_iff by exact Hb.
  rewrite Hp. destruct position as [p|]; cbn.
  - now rewrite (Hfit p eq_refl), orb_true_r.
  - now rewrite Z.eqb_refl.
Qed.

Lemma card_update_accepted_storable db (c c' : Card.t) position assignee :
  Card.list_id c' = Card.list_id c ->
  Card.position c' = supplied position (Card.position c) ->
  Card.assigned_to_id c'
  = supplied (option_map Some assignee) (Card.assigned_to_id c) ->
  (forall p, position = Some p -> integer_fits eng p = true) ->
  assignee_known db assignee ->
  card_update_accepted eng db c c' = true.
Proof.
  intros Hl Hp Ha Hfit Hknown. unfold card_update_accepted.
  rewrite Hl, uuid_eqb_refl, Hp, Ha. cbn [orb].
  apply andb_true_intro. split.
  - destruct position as [p|]; cbn.
    + now rewrite (Hfit p eq_refl), orb_true_r.
    + now rewrite Z.eqb_refl.
  - destruct (foreign_keys eng); [|reflexivity]. cbn.
    destruct assignee as [u|]; cbn.
    + destruct (option_eq_dec N.eq_dec _ _) as [_|_]; [reflexivity|].
      specialize (Hknown u eq_refl). unfold get_user in Hknown.
      unfold references.
      now destruct (select_by_id User.id u (users db)); [|destruct Hknown].
    + now destruct (option_eq_dec N.eq_dec _ _) as [_|N]; [|destruct N].
Qed.

Ltac as_it_was Hrefs :=
  split; [exact Hrefs | split; [reflexivity | intros _; discriminate]].

(** On a database whose chain resolves, an operation leaves a database
    whose chain resolves and the users that were there, and does not fail
    with an unhandled exception when what it stores is storable. *)
Lemma perform_under_refs t db current_user op :
  refs_resolve db ->
  refs_resolve (snd (perform t db current_user op)) /\
  users (snd (perform t db current_user op)) = users db /\
  (storable db op -> fst (perform t db current_user op) <> InternalError).
Proof.
  intros Hrefs. pose proof Hrefs as [Hlists Hcards].
  assert (Hboard_of : forall l, get_list db (BList.id l) = Some l ->
            exists b, select_by_id Board.id (BList.board_id l) (boards db)
                      = Some b).
  { intros l Hl. destruct (select_by_id_some _ _ _ _ Hl) as [Hin _].
    specialize (Hlists l Hin). unfold get_board in Hlists.
    destruct (select_by_id Board.id (BList.board_id l) (boards db)) as [b|];
      [now exists b | now destruct Hlists]. }
  assert (Hlist_of : forall c, get_card db (Card.id c) = Some c ->
            exists l, select_by_id BList.id (Card.list_id c) (lists db)
                      = Some l).
  { intros c Hc. destruct (select_by_id_some _ _ _ _ Hc) as [Hin _].
    specialize (Hcards c Hin). unfold get_list in Hcards.
    destruct (select_by_id BList.id (Card.list_id c) (lists db)) as [l|];
      [now exists l | now destruct Hcards]. }
  destruct op as [id x | id | id x | id | id x | id x | id | id x | id x].
  - (* update_board *)
    run_perform.
    destruct (select_by_id Board.id id (boards db)) as [b|] eqn:Hb; cbn;
      [|as_it_was Hrefs].
    destruct (uuid_eqb (Board.owner_id b) (User.id (attrs current_user)));
      cbn; [|as_it_was Hrefs].
    destruct (board_update_run t db [] b x (get_board_self _ _ _ Hb))
      as (b' & Hid & _ & Hrun).
    rewrite Hrun. cbn.
    split; [now apply refs_after_board_write|].
    split; [apply users_after_board_write | intros _; discriminate].
  - (* delete_board *)
    run_perform.
    destruct (select_by_id Board.id id (boards db)) as [b|] eqn:Hb; cbn;
      [|as_it_was Hrefs].
    destruct (uuid_eqb (Board.owner_id b) (User.id (attrs current_user)));
      cbn; [|as_it_was Hrefs].
    rewrite (board_remove_run t db [] id b Hb). cbn.
    split; [now apply refs_after_board_delete|].
    split; [reflexivity | intros _; discriminate].
  - (* update_list *)
    run_perform.
    destruct (select_by_id BList.id id (lists db)) as [l|] eqn:Hl; cbn;
      [|as_it_was Hrefs].
    destruct (Hboard_of l (get_list_self _ _ _ Hl)) as (b & Hb).
    rewrite Hb. cbn.
    destruct (uuid_eqb (Board.owner_id b) (User.id (attrs current_user)));
      cbn; [|as_it_was Hrefs].
    destruct (list_update_run t db [] l x (get_list_self _ _ _ Hl))
      as (l' & Hid & Hbid & Hpos & Hrun).
    rewrite Hrun.
    destruct (list_update_accepted eng db l l') eqn:Hacc; cbn.
    + split; [|split; [apply users_after_list_write
                      | intros _; discriminate]].
      apply refs_after_list_write; [exact Hid | | exact Hrefs].
      rewrite Hbid. unfold get_board. now rewrite Hb.
    + split; [exact Hrefs|]. split; [reflexivity|]. intros Hst.
      rewrite (list_update_accepted_storable db l l' _ Hbid Hpos Hst)
        in Hacc. discriminate.
  - (* delete_list *)
    run_perform.
    destruct (select_by_id BList.id id (lists db)) as [l|] eqn:Hl; cbn;
      [|as_it_was Hrefs].
    destruct (Hboard_of l (get_list_self _ _ _ Hl)) as (b & Hb).
    rewrite Hb. cbn.
    destruct (uuid_eqb (Board.owner_id b) (User.id (attrs current_user)));
      cbn; [|as_it_was Hrefs].
    rewrite (list_remove_run t db [] id l Hl). cbn.
    split; [now apply refs_after_list_delete|].
    split; [reflexivity | intros _; discriminate].
  - (* reorder_list *)
    run_perform.
    destruct (select_by_id BList.id id (lists db)) as [l|] eqn:Hl; cbn;
      [|as_it_was Hrefs].
    destruct (Hboard_of l (get_list_self _ _ _ Hl)) as (b & Hb).
    rewrite Hb. cbn.
    destruct (uuid_eqb (Board.owner_id b) (User.id (attrs current_user)));
      cbn; [|as_it_was Hrefs].
    rewrite (list_reorder_run t db [] l _ (get_list_self _ _ _ Hl)).
    cbv zeta.
    destruct ((BList.position l =? ListReorder.position x)
              || integer_fits eng (ListReorder.position x)) eqn:Hacc; cbn.
    + split; [|split; [apply users_after_list_write
                      | intros _; discriminate]].
      apply refs_after_list_write; [reflexivity | | exact Hrefs].
      cbn. unfold get_board. now rewrite Hb.
    + split; [exact Hrefs|]. split; [reflexivity|]. intros Hst.
      rewrite Hst, orb_true_r in Hacc. discriminate.
  - (* update_card *)
    run_perform.
    destruct (select_by_id Card.id id (cards db)) as [c|] eqn:Hc; cbn;
      [|as_it_was Hrefs].
    destruct (Hlist_of c (get_card_self _ _ _ Hc)) as (l & Hl).
    rewrite Hl. cbn.
    destruct (Hboard_of l (get_list_self _ _ _ Hl)) as (b & Hb).
    rewrite Hb. cbn.
    destruct (uuid_eqb (Board.owner_id b) (User.id (attrs current_user)));
      cbn; [|as_it_was Hrefs].
    destruct (card_update_run t db [] c x (get_card_self _ _ _ Hc))
      as (c' & Hid & Hlid & Hpos & Hass & Hrun).
    rewrite Hrun.
    destruct (card_update_accepted eng db c c') eqn:Hacc; cbn.
    + split; [|split; [apply users_after_write | intros _; discriminate]].
      apply refs_after_card_write; [|exact Hrefs].
      rewrite Hlid. unfold get_list. now rewrite Hl.
    + split; [exact Hrefs|]. split; [reflexivity|]. intros [Hfit Hknown].
      rewrite (card_update_accepted_storable db c c' _ _ Hlid Hpos Hass
                 Hfit Hknown) in Hacc. discriminate.
  - (* delete_card *)
    run_perform.
    destruct (select_by_id Card.id id (cards db)) as [c|] eqn:Hc; cbn;
      [|as_it_was Hrefs].
    destruct (Hlist_of c (get_card_self _ _ _ Hc)) as (l & Hl).
    rewrite Hl. cbn.
    destruct (Hboard_of l (get_list_self _ _ _ Hl)) as (b & Hb).
    rewrite Hb. cbn.
    destruct (uuid_eqb (Board.owner_id b) (User.id (attrs current_user)));
      cbn; [|as_it_was Hrefs].
    rewrite (card_remove_run t db [] id c Hc). cbn.
    split; [now apply refs_after_card_delete|].
    split; [reflexivity | intros _; discriminate].
  - (* reorder_card *)
    run_perform.
    destruct (select_by_id Card.id id (cards db)) as [c|] eqn:Hc; cbn;
      [|as_it_was Hrefs].
    destruct (Hlist_of c (get_card_self _ _ _ Hc)) as (l & Hl).
    rewrite Hl. cbn.
    destruct (Hboard_of l (get_list_self _ _ _ Hl)) as (b & Hb).
    rewrite Hb. cbn.
    destruct (uuid_eqb (Board.owner_id b) (User.id (attrs current_user)));
      cbn; [|as_it_was Hrefs].
    rewrite (reorder_run t db [] c _ (get_card_self _ _ _ Hc)).
    rewrite reorder_accepted_iff.
    destruct ((Card.position c =? CardReorder.position x)
              || integer_fits eng (CardReorder.position x)) eqn:Hacc; cbn.
    + split; [|split; [apply users_after_write | intros _; discriminate]].
      apply refs_after_card_write; [|exact Hrefs].
      cbn. unfold get_list. now rewrite Hl.
    + split; [exact Hrefs|]. split; [reflexivity|]. intros Hst.
      rewrite Hst, orb_true_r in Hacc. discriminate.
  - (* move_card *)
    run_perform.
    destruct (select_by_id Card.id id (cards db)) as [c|] eqn:Hc; cbn;
      [|as_it_was Hrefs].
    destruct (Hlist_of c (get_card_self _ _ _ Hc)) as (l & Hl).
    rewrite Hl. cbn.
    destruct (Hboard_of l (get_list_self _ _ _ Hl)) as (b & Hb).
    rewrite Hb. cbn.
    destruct (uuid_eqb (Board.owner_id b) (User.id (attrs current_user)));
      cbn; [|as_it_was Hrefs].
    destruct (select_by_id BList.id (CardMove.list_id x) (lists db))
      as [l2|] eqn:Hl2; cbn; [|as_it_was Hrefs].
    destruct (uuid_eqb (BList.board_id l2) (Board.id b));
      cbn; [|as_it_was Hrefs].
    rewrite (move_to_list_run t db [] c _ _ (get_card_self _ _ _ Hc)).
    destruct (card_update_accepted eng db c _) eqn:Hacc; cbn.
    + split; [|split; [apply users_after_write | intros _; discriminate]].
      apply refs_after_card_write; [|exact Hrefs].
      cbn. unfold get_list. now rewrite Hl2.
    + split; [exact Hrefs|]. split; [reflexivity|]. intros Hst.
      rewrite (move_accepted db c _ _ l2 Hl2 Hst) in Hacc. discriminate.
Qed.


(** X17. The update, delete, reorder and move operations keep the ownership
    chain resolvable: after any sequence of them on a database in which
    every list has its board and every card its list, every list still
    has its board and every card its list. *)
Theorem operations_keep_refs
  (db : Store) (requests : list (datetime * Instance User.t * Operation)) :
  refs_resolve db ->
  refs_resolve (snd (perform_all db requests)).
Proof.
  revert db. induction requests as [|[[t u] op] rest IH]; intros db H;
    [exact H|].
  cbn [perform_all].
  destruct (perform_under_refs t db u op H) as (H1 & _).
  destruct (perform t db u op) as [o db1]. cbn [snd] in H1.
  specialize (IH db1 H1).
  destruct (perform_all db1 rest) as [os db2]. exact IH.
Qed.


(** X18. While the chain resolves, none of these operations ends in an
    unhandled exception, for requests whose positions are in the range of
    the [Integer] column and that assign cards to users that exist: every
    outcome of a sequence of them is a success or an [HTTPException].
    The walk from a card to its board never meets a missing parent, and
    the engine refuses no UPDATE. *)
Theorem operations_never_fail_unhandled
  (db : Store) (requests : list (datetime * Instance User.t * Operation)) :
  refs_resolve db ->
  Forall (fun r => storable db (snd r)) requests ->
  ~ In InternalError (fst (perform_all db requests)).
Proof.
  intros H Hst. revert db H Hst.
  induction requests as [|[[t u] op] rest IH]; intros db H Hst;
    [intros []|].
  cbn [perform_all].
  inversion Hst as [|? ? Hop Hrest]; subst. cbn [snd] in Hop.
  destruct (perform_under_refs t db u op H) as (H1 & Hu & H2).
  specialize (H2 Hop).
  destruct (perform t db u op) as [o db1]. cbn [fst snd] in H1, H2, Hu.
  assert (Hrest' : Forall (fun r => storable db1 (snd r)) rest).
  { apply (Forall_impl _ (P := fun r => storable db (snd r)));
      [|exact Hrest].
    intros [[t' u'] op'] Hs. cbn [snd] in *.
    destruct op'; cbn in *; try exact Hs.
    destruct Hs as [Hp Hk]. split; [exact Hp|].
    unfold assignee_known, get_user in *. now rewrite Hu. }
  specialize (IH db1 H1 Hrest').
  destruct (perform_all db1 rest) as [os db2]. cbn [fst] in *.
  intros [Ho|Hin]; [now apply H2 | now apply IH].
Qed.


Lemma select_by_id_app_present {T} (pk : T -> UUID) id rows row :
  select_by_id pk id rows <> None ->
  select_by_id pk id (rows ++ [row]) <> None.
Proof.
  unfold select_by_id. intros H.
  induction rows as [|x rows IH]; cbn in *; [now destruct H|].
  destruct (uuid_eqb (pk x) id); [discriminate | now apply IH].
Qed.

(** X19. The creations keep the ownership chain resolvable too: a card is only
    created in a list that exists, a list only on a board that exists. *)
Theorem creations_keep_refs
  (t : datetime) (db : Store) (uuid4 parent : UUID)
  (card_in : CardCreate.t) (list_in : ListCreate.t)
  (board_in : BoardCreate.t) (current_user : Instance User.t) :
  refs_resolve db ->
  refs_resolve
    (final_db (request t db
       (endpoints.create_card uuid4 parent card_in current_user))) /\
  refs_resolve
    (final_db (request t db
       (endpoints.create_list uuid4 parent list_in current_user))) /\
  refs_resolve
    (final_db (request t db
       (endpoints.create_board uuid4 board_in current_user))).
Proof.
  intros Hrefs. pose proof Hrefs as [Hlists Hcards]. split; [|split].
  - unfold final_db, request, endpoints.create_card, bind, list_crud.get,
      board_crud.get, query, not_none, raise_if, raise, ret, server_error.
    cbn.
    destruct (select_by_id BList.id parent (lists db)) as [l|] eqn:Hl; cbn;
      [|exact Hrefs].
    destruct (select_by_id Board.id (BList.board_id l) (boards db)) as [b|];
      cbn; [|exact Hrefs].
    destruct (uuid_eqb (Board.owner_id b) (User.id (attrs current_user)));
      cbn; [|exact Hrefs].
    rewrite create_in_list_run.
    destruct (card_insert_accepted eng db _ _ _); cbn; [|exact Hrefs].
    destruct (get_card db uuid4); cbn; [exact Hrefs|].
    split; [exact Hlists|]. intros c Hin. cbn [cards set_cards] in Hin.
    apply in_app_or in Hin. destruct Hin as [Hin|[<-|[]]].
    + exact (Hcards c Hin).
    + unfold get_list. cbn [new_card Card.list_id lists set_cards].
      now rewrite Hl.
  - unfold final_db, request, endpoints.create_list, bind, board_crud.get,
      query, raise_if, raise, ret. cbn.
    destruct (select_by_id Board.id parent (boards db)) as [b|] eqn:Hb; cbn;
      [|exact Hrefs].
    destruct (uuid_eqb (Board.owner_id b) (User.id (attrs current_user)));
      cbn; [|exact Hrefs].
    rewrite create_in_board_run.
    destruct (list_insert_accepted eng db _ _); cbn; [|exact Hrefs].
    destruct (get_list db uuid4); cbn; [exact Hrefs|].
    split.
    + intros l Hin. cbn [lists set_lists] in Hin.
      apply in_app_or in Hin. destruct Hin as [Hin|[<-|[]]].
      * exact (Hlists l Hin).
      * unfold get_board. cbn [new_list BList.board_id boards set_lists].
        now rewrite Hb.
    + intros c Hin. unfold get_list. cbn [lists set_lists].
      apply select_by_id_app_present. now apply Hcards.
  - unfold final_db, request, endpoints.create_board, bind, ret.
    rewrite create_with_owner_run.
    destruct (board_insert_accepted eng db _); cbn; [|exact Hrefs].
    destruct (get_board db uuid4); cbn; [exact Hrefs|].
    split; [|exact Hcards].
    intros l Hin. unfold get_board. cbn [boards set_boards].
    apply select_by_id_app_present. now apply Hlists.
Qed.


(* ------------------------------------------------------------------ *)
(** * Reordering a list *)

Lemma reorder_list_endpoint_run t db list_id reorder_data current_user l b :
  get_list db list_id = Some l ->
  get_board db (BList.board_id l) = Some b ->
  Board.owner_id b = User.id (attrs current_user) ->
  request t db (reorder_list list_id reorder_data current_user)
  = let l' := BList.set_position l (ListReorder.position reorder_data) in
    let db' := after_list_write t db l l' in
    if (BList.position l =? ListReorder.position reorder_data)
       || integer_fits eng (ListReorder.position reorder_data)
    then (Ok (loaded (list_written t l l')), db', [db'])
    else (ServerError, db, []).
Proof.
  intros Hl Hb Ho. pose proof (get_list_self _ _ _ Hl) as Hself.
  unfold get_list, get_board in Hl, Hb.
  unfold request, reorder_list, bind, list_crud.get, board_crud.get, query,
    not_none, raise_if, raise, ret. cbn.
  rewrite Hl. cbn. rewrite Hb. cbn.
  apply uuid_eqb_eq in Ho. rewrite Ho. cbn.
  rewrite list_reorder_run by exact Hself. cbv zeta.
  now destruct (_ || _).
Qed.

Lemma reorder_list_cases db list_id reorder_data current_user :
  (exists l b,
     get_list db list_id = Some l /\
     get_board db (BList.board_id l) = Some b /\
     Board.owner_id b = User.id (attrs current_user))
  \/
  (exists x,
     (forall lo, x <> Ok lo) /\
     forall t, request t db (reorder_list list_id reorder_data current_user)
               = (x, db, [])).
Proof.
  unfold get_list, get_board.
  unfold request, reorder_list, bind, list_crud.get, board_crud.get, query,
    not_none, raise_if, raise, ret, server_error. cbn.
  destruct (select_by_id BList.id list_id (lists db)) as [l|] eqn:Hl;
    cbn; [|right; eexists; refine (conj _ (fun _ => eq_refl)); discriminate].
  destruct (select_by_id Board.id (BList.board_id l) (boards db)) as [b|]
    eqn:Hb; cbn; [|right; eexists; refine (conj _ (fun _ => eq_refl)); discriminate].
  destruct (uuid_eqb (Board.owner_id b) (User.id (attrs current_user)))
    eqn:Hown; cbn; [|right; eexists; refine (conj _ (fun _ => eq_refl)); discriminate].
  left. exists l, b. apply uuid_eqb_eq in Hown. auto.
Qed.

Lemma list_written_fields t l position :
  let v := list_written t l (BList.set_position l position) in
  BList.id v = BList.id l /\ BList.position v = position /\
  BList.board_id v = BList.board_id l /\ BList.title v = BList.title l.
Proof.
  cbv zeta. unfold list_written.
  destruct (BList.eq_dec _ _) as [E|E]; cbn; [|auto].
  pose proof (f_equal BList.position E) as E2. cbn in E2. auto.
Qed.

Lemma get_list_after_write t db l l' :
  BList.id l' = BList.id l ->
  get_list db (BList.id l) = Some l ->
  get_list (after_list_write t db l l') (BList.id l)
  = Some (list_written t l l').
Proof.
  intros Hid Hget. unfold after_list_write, list_written.
  destruct (BList.eq_dec l l'); [exact Hget|].
  unfold get_list. cbn [lists set_lists].
  exact (select_by_id_update_same BList.id (BList.id l)
           (BList.set_updated_at l' t) (lists db) l Hget Hid).
Qed.


Lemma after_list_write_tables t db l l' :
  users (after_list_write t db l l') = users db /\
  boards (after_list_write t db l l') = boards db /\
  cards (after_list_write t db l l') = cards db.
Proof. unfold after_list_write. now destruct (BList.eq_dec l l'). Qed.


Lemma set_list_position_same l : BList.set_position l (BList.position l) = l.
Proof. now destruct l. Qed.

(** X21. [reorder_list] is idempotent: the second call with the same position
    answers as the first and leaves the database of the first. *)
Theorem reorder_list_idempotent
  (t1 t2 : datetime) (db : Store) (list_id : UUID)
  (reorder_data : ListReorder.t) (current_user : Instance User.t) :
  let r1 := request t1 db (reorder_list list_id reorder_data current_user) in
  let r2 := request t2 (final_db r1)
              (reorder_list list_id reorder_data current_user) in
  response r2 = response r1 /\ final_db r2 = final_db r1.
Proof.
  cbv zeta.
  destruct (reorder_list_cases db list_id reorder_data current_user)
    as [(l & b & Hl & Hb & Ho) | (x & _ & Hx)].
  - rewrite (reorder_list_endpoint_run t1 db list_id reorder_data current_user
               l b Hl Hb Ho).
    cbv zeta.
    destruct ((BList.position l =? ListReorder.position reorder_data)
              || integer_fits eng (ListReorder.position reorder_data))
      eqn:Hacc.
    2:{ unfold final_db at 1 3. unfold response at 2. cbn [fst snd].
        rewrite (reorder_list_endpoint_run t2 db list_id reorder_data
                   current_user l b Hl Hb Ho).
        cbv zeta. rewrite Hacc. now split. }
    unfold final_db at 1 3. unfold response at 2. cbn [fst snd].
    set (p := ListReorder.position reorder_data).
    set (db1 := after_list_write t1 db l (BList.set_position l p)).
    set (v := list_written t1 l (BList.set_position l p)).
    pose proof (get_list_self _ _ _ Hl) as Hself.
    assert (Hid : BList.id l = list_id).
    { unfold get_list in Hl. now destruct (select_by_id_some _ _ _ _ Hl). }
    destruct (list_written_fields t1 l p) as (_ & Hvp & Hvb & _).
    fold v in Hvp, Hvb.
    destruct (after_list_write_tables t1 db l (BList.set_position l p))
      as (_ & Hbs & _). fold db1 in Hbs.
    assert (Hl1 : get_list db1 list_id = Some v).
    { rewrite <- Hid. now apply get_list_after_write. }
    assert (Hb1 : get_board db1 (BList.board_id v) = Some b).
    { unfold get_board in *. now rewrite Hvb, Hbs. }
    rewrite (reorder_list_endpoint_run t2 db1 list_id reorder_data
               current_user v b Hl1 Hb1 Ho).
    cbv zeta. fold p. rewrite Hvp, Z.eqb_refl. cbn [orb].
    unfold response, final_db. cbn [fst snd].
    assert (Hsame : BList.set_position v p = v).
    { rewrite <- Hvp at 1. apply set_list_position_same. }
    unfold list_written, after_list_write. rewrite Hsame.
    destruct (BList.eq_dec v v) as [_|N]; [|congruence]. now split.
  - rewrite (Hx t1). unfold final_db at 1 3. cbn [fst snd]. rewrite (Hx t2).
    now split.
Qed.


(* ------------------------------------------------------------------ *)
(** * Moving a card, continued *)

Lemma In_update_where_id_iff {T} (pk : T -> UUID) id v rows x :
  In x (update_where_id pk id v rows) <->
  (x = v /\ exists r, In r rows /\ pk r = id) \/ (In x rows /\ pk x <> id).
Proof.
  unfold update_where_id. rewrite in_map_iff. split.
  - intros (r & Hr & Hin). destruct (uuid_eqb (pk r) id) eqn:E.
    + left. split; [congruence|]. exists r. split; [exact Hin|].
      now apply uuid_eqb_eq.
    + right. subst x. split; [exact Hin | now apply uuid_eqb_neq].
  - intros [(-> & r & Hin & Hr) | (Hin & Hne)].
    + exists r. split; [|exact Hin]. apply uuid_eqb_eq in Hr. now rewrite Hr.
    + exists x. split; [|exact Hin]. apply uuid_eqb_neq in Hne.
      now rewrite Hne.
Qed.

(** X22. A card never leaves its board: after a successful move the board of
    the card is the board it was on, the rows of all the other cards are
    what they were, and no list, board or user is written. *)
Theorem move_card_keeps_board
  (t : datetime) (db : Store) (card_id : UUID) (move_data : CardMove.t)
  (current_user : Instance User.t) (card : Instance Card.t) :
  let r := request t db (move_card card_id move_data current_user) in
  response r = Ok card ->
  exists c b,
    get_card db card_id = Some c /\
    current_board db c = Some b /\
    current_board (final_db r) (attrs card) = Some b /\
    other_cards card_id (final_db r) = other_cards card_id db /\
    lists (final_db r) = lists db /\
    boards (final_db r) = boards db /\
    users (final_db r) = users db.
Proof.
  cbv zeta. intros Hok.
  destruct (move_card_ok_inv _ _ _ _ _ _ Hok)
    as (c & b & l2 & Hc & Hb & Ho & Ht & He & Hacc).
  rewrite (move_card_run t db card_id move_data current_user c b l2) in *
    by assumption.
  cbv zeta in *. unfold response, final_db in *. cbn [fst snd] in *.
  injection Hok as <-. cbn [attrs loaded].
  set (c' := Card.set_position
               (Card.set_list_id c (CardMove.list_id move_data))
               (CardMove.position move_data)).
  destruct (after_write_tables t db c c') as (Hu & Hbs & Hls).
  destruct (moved_fields t c (CardMove.list_id move_data)
              (CardMove.position move_data)) as (_ & Hl & _).
  pose proof (get_card_id _ _ _ Hc) as Hid.
  exists c, b. repeat split; try assumption.
  - unfold current_board, board_of_list. rewrite Hl, Hls, Hbs.
    unfold get_list in Ht. rewrite Ht. rewrite He.
    destruct (current_board_inv _ _ _ Hb) as (l & _ & Hbl).
    now apply get_board_self in Hbl.
  - rewrite <- Hid. now apply other_cards_after_write.
Qed.

(** X23. After a move to another list the card is in the listing of the target
    list and no longer in the listing of the list it came from; for the
    other cards both listings are what they were. *)
Theorem move_card_then_listed
  (t : datetime) (db : Store) (card_id : UUID) (move_data : CardMove.t)
  (current_user : Instance User.t) (card : Instance Card.t) (c : Card.t) :
  let r := request t db (move_card card_id move_data current_user) in
  response r = Ok card ->
  get_card db card_id = Some c ->
  Card.list_id c <> CardMove.list_id move_data ->
  In (attrs card)
    (cards_of_list (final_db r) (CardMove.list_id move_data)) /\
  (forall x, In x (cards_of_list (final_db r) (Card.list_id c)) ->
             Card.id x <> card_id) /\
  (forall x list_id,
     Card.id x <> card_id ->
     (In x (cards_of_list (final_db r) list_id) <->
      In x (cards_of_list db list_id))).
Proof.
  cbv zeta. intros Hok Hc Hne.
  destruct (move_card_ok_inv _ _ _ _ _ _ Hok)
    as (c0 & b & l2 & Hc0 & Hb & Ho & Ht & He & Hacc).
  rewrite Hc in Hc0. injection Hc0 as <-.
  rewrite (move_card_run t db card_id move_data current_user c b l2) in *
    by assumption.
  cbv zeta in *. unfold response, final_db in *. cbn [fst snd] in *.
  injection Hok as <-. cbn [attrs loaded].
  pose proof (get_card_id _ _ _ Hc) as Hid.
  destruct (moved_fields t c (CardMove.list_id move_data)
              (CardMove.position move_data)) as (Hmid & Hml & _).
  set (v := moved t c (CardMove.list_id move_data)
              (CardMove.position move_data)) in *.
  assert (Hdb : cards (after_write t db c
                   (Card.set_position
                      (Card.set_list_id c (CardMove.list_id move_data))
                      (CardMove.position move_data)))
                = update_where_id Card.id card_id v (cards db)).
  { unfold after_write. destruct (Card.eq_dec _ _) as [E|E].
    - exfalso. apply Hne. pose proof (f_equal Card.list_id E) as E'.
      exact E'.
    - cbn [cards set_cards]. unfold cards_with. now rewrite Hid. }
  assert (Hin : forall x list_id,
            In x (cards_of_list
                    (after_write t db c
                       (Card.set_position
                          (Card.set_list_id c (CardMove.list_id move_data))
                          (CardMove.position move_data))) list_id) <->
            ((x = v /\ exists r, In r (cards db) /\ Card.id r = card_id) \/
             (In x (cards db) /\ Card.id x <> card_id)) /\
            Card.list_id x = list_id).
  { intros x lid. rewrite In_cards_of_list, Hdb.
    now rewrite In_update_where_id_iff. }
  destruct (select_by_id_some _ _ _ _ Hc) as [Hcin _].
  split; [|split].
  - apply Hin. split; [|exact Hml]. left. split; [reflexivity|].
    exists c. auto.
  - intros x Hx. apply Hin in Hx. destruct Hx as [[(-> & _) | (_ & Hx)] Hl].
    + exfalso. apply Hne. congruence.
    + exact Hx.
  - intros x lid Hx. rewrite Hin, In_cards_of_list. split.
    + intros [[(-> & _) | (Hcards & _)] Hl]; [congruence | auto].
    + intros [Hcards Hl]. auto.
Qed.


(* ------------------------------------------------------------------ *)
(** * Deleting *)

Lemma In_delete_where {T} (p : T -> bool) rows x :
  In x (delete_where p rows) <-> In x rows /\ p x = false.
Proof.
  unfold delete_where. rewrite filter_In. now rewrite negb_true_iff.
Qed.

Lemma in_board_iff board_id db list_id :
  in_board board_id db list_id = true <->
  exists l, In l (lists db) /\ BList.id l = list_id /\
            BList.board_id l = board_id.
Proof.
  unfold in_board. rewrite existsb_exists. split.
  - intros (l & Hin & H). apply andb_true_iff in H. destruct H as [H1 H2].
    apply uuid_eqb_eq in H1, H2. now exists l.
  - intros (l & Hin & H1 & H2). exists l. split; [exact Hin|].
    apply andb_true_iff. now rewrite !uuid_eqb_eq.
Qed.

(** X24. [delete_board], for the owner, removes the board, the lists on it and
    the cards in these lists, in one commit, and nothing else: the other
    boards, the lists on them, their cards and the users stay. The board
    is then not found: deleting it again is answered 404 and writes
    nothing. *)
Theorem delete_board_cascades
  (t t' : datetime) (db : Store) (board_id : UUID)
  (current_user : Instance User.t) (b : Board.t) :
  get_board db board_id = Some b ->
  Board.owner_id b = User.id (attrs current_user) ->
  let r := request t db (delete_board board_id current_user) in
  let db' := final_db r in
  response r = Ok tt /\ commits r = [db'] /\
  (forall x, In x (boards db') <-> In x (boards db) /\ Board.id x <> board_id)
  /\
  (forall l, In l (lists db') <->
             In l (lists db) /\ BList.board_id l <> board_id)
  /\
  (forall c, In c (cards db') <->
             In c (cards db) /\
             ~ exists l, In l (lists db) /\ BList.id l = Card.list_id c /\
                         BList.board_id l = board_id)
  /\
  users db' = users db /\
  request t' db' (delete_board board_id current_user)
  = (Raise (mkHTTPException 404 "Board not found"), db', []).
Proof.
  intros Hb Ho. cbv zeta.
  assert (Hid : Board.id b = board_id).
  { unfold get_board in Hb. now destruct (select_by_id_some _ _ _ _ Hb). }
  assert (Hrun : request t db (delete_board board_id current_user)
                 = (Ok tt, flush_delete db (EBoard (loaded b)),
                    [flush_delete db (EBoard (loaded b))])).
  { unfold request, delete_board, bind, board_crud.get, query, raise_if,
      raise, ret. cbn. unfold get_board in Hb. rewrite Hb. cbn.
    apply uuid_eqb_eq in Ho. rewrite Ho. cbn.
    rewrite (board_remove_run t db [] board_id b Hb). reflexivity. }
  rewrite Hrun. unfold response, final_db, commits. cbn [fst snd].
  cbn [flush_delete loaded committed_state]. rewrite Hid.
  cbn [boards lists cards users].
  repeat split; try reflexivity.
  - apply In_delete_where in H. tauto.
  - apply In_delete_where in H. destruct H as [_ H].
    now apply uuid_eqb_neq.
  - intros [H1 H2]. apply In_delete_where. split; [exact H1|].
    now apply uuid_eqb_neq.
  - apply In_delete_where in H. tauto.
  - apply In_delete_where in H. destruct H as [_ H].
    now apply uuid_eqb_neq.
  - intros [H1 H2]. apply In_delete_where. split; [exact H1|].
    now apply uuid_eqb_neq.
  - apply In_delete_where in H. tauto.
  - apply In_delete_where in H. destruct H as [_ H]. intros Hex.
    apply in_board_iff in Hex. congruence.
  - intros [H1 H2]. apply In_delete_where. split; [exact H1|].
    destruct (in_board board_id db (Card.list_id c)) eqn:E; [|reflexivity].
    exfalso. apply H2. now apply in_board_iff.
  - unfold request, delete_board, board_crud.get, bind, query, raise. cbn.
    pose proof (select_by_id_delete_same Board.id board_id (boards db)) as H.
    unfold select_by_id, delete_where in *. now rewrite H.
Qed.

(** X25. [delete_list], for the owner of its board, removes the list and the
    cards in it, in one commit, and nothing else. *)
Theorem delete_list_cascades
  (t : datetime) (db : Store) (list_id : UUID)
  (current_user : Instance User.t) (l : BList.t) (b : Board.t) :
  get_list db list_id = Some l ->
  get_board db (BList.board_id l) = Some b ->
  Board.owner_id b = User.id (attrs current_user) ->
  let r := request t db (delete_list list_id current_user) in
  let db' := final_db r in
  response r = Ok tt /\ commits r = [db'] /\
  get_list db' list_id = None /\
  (forall x, In x (lists db') <-> In x (lists db) /\ BList.id x <> list_id)
  /\
  (forall c, In c (cards db') <->
             In c (cards db) /\ Card.list_id c <> list_id)
  /\
  boards db' = boards db /\ users db' = users db.
Proof.
  intros Hl Hb Ho. cbv zeta.
  assert (Hid : BList.id l = list_id).
  { unfold get_list in Hl. now destruct (select_by_id_some _ _ _ _ Hl). }
  assert (Hrun : request t db (delete_list list_id current_user)
                 = (Ok tt, flush_delete db (EList (loaded l)),
                    [flush_delete db (EList (loaded l))])).
  { unfold request, delete_list, bind, list_crud.get, board_crud.get, query,
      not_none, raise_if, raise, ret. cbn.
    unfold get_list, get_board in Hl, Hb. rewrite Hl. cbn. rewrite Hb. cbn.
    apply uuid_eqb_eq in Ho. rewrite Ho. cbn.
    rewrite (list_remove_run t db [] list_id l Hl). reflexivity. }
  rewrite Hrun. unfold response, final_db, commits. cbn [fst snd].
  cbn [flush_delete loaded committed_state]. rewrite Hid.
  unfold get_list. cbn [boards lists cards users].
  repeat split; try reflexivity.
  - apply (select_by_id_delete_same BList.id).
  - apply In_delete_where in H. tauto.
  - apply In_delete_where in H. destruct H as [_ H].
    now apply uuid_eqb_neq.
  - intros [H1 H2]. apply In_delete_where. split; [exact H1|].
    now apply uuid_eqb_neq.
  - apply In_delete_where in H. tauto.
  - apply In_delete_where in H. destruct H as [_ H].
    now apply uuid_eqb_neq.
  - intros [H1 H2]. apply In_delete_where. split; [exact H1|].
    now apply uuid_eqb_neq.
Qed.

(** X26. [delete_card], for the owner of its board, removes that card, in one
    commit, and nothing else; the card is then not found. *)
Theorem delete_card_removes
  (t t' : datetime) (db : Store) (card_id : UUID)
  (current_user : Instance User.t) (c : Card.t) (b : Board.t) :
  get_card db card_id = Some c ->
  current_board db c = Some b ->
  Board.owner_id b = User.id (attrs current_user) ->
  let r := request t db (delete_card card_id current_user) in
  let db' := final_db r in
  response r = Ok tt /\ commits r = [db'] /\
  (forall x, In x (cards db') <-> In x (cards db) /\ Card.id x <> card_id)
  /\
  lists db' = lists db /\ boards db' = boards db /\ users db' = users db /\
  request t' db' (endpoints.get_card card_id current_user)
  = (Raise (mkHTTPException 404 "Card not found"), db', []).
Proof.
  intros Hc Hb Ho. cbv zeta.
  pose proof (get_card_id _ _ _ Hc) as Hid.
  assert (Hrun : request t db (delete_card card_id current_user)
                 = (Ok tt, flush_delete db (ECard (loaded c)),
                    [flush_delete db (ECard (loaded c))])).
  { destruct (current_board_inv _ _ _ Hb) as (l & Hl & Hbl).
    unfold request, delete_card, bind, card_crud.get, list_crud.get,
      board_crud.get, query, not_none, raise_if, raise, ret. cbn.
    unfold get_card, get_list, get_board in Hc, Hl, Hbl.
    rewrite Hc. cbn. rewrite Hl. cbn. rewrite Hbl. cbn.
    apply uuid_eqb_eq in Ho. rewrite Ho. cbn.
    rewrite (card_remove_run t db [] card_id c Hc). reflexivity. }
  rewrite Hrun. unfold response, final_db, commits. cbn [fst snd].
  cbn [flush_delete loaded committed_state]. rewrite Hid.
  cbn [boards lists cards users set_cards].
  repeat split; try reflexivity.
  - apply In_delete_where in H. tauto.
  - apply In_delete_where in H. destruct H as [_ H].
    now apply uuid_eqb_neq.
  - intros [H1 H2]. apply In_delete_where. split; [exact H1|].
    now apply uuid_eqb_neq.
  - unfold request, endpoints.get_card, bind, card_crud.get, query, raise.
    cbn.
    pose proof (select_by_id_delete_same Card.id card_id (cards db)) as H.
    unfold select_by_id, delete_where in *. now rewrite H.
Qed.


(* ------------------------------------------------------------------ *)
(** * The first superuser *)

Lemma update_where_id_absent {T} (pk : T -> UUID) id v rows :
  select_by_id pk id rows = None -> update_where_id pk id v rows = rows.
Proof.
  unfold select_by_id, update_where_id.
  induction rows as [|x rows IH]; cbn; [reflexivity|].
  destruct (uuid_eqb (pk x) id); [discriminate|].
  intros H. now rewrite IH.
Qed.

Lemma create_user_collision_run get_password_hash t db log uuid4 obj_in :
  username_taken db (UserCreate.username obj_in) ->
  CRUDUser.create get_password_hash uuid4 obj_in (mkSession eng db [] log t)
  = (ServerError, mkSession eng db [] log t).
Proof.
  intros (w & Hin & Hw).
  unfold CRUDUser.create, bind, func_now, db_add_commit, db_refresh, query.
  cbn. fold (new_user get_password_hash t uuid4 obj_in).
  unfold insert_user.
  assert (Hex : existsb
            (fun r => String.eqb (User.email r)
                        (User.email (new_user get_password_hash t uuid4 obj_in))
                      || String.eqb (User.username r)
                           (User.username
                              (new_user get_password_hash t uuid4 obj_in)))
            (users db) = true).
  { apply existsb_exists. exists w. split; [exact Hin|].
    cbn. rewrite Hw, String.eqb_refl. apply orb_true_r. }
  rewrite Hex. reflexivity.
Qed.

Section InitialDataFacts.
Variable get_password_hash : string -> string.
Variable FIRST_SUPERUSER_EMAIL : string.
Variable FIRST_SUPERUSER_USERNAME : string.
Variable FIRST_SUPERUSER_PASSWORD : string.

Local Abbreviation user_in :=
  (superuser_in FIRST_SUPERUSER_EMAIL FIRST_SUPERUSER_USERNAME
     FIRST_SUPERUSER_PASSWORD).

Local Abbreviation init :=
  (init_db get_password_hash FIRST_SUPERUSER_EMAIL FIRST_SUPERUSER_USERNAME
     FIRST_SUPERUSER_PASSWORD).

Local Abbreviation superuser :=
  (new_superuser get_password_hash FIRST_SUPERUSER_EMAIL
     FIRST_SUPERUSER_USERNAME FIRST_SUPERUSER_PASSWORD).

Lemma init_db_run_new t db uuid4 :
  user_by_email db FIRST_SUPERUSER_EMAIL = None ->
  ~ username_taken db FIRST_SUPERUSER_USERNAME ->
  get_user db uuid4 = None ->
  request t db (init uuid4)
  = (Ok (SuperuserCreated FIRST_SUPERUSER_EMAIL),
     set_users db (users db ++ [superuser t uuid4]),
     [set_users db
        (users db ++ [new_user get_password_hash t uuid4 user_in]);
      set_users db (users db ++ [superuser t uuid4])]).
Proof.
  intros He Hn Hid.
  assert (He' : ~ email_taken db (UserCreate.email user_in)).
  { intros H. apply find_email_taken in H. now destruct H. }
  unfold init_db, request, bind, user_crud.get_by_email, query.
  cbn [fst snd database]. unfold user_by_email in He. rewrite He.
  cbn [option_map]. fold user_in.
  rewrite (create_user_run get_password_hash t db [] uuid4 user_in He' Hn Hid).
  cbv zeta. unfold db_add, db_commit, db_refresh, bind, query, flush, ret,
    setattr, loaded.
  cbn [fst snd database pending committed now attrs committed_state app
       fold_left flush_one flush_update].
  set (nu := new_user get_password_hash t uuid4 user_in).
  destruct (User.eq_dec nu (User_set_is_superuser nu true)) as [E|_].
  { pose proof (f_equal User.is_superuser E) as E'. discriminate E'. }
  rewrite no_violation_without_change by reflexivity.
  cbn [users set_users User.id nu new_user].
  assert (Hupd : update_where_id User.id uuid4
                   (User.set_updated_at (User_set_is_superuser nu true) t)
                   (users db ++ [nu])
                 = users db ++ [superuser t uuid4]).
  { unfold update_where_id. rewrite map_app.
    fold (update_where_id User.id uuid4
            (User.set_updated_at (User_set_is_superuser nu true) t)
            (users db)).
    rewrite update_where_id_absent by exact Hid.
    cbn. now rewrite uuid_eqb_refl. }
  rewrite Hupd.
  pose proof (select_by_id_app_new User.id uuid4 (users db)
                (superuser t uuid4) Hid eq_refl) as Hsel.
  cbn [database users set_users]. rewrite Hsel. reflexivity.
Qed.

Lemma init_db_cases t db uuid4 :
  (exists w, user_by_email db FIRST_SUPERUSER_EMAIL = Some w /\
             request t db (init uuid4)
             = (Ok (SuperuserAlreadyExists FIRST_SUPERUSER_EMAIL), db, []))
  \/
  (user_by_email db FIRST_SUPERUSER_EMAIL = None /\
   ~ username_taken db FIRST_SUPERUSER_USERNAME /\
   get_user db uuid4 = None)
  \/
  (forall m, response (request t db (init uuid4)) <> Ok m).
Proof.
  destruct (user_by_email db FIRST_SUPERUSER_EMAIL) as [w|] eqn:He.
  - left. exists w. split; [reflexivity|].
    unfold init_db, request, bind, user_crud.get_by_email, query, ret.
    cbn. unfold user_by_email in He. rewrite He. cbn.
    apply find_some in He. destruct He as [_ He].
    apply String.eqb_eq in He. now rewrite He.
  - right.
    destruct (find (fun u => String.eqb (User.username u)
                               FIRST_SUPERUSER_USERNAME) (users db))
      as [w|] eqn:Hn.
    + right. intros m.
      assert (Hn' : username_taken db (UserCreate.username user_in)).
      { apply find_some in Hn. destruct Hn as [Hin Hw].
        apply String.eqb_eq in Hw. now exists w. }
      unfold init_db, response, request, bind, user_crud.get_by_email,
        query. cbn [fst snd database]. unfold user_by_email in He.
      rewrite He. cbn [option_map]. fold user_in.
      rewrite (create_user_collision_run get_password_hash t db [] uuid4
                 user_in Hn').
      cbn. discriminate.
    + assert (Hn' : ~ username_taken db FIRST_SUPERUSER_USERNAME).
      { intros H. apply find_username_taken in H. now destruct H. }
      destruct (get_user db uuid4) as [w|] eqn:Hid.
      * right. intros m.
        assert (He' : ~ email_taken db (UserCreate.email user_in)).
        { intros H. apply find_email_taken in H. now destruct H. }
        unfold init_db, response, request, bind,
          user_crud.get_by_email, query. cbn [fst snd database].
        unfold user_by_email in He. rewrite He. cbn [option_map].
        fold user_in.
        rewrite (create_user_taken_run get_password_hash t db [] uuid4
                   user_in He' Hn'); [cbn; discriminate|].
        now rewrite Hid.
      * left. auto.
Qed.

(** X27. On a database without the superuser's email and username, [init_db]
    adds one user, active and superuser, whose email is the configured
    one, and leaves the other users as they are. *)
Theorem init_db_creates_superuser (t : datetime) (db : Store) (uuid4 : UUID) :
  ~ email_taken db FIRST_SUPERUSER_EMAIL ->
  ~ username_taken db FIRST_SUPERUSER_USERNAME ->
  get_user db uuid4 = None ->
  exists u,
    response (request t db (init uuid4))
    = Ok (SuperuserCreated FIRST_SUPERUSER_EMAIL) /\
    users (final_db (request t db (init uuid4))) = users db ++ [u] /\
    User.id u = uuid4 /\
    User.email u = FIRST_SUPERUSER_EMAIL /\
    User.is_superuser u = true /\
    User.is_active u = true /\
    User.hashed_password u = get_password_hash FIRST_SUPERUSER_PASSWORD.
Proof.
  intros He Hn Hid.
  assert (He' : user_by_email db FIRST_SUPERUSER_EMAIL = None).
  { destruct (user_by_email db FIRST_SUPERUSER_EMAIL) eqn:E; [|reflexivity].
    destruct He. apply find_email_taken. now rewrite E. }
  rewrite (init_db_run_new t db uuid4 He' Hn Hid).
  exists (superuser t uuid4). repeat split.
Qed.

(** X28. [init_db] is idempotent: once it has run without failing, another
    run, whenever and with whatever fresh id, finds the superuser and
    writes nothing. *)
Theorem init_db_idempotent
  (t t' : datetime) (db : Store) (uuid4 uuid4' : UUID) (m : InitMessage) :
  response (request t db (init uuid4)) = Ok m ->
  let db' := final_db (request t db (init uuid4)) in
  request t' db' (init uuid4')
  = (Ok (SuperuserAlreadyExists FIRST_SUPERUSER_EMAIL), db', []).
Proof.
  intros Hok. cbv zeta.
  destruct (init_db_cases t db uuid4)
    as [(w & Hw & Hrun) | [(He & Hn & Hid) | Hfail]].
  - rewrite Hrun. unfold final_db. cbn [fst snd].
    destruct (init_db_cases t' db uuid4')
      as [(w' & _ & Hrun') | [(He' & _) | Hfail']].
    + exact Hrun'.
    + congruence.
    + exfalso.
      unfold init_db, response, request, bind, user_crud.get_by_email,
        query, ret in Hfail'. cbn in Hfail'.
      unfold user_by_email in Hw. rewrite Hw in Hfail'. cbn in Hfail'.
      now apply (Hfail' (SuperuserAlreadyExists (User.email w))).
  - rewrite (init_db_run_new t db uuid4 He Hn Hid).
    unfold final_db. cbn [fst snd].
    assert (He' : ~ email_taken db FIRST_SUPERUSER_EMAIL).
    { intros H. apply find_email_taken in H. now destruct H. }
    pose proof (user_by_email_new db FIRST_SUPERUSER_EMAIL
                  (superuser t uuid4) He' eq_refl) as Hfind.
    unfold user_by_email in Hfind.
    unfold init_db, request, bind, user_crud.get_by_email, query, ret.
    cbn [fst snd database]. rewrite Hfind. reflexivity.
  - now destruct (Hfail m).
Qed.
End InitialDataFacts.


(* ------------------------------------------------------------------ *)
(** * Board containment *)

Lemma unique_by_key {T K} (f : T -> K) rows x y :
  NoDup (map f rows) -> In x rows -> In y rows -> f x = f y -> x = y.
Proof.
  induction rows as [|r rows IH]; cbn; [now intros _ []|].
  intros Hnd Hx Hy Hf. inversion Hnd as [|? ? Hnotin Hnd']; subst.
  destruct Hx as [<-|Hx], Hy as [<-|Hy].
  - reflexivity.
  - exfalso. apply Hnotin. rewrite Hf. now apply in_map.
  - exfalso. apply Hnotin. rewrite <- Hf. now apply in_map.
  - now apply IH.
Qed.

Lemma find_filter {T} (f p : T -> bool) rows x :
  find f rows = Some x -> p x = true -> find f (filter p rows) = Some x.
Proof.
  induction rows as [|r rows IH]; cbn; [discriminate|].
  destruct (f r) eqn:Ef.
  - intros H Hp. injection H as ->. rewrite Hp. cbn. now rewrite Ef.
  - intros H Hp. destruct (p r); cbn; [rewrite Ef|]; now apply IH.
Qed.

(** What an operation leaves behind: the database as it was, or one write
    of a board, a list or a card, or one delete. A written list keeps its
    board; a written card is in a list of the board it was on. *)
Lemma perform_database t db current_user op :
  let db' := snd (perform t db current_user op) in
  db' = db
  \/ (exists b0 v, get_board db (Board.id b0) = Some b0 /\
                   Board.id v = Board.id b0 /\
                   db' = after_board_write t db b0 v)
  \/ (exists l0 v, get_list db (BList.id l0) = Some l0 /\
                   BList.id v = BList.id l0 /\
                   BList.board_id v = BList.board_id l0 /\
                   db' = after_list_write t db l0 v)
  \/ (exists c0 v l2 b0,
        get_card db (Card.id c0) = Some c0 /\
        Card.id v = Card.id c0 /\
        current_board db c0 = Some b0 /\
        get_list db (Card.list_id v) = Some l2 /\
        BList.board_id l2 = Board.id b0 /\
        db' = after_write t db c0 v)
  \/ (exists b0, db' = flush_delete db (EBoard (loaded b0)))
  \/ (exists l0, db' = flush_delete db (EList (loaded l0)))
  \/ (exists c0, db' = flush_delete db (ECard (loaded c0))).
Proof.
  cbv zeta.
  destruct op as [id x | id | id x | id | id x | id x | id | id x | id x].
  - run_perform.
    destruct (select_by_id Board.id id (boards db)) as [b|] eqn:Hb; cbn;
      [|now left].
    destruct (uuid_eqb (Board.owner_id b) (User.id (attrs current_user)));
      cbn; [|now left].
    destruct (board_update_run t db [] b x (get_board_self _ _ _ Hb))
      as (b' & Hid & _ & Hrun).
    rewrite Hrun. cbn. right. left. exists b, b'.
    split; [now apply get_board_self with id|]. auto.
  - run_perform.
    destruct (select_by_id Board.id id (boards db)) as [b|] eqn:Hb; cbn;
      [|now left].
    destruct (uuid_eqb (Board.owner_id b) (User.id (attrs current_user)));
      cbn; [|now left].
    rewrite (board_remove_run t db [] id b Hb). cbn.
    do 4 right. left. now exists b.
  - run_perform.
    destruct (select_by_id BList.id id (lists db)) as [l|] eqn:Hl; cbn;
      [|now left].
    destruct (select_by_id Board.id (BList.board_id l) (boards db)) as [b|];
      cbn; [|now left].
    destruct (uuid_eqb (Board.owner_id b) (User.id (attrs current_user)));
      cbn; [|now left].
    destruct (list_update_run t db [] l x (get_list_self _ _ _ Hl))
      as (l' & Hid & Hbid & _ & Hrun).
    rewrite Hrun.
    destruct (list_update_accepted eng db l l'); cbn; [|now left].
    do 2 right. left. exists l, l'.
    split; [now apply get_list_self with id|]. auto.
  - run_perform.
    destruct (select_by_id BList.id id (lists db)) as [l|] eqn:Hl; cbn;
      [|now left].
    destruct (select_by_id Board.id (BList.board_id l) (boards db)) as [b|];
      cbn; [|now left].
    destruct (uuid_eqb (Board.owner_id b) (User.id (attrs current_user)));
      cbn; [|now left].
    rewrite (list_remove_run t db [] id l Hl). cbn.
    do 5 right. left. now exists l.
  - run_perform.
    destruct (select_by_id BList.id id (lists db)) as [l|] eqn:Hl; cbn;
      [|now left].
    destruct (select_by_id Board.id (BList.board_id l) (boards db)) as [b|];
      cbn; [|now left].
    destruct (uuid_eqb (Board.owner_id b) (User.id (attrs current_user)));
      cbn; [|now left].
    rewrite (list_reorder_run t db [] l _ (get_list_self _ _ _ Hl)).
    cbv zeta. destruct (_ || _); cbn; [|now left].
    do 2 right. left.
    exists l, (BList.set_position l (ListReorder.position x)).
    split; [now apply get_list_self with id|]. auto.
  - run_perform.
    destruct (select_by_id Card.id id (cards db)) as [c|] eqn:Hc; cbn;
      [|now left].
    destruct (select_by_id BList.id (Card.list_id c) (lists db)) as [l|]
      eqn:Hl; cbn; [|now left].
    destruct (select_by_id Board.id (BList.board_id l) (boards db)) as [b|]
      eqn:Hb; cbn; [|now left].
    destruct (uuid_eqb (Board.owner_id b) (User.id (attrs current_user)));
      cbn; [|now left].
    destruct (card_update_run t db [] c x (get_card_self _ _ _ Hc))
      as (c' & Hid & Hlid & _ & _ & Hrun).
    rewrite Hrun.
    destruct (card_update_accepted eng db c c'); cbn; [|now left].
    do 3 right. left. exists c, c', l, b.
    split; [now apply get_card_self with id|]. split; [exact Hid|].
    split; [unfold current_board, board_of_list; now rewrite Hl|].
    split; [unfold get_list; now rewrite Hlid|].
    split; [|reflexivity].
    destruct (select_by_id_some _ _ _ _ Hb) as [_ H]. now rewrite H.
  - run_perform.
    destruct (select_by_id Card.id id (cards db)) as [c|] eqn:Hc; cbn;
      [|now left].
    destruct (select_by_id BList.id (Card.list_id c) (lists db)) as [l|]
      eqn:Hl; cbn; [|now left].
    destruct (select_by_id Board.id (BList.board_id l) (boards db)) as [b|]
      eqn:Hb; cbn; [|now left].
    destruct (uuid_eqb (Board.owner_id b) (User.id (attrs current_user)));
      cbn; [|now left].
    rewrite (card_remove_run t db [] id c Hc). cbn.
    do 6 right. now exists c.
  - run_perform.
    destruct (select_by_id Card.id id (cards db)) as [c|] eqn:Hc; cbn;
      [|now left].
    destruct (select_by_id BList.id (Card.list_id c) (lists db)) as [l|]
      eqn:Hl; cbn; [|now left].
    destruct (select_by_id Board.id (BList.board_id l) (boards db)) as [b|]
      eqn:Hb; cbn; [|now left].
    destruct (uuid_eqb (Board.owner_id b) (User.id (attrs current_user)));
      cbn; [|now left].
    rewrite (reorder_run t db [] c _ (get_card_self _ _ _ Hc)).
    destruct (card_update_accepted eng db c _); cbn; [|now left].
    do 3 right. left.
    exists c, (Card.set_position c (CardReorder.position x)), l, b.
    split; [now apply get_card_self with id|]. split; [reflexivity|].
    split; [unfold current_board, board_of_list; now rewrite Hl|].
    split; [exact Hl|]. split; [|reflexivity].
    destruct (select_by_id_some _ _ _ _ Hb) as [_ H]. now rewrite H.
  - run_perform.
    destruct (select_by_id Card.id id (cards db)) as [c|] eqn:Hc; cbn;
      [|now left].
    destruct (select_by_id BList.id (Card.list_id c) (lists db)) as [l|]
      eqn:Hl; cbn; [|now left].
    destruct (select_by_id Board.id (BList.board_id l) (boards db)) as [b|]
      eqn:Hb; cbn; [|now left].
    destruct (uuid_eqb (Board.owner_id b) (User.id (attrs current_user)));
      cbn; [|now left].
    destruct (select_by_id BList.id (CardMove.list_id x) (lists db))
      as [l2|] eqn:Hl2; cbn; [|now left].
    destruct (uuid_eqb (BList.board_id l2) (Board.id b)) eqn:Eb;
      cbn; [|now left].
    rewrite (move_to_list_run t db [] c _ _ (get_card_self _ _ _ Hc)).
    destruct (card_update_accepted eng db c _); cbn; [|now left].
    do 3 right. left.
    exists c, (Card.set_position (Card.set_list_id c (CardMove.list_id x))
                 (CardMove.position x)), l2, b.
    split; [now apply get_card_self with id|]. split; [reflexivity|].
    split; [unfold current_board, board_of_list; now rewrite Hl|].
    split; [exact Hl2|]. split; [|reflexivity].
    now apply uuid_eqb_eq.
Qed.

Lemma find_filter_none {T} (f p : T -> bool) rows :
  find f rows = None -> find f (filter p rows) = None.
Proof.
  induction rows as [|r rows IH]; cbn; [reflexivity|].
  destruct (f r) eqn:Ef; [discriminate|].
  intros H. destruct (p r); cbn; [rewrite Ef|]; now apply IH.
Qed.

Lemma NoDup_map_filter {T K} (f : T -> K) (p : T -> bool) rows :
  NoDup (map f rows) -> NoDup (map f (filter p rows)).
Proof.
  induction rows as [|r rows IH]; cbn; [auto|].
  intros H. inversion H as [|? ? Hnotin Hnd]; subst.
  destruct (p r); cbn; [|now apply IH].
  constructor; [|now apply IH].
  intros Hin. apply Hnotin. apply in_map_iff in Hin.
  destruct Hin as (x & Hx & Hin). apply filter_In in Hin.
  apply in_map_iff. exists x. tauto.
Qed.

Lemma map_id_update_where_id {T} (pk : T -> UUID) id v rows :
  pk v = id -> map pk (update_where_id pk id v rows) = map pk rows.
Proof.
  intros Hv. unfold update_where_id. rewrite map_map. apply map_ext_in.
  intros x _. destruct (uuid_eqb (pk x) id) eqn:E; [|reflexivity].
  apply uuid_eqb_eq in E. congruence.
Qed.

Lemma board_id_of_written_board t db b0 v c :
  get_board db (Board.id b0) = Some b0 ->
  Board.id v = Board.id b0 ->
  board_id_of (after_board_write t db b0 v) c = board_id_of db c.
Proof.
  intros Hget Hid. unfold after_board_write, board_written.
  destruct (Board.eq_dec b0 v); [reflexivity|].
  unfold board_id_of, current_board, board_of_list. cbn [lists boards set_boards].
  destruct (select_by_id BList.id (Card.list_id c) (lists db)) as [l|];
    [|reflexivity].
  destruct (N.eq_dec (BList.board_id l) (Board.id b0)) as [E|E].
  - rewrite E. unfold get_board in Hget.
    rewrite (select_by_id_update_same Board.id (Board.id b0)
               (Board.set_updated_at v t) (boards db) b0 Hget Hid).
    rewrite Hget. cbn. now rewrite Hid.
  - now rewrite (select_by_id_update_other Board.id (Board.id b0)
                   (BList.board_id l) (Board.set_updated_at v t) (boards db)
                   Hid E).
Qed.

Lemma board_id_of_written_list t db l0 v c :
  get_list db (BList.id l0) = Some l0 ->
  BList.id v = BList.id l0 ->
  BList.board_id v = BList.board_id l0 ->
  board_id_of (after_list_write t db l0 v) c = board_id_of db c.
Proof.
  intros Hget Hid Hbid. unfold after_list_write, list_written.
  destruct (BList.eq_dec l0 v); [reflexivity|].
  unfold board_id_of, current_board, board_of_list. cbn [lists boards set_lists].
  destruct (N.eq_dec (Card.list_id c) (BList.id l0)) as [E|E].
  - rewrite E. unfold get_list in Hget.
    rewrite (select_by_id_update_same BList.id (BList.id l0)
               (BList.set_updated_at v t) (lists db) l0 Hget Hid).
    rewrite Hget. cbn. now rewrite Hbid.
  - now rewrite (select_by_id_update_other BList.id (BList.id l0)
                   (Card.list_id c) (BList.set_updated_at v t) (lists db)
                   Hid E).
Qed.

Lemma board_id_of_deleted_list db l0 c :
  Card.list_id c <> BList.id l0 ->
  board_id_of (flush_delete db (EList (loaded l0))) c = board_id_of db c.
Proof.
  intros Hne. unfold board_id_of, current_board, board_of_list.
  cbn [flush_delete loaded committed_state lists boards].
  now rewrite (select_by_id_delete_other BList.id (BList.id l0)
                 (Card.list_id c) (lists db) Hne).
Qed.

Lemma board_id_of_deleted_board db b0 c :
  in_board (Board.id b0) db (Card.list_id c) = false ->
  board_id_of (flush_delete db (EBoard (loaded b0))) c = board_id_of db c.
Proof.
  intros Hout. unfold board_id_of, current_board, board_of_list.
  cbn [flush_delete loaded committed_state lists boards].
  unfold select_by_id at 1 3. unfold delete_where at 1.
  destruct (find (fun r => uuid_eqb (BList.id r) (Card.list_id c)) (lists db))
    as [l|] eqn:Hl.
  - assert (Hne : BList.board_id l <> Board.id b0).
    { intros E. apply find_some in Hl. destruct Hl as [Hin Hid].
      apply uuid_eqb_eq in Hid.
      assert (H : in_board (Board.id b0) db (Card.list_id c) = true)
        by (apply in_board_iff; now exists l).
      congruence. }
    rewrite (find_filter _ _ _ l Hl).
    + now rewrite (select_by_id_delete_other Board.id (Board.id b0)
                     (BList.board_id l) (boards db) Hne).
    + apply negb_true_iff. now apply uuid_eqb_neq.
  - now rewrite (find_filter_none _ _ _ Hl).
Qed.

Lemma after_board_write_tables t db b b' :
  users (after_board_write t db b b') = users db /\
  lists (after_board_write t db b b') = lists db /\
  cards (after_board_write t db b b') = cards db.
Proof. unfold after_board_write. now destruct (Board.eq_dec b b'). Qed.

(** The operations keep [Card.id] a key: they write a card under its own
    id and otherwise only delete. *)
Lemma perform_keeps_card_ids t db current_user op :
  card_ids_unique db ->
  card_ids_unique (snd (perform t db current_user op)).
Proof.
  intros Hnd.
  destruct (perform_database t db current_user op)
    as [-> | [(b0 & v & Hget & Hid & ->)
       | [(l0 & v & Hget & Hid & Hbid & ->)
       | [(c0 & v & l2 & b0 & Hget & Hid & Hb0 & Hl2 & Hbid & ->)
       | [(b0 & ->) | [(l0 & ->) | (c0 & ->)]]]]]].
  - exact Hnd.
  - destruct (after_board_write_tables t db b0 v) as (_ & _ & Hc).
    unfold card_ids_unique. now rewrite Hc.
  - destruct (after_list_write_tables t db l0 v) as (_ & _ & Hc).
    unfold card_ids_unique. now rewrite Hc.
  - unfold card_ids_unique, after_write.
    destruct (Card.eq_dec c0 v); [exact Hnd|].
    cbn [cards set_cards]. unfold cards_with.
    fold (update_where_id Card.id (Card.id c0) (written t c0 v) (cards db)).
    rewrite map_id_update_where_id; [exact Hnd|].
    now apply written_id.
  - apply NoDup_map_filter, Hnd.
  - apply NoDup_map_filter, Hnd.
  - apply NoDup_map_filter, Hnd.
Qed.

Lemma get_card_survivor db (p : Card.t -> bool) card_id c' :
  card_ids_unique db ->
  select_by_id Card.id card_id (delete_where p (cards db)) = Some c' ->
  get_card db card_id = Some c' /\ p c' = false.
Proof.
  intros Hnd Hc'.
  destruct (select_by_id_some _ _ _ _ Hc') as [Hin Hcid].
  apply In_delete_where in Hin. destruct Hin as [Hin Hout].
  split; [|exact Hout].
  destruct (get_card db card_id) as [c|] eqn:Hc.
  - destruct (select_by_id_some _ _ _ _ Hc) as [Hin2 Hcid2].
    f_equal.
    apply (unique_by_key Card.id (cards db) c c' Hnd Hin2 Hin).
    congruence.
  - exfalso. revert Hc. now apply select_by_id_present with c'.
Qed.

(** After one operation, a card that is still there was there before,
    and is on the board it was on. *)
Lemma perform_keeps_board t db current_user op card_id c' :
  card_ids_unique db ->
  get_card (snd (perform t db current_user op)) card_id = Some c' ->
  exists c, get_card db card_id = Some c /\
            board_id_of (snd (perform t db current_user op)) c'
            = board_id_of db c.
Proof.
  intros Hnd.
  destruct (perform_database t db current_user op)
    as [-> | [(b0 & v & Hget & Hid & ->)
       | [(l0 & v & Hget & Hid & Hbid & ->)
       | [(c0 & v & l2 & b0 & Hget & Hid & Hb0 & Hl2 & Hbid & ->)
       | [(b0 & ->) | [(l0 & ->) | (c0 & ->)]]]]]];
    intros Hc'.
  - now exists c'.
  - destruct (after_board_write_tables t db b0 v) as (_ & _ & Hc).
    unfold get_card in *. rewrite Hc in *.
    exists c'. split; [exact Hc'|].
    now apply board_id_of_written_board.
  - destruct (after_list_write_tables t db l0 v) as (_ & _ & Hc).
    unfold get_card in *. rewrite Hc in *.
    exists c'. split; [exact Hc'|].
    now apply board_id_of_written_list.
  - destruct (after_write_tables t db c0 v) as (_ & Hb & Hl).
    assert (Hsame : forall x, board_id_of (after_write t db c0 v) x
                              = board_id_of db x).
    { intros x. unfold board_id_of, current_board, board_of_list.
      now rewrite Hb, Hl. }
    rewrite Hsame.
    destruct (N.eq_dec card_id (Card.id c0)) as [->|Hne].
    + exists c0. split; [exact Hget|].
      rewrite (get_card_after_write t db c0 v Hid Hget) in Hc'.
      injection Hc' as <-.
      unfold written. destruct (Card.eq_dec c0 v); [reflexivity|].
      unfold board_id_of, current_board, board_of_list in *.
      unfold get_list in Hl2.
      replace (Card.list_id (Card.set_updated_at v t))
        with (Card.list_id v) by (now destruct v).
      rewrite Hl2, Hb0, Hbid.
      destruct (select_by_id BList.id (Card.list_id c0) (lists db))
        as [l|]; [|discriminate].
      destruct (select_by_id_some _ _ _ _ Hb0) as [_ E].
      rewrite E, Hb0. reflexivity.
    + rewrite (get_card_after_write_other t db c0 v card_id Hid Hne) in Hc'.
      now exists c'.
  - unfold get_card in Hc'.
    cbn [flush_delete loaded committed_state cards] in Hc'.
    destruct (get_card_survivor db _ card_id c' Hnd Hc') as [Hc Hout].
    exists c'. split; [exact Hc|].
    now apply board_id_of_deleted_board.
  - unfold get_card in Hc'.
    cbn [flush_delete loaded committed_state cards] in Hc'.
    destruct (get_card_survivor db _ card_id c' Hnd Hc') as [Hc Hout].
    exists c'. split; [exact Hc|].
    apply board_id_of_deleted_list. now apply uuid_eqb_neq.
  - unfold get_card in Hc'.
    cbn [flush_delete loaded committed_state cards set_cards] in Hc'.
    destruct (get_card_survivor db _ card_id c' Hnd Hc') as [Hc Hout].
    exists c'. split; [exact Hc|]. reflexivity.
Qed.

(** X29. Only [move_card] changes the list of a card, and it refuses another
    board; deleting a board or a list takes the cards with it. So through
    any sequence of update, delete, reorder and move requests, by whoever,
    a card that is still there is on the board it started on. *)
Theorem cards_stay_on_their_board
  (db : Store) (requests : list (datetime * Instance User.t * Operation))
  (card_id : UUID) (c' : Card.t) :
  card_ids_unique db ->
  get_card (snd (perform_all db requests)) card_id = Some c' ->
  exists c, get_card db card_id = Some c /\
            board_id_of (snd (perform_all db requests)) c'
            = board_id_of db c.
Proof.
  revert db. induction requests as [|[[t u] op] rest IH]; intros db Hnd.
  - cbn. intros H. now exists c'.
  - cbn [perform_all].
    pose proof (perform_keeps_card_ids t db u op Hnd) as Hnd1.
    pose proof (perform_keeps_board t db u op card_id) as Hstep.
    destruct (perform t db u op) as [o db1]. cbn [snd] in Hstep, Hnd1.
    specialize (IH db1 Hnd1).
    destruct (perform_all db1 rest) as [os db2]. cbn [snd] in *.
    intros Hc'.
    destruct (IH Hc') as (c1 & Hc1 & E1).
    destruct (Hstep c1 Hnd Hc1) as (c & Hc & E).
    exists c. split; [exact Hc|]. congruence.
Qed.


End Properties.

(* ------------------------------------------------------------------ *)
(** * The properties on the example database *)
Lemma many_boards_page :
  request 0 many_boards (list_boards 0 100 (loaded alice))
  = (Ok (map loaded (firstn 100 (boards many_boards))), many_boards, []).
Proof. vm_compute. reflexivity. Qed.

(** [skip] and [limit] reach the engine unchecked: SQLite takes a limit
    of -1 for no limit at all, PostgreSQL refuses it, and neither takes
    2^63. *)
Example list_boards_unchecked_limit :
  @request _ sqlite 0 many_boards (list_boards 0 (-1) (loaded alice))
  = (Ok (map loaded (boards many_boards)), many_boards, []) /\
  @request _ postgresql 0 demo_db (list_boards 0 (-1) (loaded alice))
  = (ServerError, demo_db, []) /\
  @request _ sqlite 0 demo_db (list_boards 0 (2 ^ 63) (loaded alice))
  = (ServerError, demo_db, []).
Proof. vm_compute. repeat split. Qed.

(** C5, as stated, fails: with the default page (skip 0, limit 100) a user
    who owns 101 boards does not get the last one. *)
Lemma list_boards_omits_board :
  ~ lists_exactly_owned_boards 0 many_boards 0 100 (loaded alice).
Proof.
  intros (result & Hres & Hiff).
  rewrite many_boards_page in Hres. unfold response in Hres. cbn [fst] in Hres.
  injection Hres as <-.
  set (b := Board.mk 1100%N "B" None 1%N 0 0).
  assert (Hin : In b (map attrs (map loaded (firstn 100 (boards many_boards))))).
  { apply Hiff. split; [|reflexivity].
    unfold many_boards. cbn [boards]. apply in_map_iff.
    exists 100%nat. split; [reflexivity|]. apply in_seq. lia. }
  rewrite attrs_loaded in Hin.
  assert (Hno : existsb (fun x => uuid_eqb (Board.id x) 1100%N)
                  (firstn 100 (boards many_boards)) = false)
    by (vm_compute; reflexivity).
  assert (Hyes : existsb (fun x => uuid_eqb (Board.id x) 1100%N)
                   (firstn 100 (boards many_boards)) = true).
  { apply existsb_exists. exists b. split; [exact Hin | reflexivity]. }
  congruence.
Qed.

(** No row of the taxonomy is idle: each exception of [error_taxonomy]
    is raised by a request, here the one at its place in
    [demo_failures]. *)
Lemma taxonomy_rows_are_raised :
  map (raised demo_hash demo_verify demo_token demo_str 30 demo_decode
         demo_uuid 0 demo_db_with_dave) demo_failures
  = map (fun row => Some (fst row)) error_taxonomy.
Proof. vm_compute. reflexivity. Qed.


(** C9, as stated, fails: Alice moves her card 30 within its list 20 to
    a position that the [Integer] column of the engine does not hold,
    2^63 on SQLite and 2^31 on PostgreSQL. The UPDATE is refused, the
    request ends in an unhandled exception and the card stays where
    it was. *)
Lemma move_to_current_list_out_of_range :
  Card.list_id card_c1 = 20%N /\
  @request _ sqlite 5 demo_db
    (move_card 30%N (CardMove.mk 20%N (2 ^ 63)) (loaded alice))
  = (ServerError, demo_db, []) /\
  @request _ postgresql 5 demo_db
    (move_card 30%N (CardMove.mk 20%N (2 ^ 31)) (loaded alice))
  = (ServerError, demo_db, []) /\
  ~ @move_within_list_succeeds sqlite /\
  ~ @move_within_list_succeeds postgresql.
Proof.
  split; [reflexivity|].
  split; [vm_compute; reflexivity|].
  split; [vm_compute; reflexivity|].
  split; intros H.
  - destruct (H 5 demo_db 30%N (2 ^ 63) (loaded alice) card_c1 board_b1
                eq_refl eq_refl eq_refl) as [card Hcard].
    vm_compute in Hcard. discriminate Hcard.
  - destruct (H 5 demo_db 30%N (2 ^ 31) (loaded alice) card_c1 board_b1
                eq_refl eq_refl eq_refl) as [card Hcard].
    vm_compute in Hcard. discriminate Hcard.
Qed.

(** Alice moves card 30 from list 20 to list 21, at position 7. *)
Lemma move_card_atomic_witness :
  let r := request 5 demo_db
             (move_card 30%N (CardMove.mk 21%N 7) (loaded alice)) in
  let card := loaded (moved 5 card_c1 21%N 7) in
  response r = Ok card /\
  Card.list_id (attrs card) = 21%N /\
  Card.position (attrs card) = 7 /\
  get_card (final_db r) 30%N = Some (attrs card) /\
  commits r = [final_db r].
Proof.
  cbv zeta.
  assert (Hok : response (request 5 demo_db
                  (move_card 30%N (CardMove.mk 21%N 7) (loaded alice)))
                = Ok (loaded (moved 5 card_c1 21%N 7)))
    by (vm_compute; reflexivity).
  pose proof (move_card_atomic 5 demo_db 30%N (CardMove.mk 21%N 7)
                (loaded alice) _ Hok) as H.
  cbv zeta in H. destruct H as (H1 & H2 & H3 & H4 & _).
  repeat split; assumption.
Defined.

(** Bob, who does not own board 10, moves card 30 to a list that does not
    exist: the answer is 403, not 404. Alice, who owns it, moves the card
    to list 21: all four checks pass and the card is written there. *)
Lemma move_card_checks_in_order_witness :
  get_list demo_db 99%N = None /\
  request 5 demo_db (move_card 30%N (CardMove.mk 99%N 7) (loaded bob))
  = (Raise (mkHTTPException 403 "Not authorized to move this card"),
     demo_db, [])
  /\
  exists card,
    let r := request 5 demo_db
               (move_card 30%N (CardMove.mk 21%N 7) (loaded alice)) in
    r = (Ok card, final_db r, [final_db r]) /\
    Card.list_id (attrs card) = 21%N /\
    Card.position (attrs card) = 7 /\
    get_card (final_db r) 30%N = Some (attrs card).
Proof.
  split; [reflexivity|]. split.
  - pose proof (move_card_checks_in_order 5 demo_db 30%N
                  (CardMove.mk 99%N 7) (loaded bob)) as H.
    cbv zeta in H. destruct H as (_ & H & _).
    apply (H card_c1 board_b1);
      [reflexivity | reflexivity | vm_compute; lia].
  - pose proof (move_card_checks_in_order 5 demo_db 30%N
                  (CardMove.mk 21%N 7) (loaded alice)) as H.
    cbv zeta in H. destruct H as (_ & _ & _ & _ & H).
    destruct (H card_c1 board_b1 list_l2 eq_refl eq_refl eq_refl eq_refl
                eq_refl) as (_ & Hok & _).
    destruct (Hok eq_refl)
      as (card & Hr & _ & Hl & Hp & _ & _ & _ & _ & _ & _ & Hget & _).
    exists card. cbv zeta. repeat split; assumption.
Defined.

(** Alice owns boards 10 and 11; her move of card 30 (board 10) to list 22
    (board 11) is refused. *)
Lemma move_card_cross_board_rejected_witness :
  Board.owner_id board_b1 = User.id alice /\
  Board.owner_id board_b2 = User.id alice /\
  request 5 demo_db (move_card 30%N (CardMove.mk 22%N 7) (loaded alice))
  = (Raise cross_board_move, demo_db, []).
Proof.
  split; [reflexivity|]. split; [reflexivity|].
  assert (Hne : BList.board_id list_m1 <> Board.id board_b1)
    by (vm_compute; lia).
  pose proof (move_card_cross_board_rejected 5 demo_db 30%N
                (CardMove.mk 22%N 7) (loaded alice) card_c1 board_b1 list_m1
                eq_refl eq_refl eq_refl Hne) as H.
  cbv zeta in H. destruct H as [H _]. apply H. reflexivity.
Defined.

(** Deleting a card that does not exist is 404; Bob reordering Alice's
    list 20 is 403. *)
Lemma operations_fetch_then_authorize_witness :
  (exists msg,
     perform 5 demo_db (loaded alice) (DeleteCard 99%N)
     = (Failure (mkHTTPException HTTP_404_NOT_FOUND msg), demo_db)) /\
  (exists msg,
     perform 5 demo_db (loaded bob) (ReorderList 20%N (ListReorder.mk 3))
     = (Failure (mkHTTPException HTTP_403_FORBIDDEN msg), demo_db)).
Proof.
  split.
  - apply (proj1 (operations_fetch_then_authorize 5 demo_db (loaded alice)
                    (DeleteCard 99%N))).
    reflexivity.
  - apply (proj2 (operations_fetch_then_authorize 5 demo_db (loaded bob)
                    (ReorderList 20%N (ListReorder.mk 3))) 1%N).
    + reflexivity.
    + vm_compute. lia.
Defined.

(** Alice lists her boards with the default page. *)
Lemma list_boards_page_witness :
  exists result,
    response (request 5 demo_db (list_boards 0 100 (loaded alice)))
    = Ok result /\
    map attrs result = [board_b1; board_b2] /\
    final_db (request 5 demo_db (list_boards 0 100 (loaded alice)))
    = demo_db /\
    commits (request 5 demo_db (list_boards 0 100 (loaded alice))) = [].
Proof.
  pose proof (list_boards_page 5 demo_db 0 100 (loaded alice)) as H.
  cbv zeta in H. destruct H as (Hdb & Hc & _ & _ & H).
  destruct H as (result & Hres & Hmap & _); [lia | lia |].
  exists result. repeat split; assumption.
Defined.



(** Alice moves card 30 within its list 20. *)
Lemma move_to_current_list_is_reorder_witness :
  let m := request 5 demo_db
             (move_card 30%N (CardMove.mk 20%N 4) (loaded alice)) in
  m = request 5 demo_db (reorder_card 30%N (CardReorder.mk 4) (loaded alice))
  /\
  m = (Ok (loaded (reordered 5 card_c1 4)), final_db m, [final_db m]) /\
  get_card (final_db m) 30%N = Some (reordered 5 card_c1 4).
Proof.
  cbv zeta.
  destruct (move_to_current_list_is_reorder 5 demo_db 30%N 4 (loaded alice)
              card_c1 eq_refl) as (_ & _ & _ & _ & H).
  destruct (H board_b1 eq_refl eq_refl) as [Heq Hfit].
  destruct (Hfit eq_refl) as (Hm & Hget & _).
  split; [exact Heq|]. split; [exact Hm | exact Hget].
Defined.

(** Alice sends her own email back, with a username that no user has:
    her email is in the table, and the update succeeds. *)
Lemma update_user_me_own_values_witness :
  let user_in := UserUpdate.mk (Some "alice@example.com"%string)
                   (Some "alicia"%string) None None in
  let r := request 5 demo_db (update_user_me user_in (loaded alice)) in
  email_taken demo_db "alice@example.com" /\
  r = (Ok (loaded (profile_written 5 alice user_in)), final_db r,
       [final_db r]) /\
  get_user (final_db r) 1%N = Some (profile_written 5 alice user_in) /\
  User.email (profile_written 5 alice user_in) = "alice@example.com"%string /\
  User.username (profile_written 5 alice user_in) = "alicia"%string.
Proof.
  cbv zeta.
  pose proof (update_user_me_own_values 5 demo_db
                (UserUpdate.mk (Some "alice@example.com"%string)
                   (Some "alicia"%string) None None)
                alice eq_refl) as H.
  cbv zeta in H. destruct H as (Htaken & _ & H & _).
  split; [exact Htaken|].
  destruct H as (Hr & Hget & _ & _ & _ & _ & _ & He & Hu & _).
  - left. right. reflexivity.
  - right. exists "alicia"%string. split; [reflexivity|].
    intros (x & Hin & Hx). cbn in Hin.
    destruct Hin as [<-|[<-|[]]]; discriminate Hx.
  - split; [exact Hr|]. split; [exact Hget|]. split; [exact He | exact Hu].
Defined.

(** Alice reorders card 30 to position 3 at time 5 and again at time 9:
    the second call answers as the first, and [updated_at] stays 5. *)
Example reorder_twice :
  let r1 := request 5 demo_db
              (reorder_card 30%N (CardReorder.mk 3) (loaded alice)) in
  let r2 := request 9 (final_db r1)
              (reorder_card 30%N (CardReorder.mk 3) (loaded alice)) in
  response r2 = response r1 /\
  final_db r2 = final_db r1 /\
  option_map Card.updated_at (get_card (final_db r2) 30%N) = Some 5.
Proof. vm_compute. repeat split. Qed.
(** Alice reads her card 30; Bob is refused, and nothing is written. *)
Lemma get_card_authorized_witness :
  response (request 5 demo_db (endpoints.get_card 30%N (loaded alice)))
  = Ok (loaded card_c1) /\
  (forall card,
     response (request 5 demo_db (endpoints.get_card 30%N (loaded bob)))
     <> Ok card).
Proof.
  split.
  - apply (proj1 (get_card_authorized 5 demo_db 30%N (loaded alice))).
    exists card_c1, board_b1. repeat split; reflexivity.
  - intros card H.
    apply (proj1 (get_card_authorized 5 demo_db 30%N (loaded bob))) in H.
    destruct H as (c & b & Hc & Hb & Ho & _).
    vm_compute in Hc. injection Hc as <-.
    vm_compute in Hb. injection Hb as <-.
    vm_compute in Ho. discriminate Ho.
Defined.

(** Alice reads her list 20. *)
Lemma get_list_authorized_witness :
  response (request 5 demo_db (endpoints.get_list 20%N (loaded alice)))
  = Ok (loaded list_l1).
Proof.
  apply (proj1 (get_list_authorized 5 demo_db 20%N (loaded alice))).
  exists list_l1, board_b1. repeat split; reflexivity.
Defined.

(** Alice adds a card with id 40 to her list 20, at position 0, where
    card 30 already is. *)
Lemma create_card_appends_witness :
  let card_in := CardCreate.mk "New" None 0 None None None in
  let c := new_card 5 40%N card_in 20%N in
  request 5 demo_db (endpoints.create_card 40%N 20%N card_in (loaded alice))
  = (Ok (loaded c), set_cards demo_db (cards demo_db ++ [c]),
     [set_cards demo_db (cards demo_db ++ [c])]).
Proof.
  cbv zeta.
  pose proof (create_card_appends 5 demo_db 40%N 20%N
                (CardCreate.mk "New" None 0 None None None) (loaded alice))
    as H.
  cbv zeta in H. destruct H as (_ & _ & H).
  destruct (H board_b1 eq_refl eq_refl) as [Hok _].
  apply Hok; [reflexivity | reflexivity | discriminate].
Defined.

(** Alice then reads card 40 back. *)
Lemma create_card_then_read_witness :
  let card_in := CardCreate.mk "New" None 0 None None None in
  let c := new_card 5 40%N card_in 20%N in
  let db' := set_cards demo_db (cards demo_db ++ [c]) in
  response (request 5 demo_db
              (endpoints.create_card 40%N 20%N card_in (loaded alice)))
  = Ok (loaded c) /\
  request 9 db' (endpoints.get_card 40%N (loaded alice))
  = (Ok (loaded c), db', []).
Proof.
  cbv zeta.
  assert (Hok : response (request 5 demo_db
                  (endpoints.create_card 40%N 20%N
                     (CardCreate.mk "New" None 0 None None None)
                     (loaded alice)))
                = Ok (loaded (new_card 5 40%N
                                (CardCreate.mk "New" None 0 None None None)
                                20%N)))
    by (vm_compute; reflexivity).
  split; [exact Hok|].
  pose proof (create_card_then_read 5 9 demo_db 40%N 20%N
                (CardCreate.mk "New" None 0 None None None) (loaded alice)
                _ Hok) as H.
  cbv zeta in H. destruct H as (_ & _ & H & _). exact H.
Defined.

(** Alice adds a list with id 50 to her board 10. *)
Lemma create_list_appends_witness :
  let list_in := ListCreate.mk "Done" 2 in
  let l := new_list 5 50%N list_in 10%N in
  request 5 demo_db (endpoints.create_list 50%N 10%N list_in (loaded alice))
  = (Ok (loaded l), set_lists demo_db (lists demo_db ++ [l]),
     [set_lists demo_db (lists demo_db ++ [l])]).
Proof.
  cbv zeta.
  pose proof (create_list_appends 5 demo_db 50%N 10%N
                (ListCreate.mk "Done" 2) (loaded alice)) as H.
  cbv zeta in H. destruct H as (_ & _ & H).
  destruct (H board_b1 eq_refl eq_refl) as [Hok _].
  now apply Hok.
Defined.

(** Bob creates a second board, with id 13. *)
Lemma create_board_then_listed_witness :
  let b := new_board 5 13%N (BoardCreate.mk "Mine" None) 2%N in
  let db' := set_boards demo_db (boards demo_db ++ [b]) in
  request 9 db' (list_boards 0 100 (loaded bob))
  = (Ok [loaded board_secret; loaded b], db', []).
Proof.
  cbv zeta.
  assert (Hlim : Z.of_nat
                   (List.length (boards_of demo_db (User.id (attrs (loaded bob)))))
                 < 100) by (vm_compute; reflexivity).
  pose proof (create_board_then_listed 5 9 demo_db 13%N
                (BoardCreate.mk "Mine" None) (loaded bob) 100
                ltac:(discriminate) eq_refl Hlim)
    as H.
  cbv zeta in H. destruct H as (_ & H & _). exact H.
Defined.

Lemma demo_users_unique : unique_users demo_db.
Proof.
  repeat split; cbn; repeat constructor; cbn; intuition discriminate.
Qed.

(** Carol registers with id 40; Bob's email cannot be registered again. *)
Lemma register_checks_witness :
  let u := new_user demo_hash 5 40%N carol_in in
  let db' := set_users demo_db (users demo_db ++ [u]) in
  request 5 demo_db (auth.register demo_hash 40%N carol_in)
  = (Ok (loaded u), db', [db'])
  /\
  request 5 demo_db
    (auth.register demo_hash 40%N
       (UserCreate.mk "bob@example.com" "robert" "pw" None))
  = (Raise email_conflict, demo_db, []).
Proof.
  cbv zeta. split.
  - pose proof (register_checks demo_hash 5 demo_db 40%N carol_in) as H.
    cbv zeta in H. destruct H as (_ & _ & H).
    apply H.
    + intros (x & Hin & Hx). cbn in Hin.
      destruct Hin as [<-|[<-|[]]]; discriminate Hx.
    + intros (x & Hin & Hx). cbn in Hin.
      destruct Hin as [<-|[<-|[]]]; discriminate Hx.
    + reflexivity.
  - pose proof (register_checks demo_hash 5 demo_db 40%N
                  (UserCreate.mk "bob@example.com" "robert" "pw" None)) as H.
    cbv zeta in H. destruct H as (H & _).
    apply H. exists bob. split; [cbn; tauto | reflexivity].
Defined.

Lemma register_keeps_users_unique_witness :
  unique_users
    (final_db (request 5 demo_db (auth.register demo_hash 40%N carol_in))).
Proof.
  apply register_keeps_users_unique. exact demo_users_unique.
Defined.

(** Alice, whose password is "1", logs in; with another password she gets
    the 401 that an unknown email gets. *)
Lemma login_outcomes_witness :
  response (request 5 demo_db
              (auth.login demo_verify demo_token demo_str 30
                 "alice@example.com" "1"))
  = Ok (Token.mk "1" "bearer")
  /\
  response (request 5 demo_db
              (auth.login demo_verify demo_token demo_str 30
                 "alice@example.com" "wrong"))
  = response (request 5 demo_db
                (auth.login demo_verify demo_token demo_str 30
                   "nobody@example.com" "1")).
Proof.
  pose proof (login_outcomes demo_verify demo_token demo_str 30 5 demo_db
                "alice@example.com" "1") as H1.
  pose proof (login_outcomes demo_verify demo_token demo_str 30 5 demo_db
                "alice@example.com" "wrong") as H2.
  pose proof (login_outcomes demo_verify demo_token demo_str 30 5 demo_db
                "nobody@example.com" "1") as H3.
  cbv zeta in H1, H2, H3.
  destruct H1 as (H1 & _). destruct H2 as (_ & H2 & _).
  destruct H3 as (_ & H3 & _).
  split.
  - apply H1. exists alice. repeat split; reflexivity.
  - rewrite H2, H3; [reflexivity | left; reflexivity |].
    right. exists alice. split; reflexivity.
Defined.

Lemma register_then_login_witness :
  response
    (request 9
       (final_db (request 5 demo_db (auth.register demo_hash 40%N carol_in)))
       (auth.login demo_verify demo_token demo_str 30
          "carol@example.com" "secret"))
  = Ok (Token.mk "40" "bearer").
Proof.
  apply (register_then_login demo_hash demo_verify demo_token demo_str 30
           5 9 demo_db 40%N carol_in).
  - reflexivity.
  - intros (x & Hin & Hx). cbn in Hin.
    destruct Hin as [<-|[<-|[]]]; discriminate Hx.
  - intros (x & Hin & Hx). cbn in Hin.
    destruct Hin as [<-|[<-|[]]]; discriminate Hx.
  - reflexivity.
Defined.

(** The token "2" is Bob's; a token for an id nobody has is refused. *)
Lemma get_current_active_user_outcomes_witness :
  response (request 5 demo_db
              (get_current_active_user demo_decode demo_uuid "2"))
  = Ok (loaded bob)
  /\
  response (request 5 demo_db
              (get_current_active_user demo_decode demo_uuid "40"))
  = Raise credentials_exception.
Proof.
  pose proof (get_current_active_user_outcomes demo_decode demo_uuid
                5 demo_db "2") as H1.
  pose proof (get_current_active_user_outcomes demo_decode demo_uuid
                5 demo_db "40") as H2.
  cbv zeta in H1, H2. destruct H1 as (H1 & _). destruct H2 as (_ & H2 & _).
  split.
  - apply H1. exists "2"%string, 2%N, bob. repeat split; reflexivity.
  - apply H2. right. right. exists "40"%string, 40%N.
    repeat split; reflexivity.
Defined.

Lemma login_token_authenticates_witness :
  exists token,
    response (request 5 demo_db
                (auth.login demo_verify demo_token demo_str 30
                   "alice@example.com" "1"))
    = Ok token /\
    request 9 demo_db
      (get_current_active_user demo_decode demo_uuid
         (Token.access_token token))
    = (Ok (loaded alice), demo_db, []).
Proof.
  apply (login_token_authenticates demo_verify demo_token demo_str 30
           demo_decode demo_uuid 5 9 demo_db "alice@example.com" "1" alice);
    reflexivity.
Defined.

(** Alice changes her password from "1" to "2", and logs in with "2". *)
Lemma update_password_me_outcomes_witness :
  exists u',
    response (request 5 demo_db
                (update_password_me demo_verify demo_hash
                   (UserUpdatePassword.mk "1" "2") (loaded alice)))
    = Ok (loaded u') /\
    User.hashed_password u' = "h2"%string /\
    request 5 demo_db
      (update_password_me demo_verify demo_hash
         (UserUpdatePassword.mk "wrong" "2") (loaded alice))
    = (Raise (mkHTTPException 400 "Incorrect password"), demo_db, []).
Proof.
  pose proof (update_password_me_outcomes demo_hash demo_verify 5 demo_db
                (UserUpdatePassword.mk "1" "2") alice eq_refl) as H1.
  pose proof (update_password_me_outcomes demo_hash demo_verify 5 demo_db
                (UserUpdatePassword.mk "wrong" "2") alice eq_refl) as H2.
  cbv zeta in H1, H2. destruct H1 as (_ & H1). destruct H2 as (H2 & _).
  destruct (H1 eq_refl) as (u' & Hok & _ & Hh & _).
  exists u'. split; [exact Hok|]. split; [exact Hh|].
  apply H2. reflexivity.
Defined.

Lemma change_password_then_login_witness :
  response
    (request 9
       (final_db (request 5 demo_db
                    (update_password_me demo_verify demo_hash
                       (UserUpdatePassword.mk "1" "2") (loaded alice))))
       (auth.login demo_verify demo_token demo_str 30
          "alice@example.com" "2"))
  = Ok (Token.mk "1" "bearer").
Proof.
  apply (change_password_then_login demo_hash demo_verify demo_token
           demo_str 30 5 9 demo_db (UserUpdatePassword.mk "1" "2") alice);
    reflexivity.
Defined.

Lemma demo_refs_resolve : refs_resolve demo_db.
Proof.
  split; intros x Hin; cbn in Hin;
    repeat (destruct Hin as [<-|Hin]; [discriminate|]); destruct Hin.
Qed.

Lemma operations_keep_refs_witness :
  refs_resolve
    (snd (perform_all demo_db
            [(5, loaded alice, MoveCard 30%N (CardMove.mk 21%N 0));
             (6, loaded alice, DeleteList 20%N);
             (7, loaded bob, DeleteBoard 10%N)])).
Proof.
  apply operations_keep_refs. exact demo_refs_resolve.
Defined.

Lemma operations_never_fail_unhandled_witness :
  let requests :=
    [(5, loaded alice, MoveCard 30%N (CardMove.mk 21%N 0));
     (6, loaded alice,
      UpdateCard 30%N (CardUpdate.mk None None None (Some 2%N) None None));
     (7, loaded alice, DeleteList 20%N);
     (8, loaded bob, DeleteBoard 10%N)] in
  fst (perform_all demo_db requests)
  = [Success; Success; Success;
     Failure (mkHTTPException 403 "Not authorized to delete this board")]
  /\
  ~ In InternalError (fst (perform_all demo_db requests)).
Proof.
  cbv zeta. split; [vm_compute; reflexivity|].
  apply operations_never_fail_unhandled; [exact demo_refs_resolve|].
  repeat apply Forall_cons; try apply Forall_nil; cbn [snd storable].
  - reflexivity.
  - split; [intros p H; discriminate H|].
    intros id H. injection H as <-. discriminate.
  - exact I.
  - exact I.
Defined.

(** Without the chain the walk does fail: a card whose list is gone makes
    every operation on it end in an unhandled exception. *)
Example dangling_card_fails :
  let db := mkStore [alice] [board_b1] [] [card_c1] in
  fst (perform 5 db (loaded alice) (ReorderCard 30%N (CardReorder.mk 1)))
  = InternalError.
Proof. vm_compute. reflexivity. Qed.

(** So does a position that the column does not hold, and, where foreign
    keys are enforced, an assignee who is no user. *)
Example unstorable_requests_fail :
  @perform sqlite 5 demo_db (loaded alice)
    (ReorderCard 30%N (CardReorder.mk (2 ^ 63)))
  = (InternalError, demo_db) /\
  @perform postgresql 5 demo_db (loaded alice)
    (ReorderList 20%N (ListReorder.mk (2 ^ 31)))
  = (InternalError, demo_db) /\
  @perform postgresql 5 demo_db (loaded alice)
    (UpdateCard 30%N (CardUpdate.mk None None None (Some 9%N) None None))
  = (InternalError, demo_db) /\
  fst (@perform sqlite 5 demo_db (loaded alice)
         (UpdateCard 30%N (CardUpdate.mk None None None (Some 9%N) None None)))
  = Success.
Proof. vm_compute. repeat split. Qed.

Lemma creations_keep_refs_witness :
  refs_resolve
    (final_db (request 5 demo_db
       (endpoints.create_card 40%N 20%N
          (CardCreate.mk "New" None 0 None None None) (loaded alice)))).
Proof.
  apply (creations_keep_refs 5 demo_db 40%N 20%N
           (CardCreate.mk "New" None 0 None None None)
           (ListCreate.mk "x" 0) (BoardCreate.mk "x" None) (loaded alice)
           demo_refs_resolve).
Defined.


(** Alice moves card 30 from list 20 to list 21: the listing of list 20
    keeps card 31 only, and card 30 is in the listing of list 21. *)
Lemma move_card_then_listed_witness :
  let r := request 5 demo_db
             (move_card 30%N (CardMove.mk 21%N 0) (loaded alice)) in
  In (moved 5 card_c1 21%N 0) (cards_of_list (final_db r) 21%N) /\
  cards_of_list (final_db r) 20%N = [card_c2].
Proof.
  cbv zeta.
  assert (Hok : response (request 5 demo_db
                  (move_card 30%N (CardMove.mk 21%N 0) (loaded alice)))
                = Ok (loaded (moved 5 card_c1 21%N 0)))
    by (vm_compute; reflexivity).
  assert (Hne : Card.list_id card_c1 <> 21%N) by (vm_compute; lia).
  pose proof (move_card_then_listed 5 demo_db 30%N (CardMove.mk 21%N 0)
                (loaded alice) _ card_c1 Hok eq_refl Hne) as H.
  cbv zeta in H. destruct H as (H & _). split; [exact H|].
  vm_compute. reflexivity.
Defined.

Lemma move_card_keeps_board_witness :
  let r := request 5 demo_db
             (move_card 30%N (CardMove.mk 21%N 0) (loaded alice)) in
  current_board (final_db r) (moved 5 card_c1 21%N 0) = Some board_b1.
Proof.
  cbv zeta.
  assert (Hok : response (request 5 demo_db
                  (move_card 30%N (CardMove.mk 21%N 0) (loaded alice)))
                = Ok (loaded (moved 5 card_c1 21%N 0)))
    by (vm_compute; reflexivity).
  pose proof (move_card_keeps_board 5 demo_db 30%N (CardMove.mk 21%N 0)
                (loaded alice) _ Hok) as H.
  cbv zeta in H. destruct H as (c & b & Hc & Hb & Hb' & _).
  vm_compute in Hc. injection Hc as <-.
  vm_compute in Hb. injection Hb as <-. exact Hb'.
Defined.

(** Alice deletes her board 10: lists 20 and 21 and cards 30, 31 and 32
    go with it; board 11 with list 22, and Bob's board, list and card
    stay. *)
Lemma delete_board_cascades_witness :
  let r := request 5 demo_db (delete_board 10%N (loaded alice)) in
  response r = Ok tt /\
  boards (final_db r) = [board_b2; board_secret] /\
  lists (final_db r) = [list_m1; list_s1] /\
  cards (final_db r) = [card_c4] /\
  request 9 (final_db r) (delete_board 10%N (loaded alice))
  = (Raise (mkHTTPException 404 "Board not found"), final_db r, []).
Proof.
  cbv zeta.
  pose proof (delete_board_cascades 5 9 demo_db 10%N (loaded alice) board_b1
                eq_refl eq_refl) as H.
  cbv zeta in H. destruct H as (H1 & _ & _ & _ & _ & _ & H2).
  split; [exact H1|]. split; [reflexivity|]. split; [reflexivity|].
  split; [reflexivity | exact H2].
Defined.

(** Alice deletes her list 20: cards 30 and 31 go with it. *)
Lemma delete_list_cascades_witness :
  let r := request 5 demo_db (delete_list 20%N (loaded alice)) in
  response r = Ok tt /\
  get_list (final_db r) 20%N = None /\
  cards (final_db r) = [card_c3; card_c4].
Proof.
  cbv zeta.
  pose proof (delete_list_cascades 5 demo_db 20%N (loaded alice) list_l1
                board_b1 eq_refl eq_refl eq_refl) as H.
  cbv zeta in H. destruct H as (H1 & _ & H2 & _).
  split; [exact H1|]. split; [exact H2|]. vm_compute. reflexivity.
Defined.

(** Alice deletes her card 30. *)
Lemma delete_card_removes_witness :
  let r := request 5 demo_db (delete_card 30%N (loaded alice)) in
  response r = Ok tt /\
  cards (final_db r) = [card_c2; card_c3; card_c4].
Proof.
  cbv zeta.
  pose proof (delete_card_removes 5 9 demo_db 30%N (loaded alice) card_c1
                board_b1 eq_refl eq_refl eq_refl) as H.
  cbv zeta in H. destruct H as (H1 & _). split; [exact H1|].
  vm_compute. reflexivity.
Defined.

(** With "root@example.com" as the configured email, a first run creates
    the superuser with id 40 and a second run finds it. *)
Lemma init_db_creates_superuser_witness :
  exists u,
    response (request 5 demo_db
                (init_db demo_hash "root@example.com" "root" "pw" 40%N))
    = Ok (SuperuserCreated "root@example.com") /\
    users (final_db (request 5 demo_db
                       (init_db demo_hash "root@example.com" "root" "pw"
                          40%N)))
    = [alice; bob; u] /\
    User.is_superuser u = true.
Proof.
  destruct (init_db_creates_superuser demo_hash "root@example.com" "root"
              "pw" 5 demo_db 40%N) as (u & H1 & H2 & _ & _ & H3 & _).
  - intros (x & Hin & Hx). cbn in Hin.
    destruct Hin as [<-|[<-|[]]]; discriminate Hx.
  - intros (x & Hin & Hx). cbn in Hin.
    destruct Hin as [<-|[<-|[]]]; discriminate Hx.
  - reflexivity.
  - exists u. split; [exact H1|]. split; [exact H2 | exact H3].
Defined.

Lemma init_db_idempotent_witness :
  let db' := final_db (request 5 demo_db
               (init_db demo_hash "root@example.com" "root" "pw" 40%N)) in
  request 9 db' (init_db demo_hash "root@example.com" "root" "pw" 41%N)
  = (Ok (SuperuserAlreadyExists "root@example.com"), db', []).
Proof.
  apply (init_db_idempotent demo_hash "root@example.com" "root" "pw"
           5 9 demo_db 40%N 41%N (SuperuserCreated "root@example.com")).
  vm_compute. reflexivity.
Defined.

Lemma cards_stay_on_their_board_witness :
  let requests :=
    [(5, loaded alice, MoveCard 30%N (CardMove.mk 21%N 0));
     (6, loaded alice, DeleteList 20%N);
     (7, loaded bob, UpdateCard 30%N
                       (CardUpdate.mk (Some "x"%string) None None None None None))] in
  exists c c',
    get_card demo_db 30%N = Some c /\
    get_card (snd (perform_all demo_db requests)) 30%N = Some c' /\
    board_id_of (snd (perform_all demo_db requests)) c'
    = board_id_of demo_db c.
Proof.
  cbv zeta.
  assert (Hnd : card_ids_unique demo_db).
  { unfold card_ids_unique. cbn.
    repeat (constructor; [cbn; intuition discriminate|]). constructor. }
  eexists. eexists. split; [|split].
  - vm_compute. reflexivity.
  - vm_compute. reflexivity.
  - destruct (cards_stay_on_their_board (eng := sqlite) demo_db
                [(5, loaded alice, MoveCard 30%N (CardMove.mk 21%N 0));
                 (6, loaded alice, DeleteList 20%N);
                 (7, loaded bob,
                  UpdateCard 30%N
                    (CardUpdate.mk (Some "x"%string) None None None None
                       None))]
                30%N _ Hnd eq_refl) as (c & Hc & E).
    vm_compute in Hc. injection Hc as <-. exact E.
Defined.
